(** * brp-reports-server: the report lifecycle engine

    A shallow embedding of the Express application of the repository (the
    file with the routes [POST /report], [POST /auth], [GET /api/reports]
    and [POST /api/action]) together with the properties of its report
    lifecycle: submission and validation, the pending -> actioned move,
    the webhook dispatcher, the GitHub ban-list synchronizer and the
    password check.

    Layout: the JavaScript values and builtins the handlers use come first
    ([Module JS]), then the configuration, the store, the effect monad and the
    handlers, then the theorems. *)

From Stdlib Require Import ZArith NArith List String Ascii Bool Lia.
From Stdlib Require Import Strings.Byte.
From Stdlib Require Import Floats.SpecFloat.
From stdpp Require Import base option list relations sorting.

Set Default Proof Using "Type".
Local Open Scope list_scope.

(* ===================================================================== *)
(** * JavaScript values and the builtins the handlers call                *)
(* ===================================================================== *)

Module JS.

(** A JavaScript string is a sequence of UTF-16 code units. *)
Definition code_unit := N.
Definition jsstring := list code_unit.

(** An ASCII literal of the source, as code units. *)
Definition lit (s : string) : jsstring :=
  map N_of_ascii (list_ascii_of_string s).

Definition LF : jsstring := [10%N].
Definition DQUOTE : jsstring := [34%N].
Definition BACKTICK : jsstring := [96%N].

Definition jsstring_eqb (a b : jsstring) : bool := bool_decide (a = b).

(** ** String.prototype.trim

    WhiteSpace and LineTerminator of ECMA-262: TAB, LF, VT, FF, CR, SP, NBSP,
    U+1680, U+2000..U+200A, LS, PS, U+202F, U+205F, U+3000 and the BOM. *)
Definition is_whitespace (c : code_unit) : bool :=
  ((9 <=? c) && (c <=? 13) || (c =? 32) || (c =? 160) || (c =? 5760)
   || (8192 <=? c) && (c <=? 8202) || (c =? 8232) || (c =? 8233)
   || (c =? 8239) || (c =? 8287) || (c =? 12288) || (c =? 65279))%N.

Fixpoint trimStart (s : jsstring) : jsstring :=
  match s with
  | c :: s' => if is_whitespace c then trimStart s' else s
  | [] => []
  end.

Definition trimEnd (s : jsstring) : jsstring := rev (trimStart (rev s)).

Definition trim (s : jsstring) : jsstring := trimEnd (trimStart s).

(** ** String.prototype.split with a one-code-unit separator

    [split_at sep s] never returns the empty array: the empty string splits
    into one empty piece. *)
Fixpoint split_at (sep : code_unit) (s : jsstring) : list jsstring :=
  match s with
  | [] => [[]]
  | c :: s' =>
      if (c =? sep)%N then [] :: split_at sep s'
      else match split_at sep s' with
           | piece :: rest => (c :: piece) :: rest
           | [] => [[c]]
           end
  end.

(** ** Numbers

    A Number is an IEEE 754 binary64 value: [spec_float] at precision 53 and
    exponent bound 1024. *)
Definition jsnum := spec_float.

Definition prec : Z := 53.
Definition emax : Z := 1024.

Definition NaN : jsnum := S754_nan.
Definition Infinity : jsnum := S754_infinity false.
Definition pos_zero : jsnum := S754_zero false.

(** The Number of an integer (an array length, a literal such as 3000). *)
Definition num_of_Z (z : Z) : jsnum := binary_normalize prec emax z 0 false.
Definition num_of_nat (n : nat) : jsnum := num_of_Z (Z.of_nat n).

(** The global [isNaN] on a Number. *)
Definition isNaN (x : jsnum) : bool :=
  match x with S754_nan => true | _ => false end.

(** [Number.isFinite]: neither NaN nor an infinity. *)
Definition isFinite (x : jsnum) : bool :=
  match x with S754_nan | S754_infinity _ => false | _ => true end.

(** ** StringToNumber (ECMA-262, 7.1.4.1.1)

    The value [m * 10^e10] of a decimal literal, rounded to the nearest
    binary64 with ties to even. *)
Definition round_decimal (neg : bool) (m : Z) (e10 : Z) : jsnum :=
  match m with
  | Z0 => S754_zero neg
  | Zneg _ => S754_nan
  | Zpos p =>
      match e10 with
      | Zneg k =>
          let '(q, e, l) :=
            SFdiv_core_binary prec emax (Zpos p) 0 (Z.pow_pos 10 k) 0 in
          binary_round_aux prec emax neg q e l
      | _ => binary_normalize prec emax
               (if neg then Z.opp (Zpos p * 10 ^ e10) else Zpos p * 10 ^ e10)
               0 neg
      end
  end.

Definition digit_value (radix : N) (c : code_unit) : option N :=
  let v :=
    if ((48 <=? c) && (c <=? 57))%N then Some (c - 48)%N
    else if ((97 <=? c) && (c <=? 102))%N then Some (c - 87)%N
    else if ((65 <=? c) && (c <=? 70))%N then Some (c - 55)%N
    else None in
  match v with
  | Some d => if (d <? radix)%N then Some d else None
  | None => None
  end.

(** The longest prefix of digits of the radix, as their value and count,
    and what follows it. *)
Fixpoint span_digits (radix : N) (acc : Z) (count : nat) (s : jsstring)
  : Z * nat * jsstring :=
  match s with
  | c :: s' =>
      match digit_value radix c with
      | Some d => span_digits radix (acc * Z.of_N radix + Z.of_N d) (S count) s'
      | None => (acc, count, s)
      end
  | [] => (acc, count, [])
  end.

(** ExponentPart, optional: [None] when the rest is not a well-formed
    exponent followed by the end of the literal. *)
Definition parse_exponent (s : jsstring) : option Z :=
  match s with
  | [] => Some 0%Z
  | c :: s' =>
      if ((c =? 101) || (c =? 69))%N then
        let '(neg, s'') :=
          match s' with
          | 43%N :: t => (false, t)
          | 45%N :: t => (true, t)
          | _ => (false, s')
          end in
        match span_digits 10 0 0 s'' with
        | (_, O, _) => None
        | (v, _, []) => Some (if neg then (- v)%Z else v)
        | _ => None
        end
      else None
  end.

(** StrUnsignedDecimalLiteral. *)
Definition parse_unsigned_decimal (neg : bool) (s : jsstring) : jsnum :=
  if jsstring_eqb s (lit "Infinity") then S754_infinity neg
  else
    let '(ip, ni, r1) := span_digits 10 0 0 s in
    let '(m, nf, r2, has_digits) :=
      match r1 with
      | 46%N :: t =>
          let '(m, nf, r2) := span_digits 10 ip 0 t in
          (m, nf, r2, negb (Nat.eqb (ni + nf) 0))
      | _ => (ip, O, r1, negb (Nat.eqb ni 0))
      end in
    if has_digits then
      match parse_exponent r2 with
      | Some e => round_decimal neg m (e - Z.of_nat nf)
      | None => NaN
      end
    else NaN.

(** NonDecimalIntegerLiteral: the digits after 0b, 0o or 0x. *)
Definition parse_radix (radix : N) (s : jsstring) : jsnum :=
  match span_digits radix 0 0 s with
  | (_, O, _) => NaN
  | (v, _, []) => num_of_Z v
  | _ => NaN
  end.

Definition StringToNumber (s : jsstring) : jsnum :=
  match trim s with
  | [] => pos_zero
  | 48%N :: (98%N | 66%N) :: t => parse_radix 2 t
  | 48%N :: (111%N | 79%N) :: t => parse_radix 8 t
  | 48%N :: (120%N | 88%N) :: t => parse_radix 16 t
  | 43%N :: t => parse_unsigned_decimal false t
  | 45%N :: t => parse_unsigned_decimal true t
  | t => parse_unsigned_decimal false t
  end.

End JS.

Module JSValues.
Import JS.

(** ** Errors and completions

    An Error object as the handlers observe it: [catch] blocks read its
    [name], [message], [stack] and [code]. *)
Record js_error := {
  err_name : jsstring;
  err_message : jsstring;
  err_stack : jsstring;
  err_code : option jsstring
}.

Definition TypeError (message : jsstring) : js_error :=
  {| err_name := lit "TypeError"; err_message := message;
     err_stack := lit "TypeError"; err_code := None |}.

(** The completion of an evaluation: a value, or a thrown error (for an
    awaited promise: fulfilled, or rejected). *)
Inductive completion (A : Type) : Type :=
| Normal (a : A)
| Throw (e : js_error).
Arguments Normal {A} a.
Arguments Throw {A} e.

Definition is_normal {A} (c : completion A) : bool :=
  match c with Normal _ => true | Throw _ => false end.

(** ** Values of a parsed request body

    [express.json()] and [express.urlencoded()] fill [req.body] with the
    values below; a key that is not sent reads as [undefined]. An Object or
    an Array is only ever looked at through [typeof], truthiness, [===],
    [Number(...)] and a method call that it does not have, so it is
    represented by the one thing that varies: the completion of [Number]
    applied to it ([Number([])] is 0, [Number({})] is NaN, and on an object
    with an own property toString that is not callable, such as the parsed
    JSON text {toString: 1}, [Number] throws a TypeError). *)
Inductive jsval :=
| JUndefined
| JNull
| JBool (b : bool)
| JNum (x : jsnum)
| JStr (s : jsstring)
| JObject (number_of : completion jsnum).

Inductive js_type :=
| TyUndefined | TyObject | TyBoolean | TyNumber | TyString.

Definition typeof (v : jsval) : js_type :=
  match v with
  | JUndefined => TyUndefined
  | JNull => TyObject
  | JBool _ => TyBoolean
  | JNum _ => TyNumber
  | JStr _ => TyString
  | JObject _ => TyObject
  end.

Definition js_type_eqb (a b : js_type) : bool :=
  match a, b with
  | TyUndefined, TyUndefined | TyObject, TyObject | TyBoolean, TyBoolean
  | TyNumber, TyNumber | TyString, TyString => true
  | _, _ => false
  end.

(** ToBoolean: what [!v] and [if (v)] test. *)
Definition ToBoolean (v : jsval) : bool :=
  match v with
  | JUndefined | JNull => false
  | JBool b => b
  | JNum (S754_zero _) | JNum S754_nan => false
  | JNum _ => true
  | JStr [] => false
  | JStr _ => true
  | JObject _ => true
  end.

(** [Number(v)]: ToNumber. *)
Definition Number (v : jsval) : completion jsnum :=
  match v with
  | JUndefined => Normal NaN
  | JNull => Normal pos_zero
  | JBool true => Normal (num_of_Z 1)
  | JBool false => Normal pos_zero
  | JNum x => Normal x
  | JStr s => Normal (StringToNumber s)
  | JObject c => c
  end.

(** [v === undefined] and [v === null]. *)
Definition is_undefined (v : jsval) : bool :=
  match v with JUndefined => true | _ => false end.
Definition is_null (v : jsval) : bool :=
  match v with JNull => true | _ => false end.

(** [s === v] for a string [s]: strict equality holds only with the same
    string. *)
Definition str_strict_eq (s : jsstring) (v : jsval) : bool :=
  match v with
  | JStr s' => jsstring_eqb s s'
  | _ => false
  end.

(** [Array.prototype.includes] on an array of strings (SameValueZero, which
    on a string is the comparison of the code units). *)
Definition includes (l : list jsstring) (v : jsval) : bool :=
  existsb (fun s => str_strict_eq s v) l.

(** [v.trim()]: the trim of a string; any other value of a request body has
    no callable [trim], and the call throws a TypeError. *)
Definition call_trim (v : jsval) : completion jsstring :=
  match v with
  | JStr s => Normal (trim s)
  | JUndefined | JNull =>
      Throw (TypeError (lit "Cannot read properties of undefined (reading 'trim')"))
  | _ => Throw (TypeError (lit "trim is not a function"))
  end.

End JSValues.

Import JS JSValues.

(* ===================================================================== *)
(** * Configuration                                                       *)
(* ===================================================================== *)

(** [process.env]: every variable the program reads; [None] when unset. *)
Record process_env := {
  ENV_PORT : option jsstring;
  ENV_GITHUB_ENABLED : option jsstring;
  ENV_GITHUB_TOKEN : option jsstring;
  ENV_GITHUB_OWNER : option jsstring;
  ENV_GITHUB_REPO : option jsstring;
  ENV_GITHUB_FILE_PATH : option jsstring;
  ENV_REPORTS_WEBHOOK : option jsstring;
  ENV_ACTIONS_WEBHOOK : option jsstring;
  ENV_RENDER_EXTERNAL_URL : option jsstring;
  ENV_LOGIN_HASHES : option jsstring
}.

(** [process.env.X || fallback]: an unset or empty variable is falsy. *)
Definition env_or (x : option jsstring) (fallback : jsstring) : jsstring :=
  match x with
  | Some (c :: s) => c :: s
  | _ => fallback
  end.

(** [const PORT = process.env.PORT || 3000]. *)
Definition PORT (env : process_env) : jsval :=
  match ENV_PORT env with
  | Some (c :: s) => JStr (c :: s)
  | _ => JNum (num_of_Z 3000)
  end.

Record config := {
  GITHUB_ENABLED : bool;
  GITHUB_TOKEN : jsstring;
  GITHUB_OWNER : jsstring;
  GITHUB_REPO : jsstring;
  GITHUB_FILE_PATH : jsstring;
  REPORTS_WEBHOOK : jsstring;
  ACTIONS_WEBHOOK : jsstring
}.

Definition CONFIG (env : process_env) : config := {|
  GITHUB_ENABLED :=
    jsstring_eqb (env_or (ENV_GITHUB_ENABLED env) (lit "false")) (lit "true");
  GITHUB_TOKEN := env_or (ENV_GITHUB_TOKEN env) [];
  GITHUB_OWNER := env_or (ENV_GITHUB_OWNER env) (lit "ItsThatOneJack-Dev");
  GITHUB_REPO := env_or (ENV_GITHUB_REPO env) (lit "BetterRugplay-tags");
  GITHUB_FILE_PATH := env_or (ENV_GITHUB_FILE_PATH env) (lit "reportsystem.json");
  REPORTS_WEBHOOK := env_or (ENV_REPORTS_WEBHOOK env) [];
  ACTIONS_WEBHOOK := env_or (ENV_ACTIONS_WEBHOOK env) []
|}.

(** [octokit] is created only when the integration is enabled and a token is
    configured; otherwise it stays [null]. *)
Definition octokit (env : process_env) : bool :=
  GITHUB_ENABLED (CONFIG env)
  && negb (jsstring_eqb (GITHUB_TOKEN (CONFIG env)) []).

(* ===================================================================== *)
(** * Reports and the in-memory store                                     *)
(* ===================================================================== *)

(** The object built by [POST /report]; [actionedAt] is the one property
    added later, by [POST /api/action]. *)
Record report := {
  id : jsstring;
  target : jsnum;
  reporter : jsnum;
  context : jsstring;
  reason : jsstring;
  timestamp : jsstring;
  ip : jsval;
  status : jsval;
  actionedAt : option jsstring
}.

#[export] Instance report_inhabited : Inhabited report :=
  populate {| id := []; target := NaN; reporter := NaN; context := [];
              reason := []; timestamp := []; ip := JUndefined;
              status := JUndefined; actionedAt := None |}.

(** Property read [r.key]; a property the object does not have reads as
    [undefined]. *)
Definition report_get (r : report) (key : string) : jsval :=
  if String.eqb key "id" then JStr (id r)
  else if String.eqb key "target" then JNum (target r)
  else if String.eqb key "reporter" then JNum (reporter r)
  else if String.eqb key "context" then JStr (context r)
  else if String.eqb key "reason" then JStr (reason r)
  else if String.eqb key "timestamp" then JStr (timestamp r)
  else if String.eqb key "ip" then ip r
  else if String.eqb key "status" then status r
  else if String.eqb key "actionedAt" then
    match actionedAt r with Some t => JStr t | None => JUndefined end
  else JUndefined.

Definition set_status (v : jsval) (r : report) : report :=
  {| id := id r; target := target r; reporter := reporter r;
     context := context r; reason := reason r; timestamp := timestamp r;
     ip := ip r; status := v; actionedAt := actionedAt r |}.

Definition set_actionedAt (t : jsstring) (r : report) : report :=
  {| id := id r; target := target r; reporter := reporter r;
     context := context r; reason := reason r; timestamp := timestamp r;
     ip := ip r; status := status r; actionedAt := Some t |}.

(** The two module-level arrays hold references to report objects: [heap]
    is the objects in allocation order, a reference is an index into it, and
    [reports] and [actionedReports] are arrays of references. *)
Definition ref := nat.

Record store := {
  heap : list report;
  reports : list ref;
  actionedReports : list ref
}.

(** [let reports = []; let actionedReports = [];] *)
Definition empty_store : store :=
  {| heap := []; reports := []; actionedReports := [] |}.

(** The object behind a reference. A reference held by one of the arrays
    always points into the heap ([store_inv] below); the total lookup only
    makes [deref] a function. *)
Definition deref (st : store) (l : ref) : report := heap st !!! l.

(** What [GET /api/reports] answers: [{ pending: reports, actioned:
    actionedReports }], each array in its own order. *)
Definition pending (st : store) : list report := map (deref st) (reports st).
Definition actioned (st : store) : list report :=
  map (deref st) (actionedReports st).

(** [arr.findIndex(p)]: the first index whose element satisfies [p]; [None]
    stands for -1. *)
Fixpoint findIndex {A} (p : A -> bool) (l : list A) : option nat :=
  match l with
  | [] => None
  | x :: l' => if p x then Some 0 else S <$> findIndex p l'
  end.

(* ===================================================================== *)
(** * Effects                                                             *)
(* ===================================================================== *)

(** A template literal: its text chunks and the values substituted between
    them, before they are converted to strings. *)
Inductive part :=
| Text (s : jsstring)
| Subst (v : jsval).
Definition template := list part.

(** The values of the external ban list: what [JSON.parse] returns and what
    [JSON.stringify] is given and writes. An object is given by its
    properties, in the order in which they are enumerated. *)
#[local] Set Warnings "-register-all".
Inductive json :=
| JsonNull
| JsonBool (b : bool)
| JsonNum (x : jsnum)
| JsonStr (s : jsstring)
| JsonArr (items : list json)
| JsonObj (fields : list (string * json)).

#[local] Set Warnings "register-all".

(** The argument of [createOrUpdateFileContents]; [put_content] is the JSON
    text that is encoded and sent, given as the document it denotes. *)
Record put_request := {
  put_owner : jsstring;
  put_repo : jsstring;
  put_path : jsstring;
  put_message : template;
  put_content : json;
  put_sha : jsval
}.

(** The two async functions a handler starts. *)
Inductive task :=
| FireWebhook_task (Content : template) (URL : jsstring)
| addToGitHubBanList_task (reportData : report).

Inductive response_body :=
| ErrorBody (error : jsstring)
| SubmittedBody (message : template) (report_id : jsstring)
| ActionedBody (message : template).

Inductive log_arg :=
| LText (s : jsstring)
| LPart (p : template)
| LError (e : js_error).

Inductive event :=
| Console (args : list log_arg)
| Spawn (t : task)      (* async function called, promise dropped *)
| Await (t : task)      (* async function called and awaited *)
| HttpPost (url : jsstring) (content : template)
| GitHubGet (owner repo path : jsstring)
| GitHubPut (req : put_request)
| BcryptCompare (password : jsval) (hash : jsstring)
| Respond (code : nat) (body : response_body).

(** A computation over mutable state [S]: the events it emits in program
    order, the state it leaves (also when it throws) and its completion. *)
Definition eff (S A : Type) : Type := S -> list event * S * completion A.

Definition ret {S A} (a : A) : eff S A := fun s => ([], s, Normal a).

Definition bind {S A B} (m : eff S A) (k : A -> eff S B) : eff S B :=
  fun s =>
    match m s with
    | (t1, s1, Normal a) =>
        match k a s1 with
        | (t2, s2, c) => (t1 ++ t2, s2, c)
        end
    | (t1, s1, Throw e) => (t1, s1, Throw e)
    end.

Definition throw {S A} (e : js_error) : eff S A := fun s => ([], s, Throw e).

(** A value or an exception computed outside the monad. *)
Definition lift {S A} (c : completion A) : eff S A := fun s => ([], s, c).

Definition emit {S} (e : event) : eff S unit := fun s => ([e], s, Normal tt).

Definition get {S} : eff S S := fun s => ([], s, Normal s).

Definition modify {S} (f : S -> S) : eff S unit :=
  fun s => ([], f s, Normal tt).

(** [try { m } catch (error) { h error }]: the state changes made before the
    throw stay. *)
Definition try_catch {S A} (m : eff S A) (h : js_error -> eff S A) : eff S A :=
  fun s =>
    match m s with
    | (t1, s1, Normal a) => (t1, s1, Normal a)
    | (t1, s1, Throw e) =>
        match h e s1 with
        | (t2, s2, c) => (t1 ++ t2, s2, c)
        end
    end.

(** An async function has its own local variables [L]; seen from the caller
    it only emits events and settles. *)
Definition run_locals {S L A} (init : L) (m : eff L A) : eff S A :=
  fun s =>
    match m init with
    | (t, _, c) => (t, s, c)
    end.

Declare Scope eff_scope.
Delimit Scope eff_scope with eff.
Notation "'let*' x ':=' m 'in' k" := (bind m (fun x => k))
  (at level 10, x name, m at level 100, k at level 200) : eff_scope.
Notation "m '>>' k" := (bind m (fun _ => k))
  (at level 90, right associativity) : eff_scope.
Local Open Scope eff_scope.

Definition console {S} (args : list log_arg) : eff S unit :=
  emit (Console args).

Definition respond {S} (code : nat) (body : response_body) : eff S unit :=
  emit (Respond code body).

(* ===================================================================== *)
(** * The outside world                                                   *)
(* ===================================================================== *)

(** What the network and GitHub answer during one run. Every field is
    arbitrary: the theorems quantify over all of them. *)
Record http_response := {
  ok : bool;
  text : completion jsstring          (* [await response.text()] *)
}.

(** [response.data] of [getContent]: [data_content] is [None] when the
    answer carries no [content] (then [Buffer.from] throws), and otherwise
    the completion of decoding it from base64 and [JSON.parse]-ing it. *)
Record gh_data := {
  data_content : option (completion json);
  data_sha : jsval
}.

Record world := {
  import_node_fetch : completion unit;  (* [await import('node-fetch')] *)
  fetch : jsstring -> template -> completion http_response;
  getContent : jsstring -> jsstring -> jsstring -> completion gh_data;
  createOrUpdateFileContents : put_request -> completion unit;
  date_added_clock : jsstring;          (* [new Date().toISOString()] *)
  last_updated_clock : jsstring
}.

(* ===================================================================== *)
(** * Utility functions of the server                                     *)
(* ===================================================================== *)

(** [crypto.randomBytes(n)]: the next [n] bytes of the generator. *)
Definition randomBytes (n : nat) (rng : nat -> byte) : list byte :=
  map rng (seq 0 n).

Definition hex_digit (n : N) : code_unit :=
  if (n <? 10)%N then (48 + n)%N else (87 + n)%N.

(** [buf.toString('hex')]: two lowercase digits per byte. *)
Definition hex_of_byte (b : byte) : jsstring :=
  [hex_digit (Byte.to_N b / 16); hex_digit (Byte.to_N b mod 16)].

Definition toString_hex (buf : list byte) : jsstring :=
  flat_map hex_of_byte buf.

Definition generateReportId (rng : nat -> byte) : jsstring :=
  toString_hex (randomBytes 8 rng).

(** [async function FireWebhook(Content, URL)]. *)
Definition FireWebhook {S} (w : world) (Content : template) (URL : jsstring)
  : eff S unit :=
  try_catch
    (let* _ := lift (import_node_fetch w) in
     let payload := Content in
     let* response :=
       (emit (HttpPost URL payload) >> lift (fetch w URL payload)) in
     if negb (ok response) then
       let* errorText := lift (text response) in
       console [LText (lit "[WEBHOOK] Discord API returned error:")] >>
       console [LText (lit "[WEBHOOK] Error response:"); LText errorText]
     else ret tt)
    (fun error =>
       console [LText (lit "[WEBHOOK] Critical error in sendDiscordWebhook:")] >>
       console [LText (lit "[WEBHOOK] Error name:"); LText (err_name error)] >>
       console [LText (lit "[WEBHOOK] Error message:"); LText (err_message error)] >>
       console [LText (lit "[WEBHOOK] Error stack:"); LText (err_stack error)] >>
       if bool_decide (err_code error = Some (lit "ENOTFOUND")) then
         console [LText (lit "[WEBHOOK] Network error - DNS resolution failed")]
       else if bool_decide (err_code error = Some (lit "ECONNREFUSED")) then
         console [LText (lit "[WEBHOOK] Connection refused by Discord")]
       else if bool_decide (err_code error = Some (lit "ETIMEDOUT")) then
         console [LText (lit "[WEBHOOK] Request timed out")]
       else ret tt).

(** ** The ban list on GitHub *)

Definition json_truthy (v : json) : bool :=
  match v with
  | JsonNull => false
  | JsonBool b => b
  | JsonNum (S754_zero _) | JsonNum S754_nan => false
  | JsonNum _ => true
  | JsonStr [] => false
  | JsonStr _ => true
  | JsonArr _ | JsonObj _ => true
  end.

Fixpoint field_lookup (key : string) (fields : list (string * json))
  : option json :=
  match fields with
  | [] => None
  | (k, v) :: rest => if String.eqb k key then Some v else field_lookup key rest
  end.

(** [JSON.parse(currentFile).banned_users]: reading a property of [null]
    throws; a value without the property gives [undefined]. *)
Definition get_banned_users (doc : json) : completion (option json) :=
  match doc with
  | JsonNull =>
      Throw (TypeError (lit "Cannot read properties of null (reading 'banned_users')"))
  | JsonObj fields => Normal (field_lookup "banned_users" fields)
  | _ => Normal None
  end.

(** [x || []]. *)
Definition or_empty_array (x : option json) : json :=
  match x with
  | Some v => if json_truthy v then v else JsonArr []
  | None => JsonArr []
  end.

(** [bannedUsers.push(entry)]: only an array has a callable [push]. *)
Definition array_push (arr entry : json) : completion json :=
  match arr with
  | JsonArr items => Normal (JsonArr (items ++ [entry]))
  | _ => Throw (TypeError (lit "bannedUsers.push is not a function"))
  end.

(** [JSON.stringify] of a number: one that is not finite is written
    [null], and [-0] is written [0]. *)
Definition JSON_number (x : jsnum) : json :=
  match x with
  | S754_zero _ => JsonNum (S754_zero false)
  | S754_finite _ _ _ => JsonNum x
  | S754_infinity _ | S754_nan => JsonNull
  end.

(** [JSON.stringify(value, null, 2)]: the text written, given as the
    document it denotes. The properties of an object are written in the
    order they are listed in; none of the values here is [undefined], a
    function or an object with [toJSON], which would be left out or
    replaced. *)
Fixpoint JSON_stringify (value : json) : json :=
  match value with
  | JsonNum x => JSON_number x
  | JsonArr items => JsonArr (map JSON_stringify items)
  | JsonObj fields =>
      JsonObj (map (fun kv : string * json =>
                      let '(k, v) := kv in (k, JSON_stringify v)) fields)
  | JsonNull | JsonBool _ | JsonStr _ => value
  end.

(** The local variables of [addToGitHubBanList] that are assigned inside
    its inner [try]. *)
Record ban_locals := {
  currentSha : jsval;
  bannedUsers : json
}.

Definition newBanEntry (w : world) (reportData : report) : json :=
  JsonObj [("target_id", JsonNum (target reportData));
           ("reporter_id", JsonNum (reporter reportData));
           ("reason", JsonStr (reason reportData));
           ("context", JsonStr (context reportData));
           ("date_added", JsonStr (date_added_clock w));
           ("report_id", JsonStr (id reportData))]%string.

(** [async function addToGitHubBanList(reportData)]. *)
Definition addToGitHubBanList {S} (env : process_env) (w : world)
    (reportData : report) : eff S unit :=
  let cfg := CONFIG env in
  if negb (GITHUB_ENABLED cfg) || negb (octokit env) then
    console [LText (lit "GitHub integration disabled.")]
  else
    run_locals {| currentSha := JUndefined; bannedUsers := JsonArr [] |}
      (try_catch
         (try_catch
            (let* response :=
               (emit (GitHubGet (GITHUB_OWNER cfg) (GITHUB_REPO cfg)
                                (GITHUB_FILE_PATH cfg)) >>
                lift (getContent w (GITHUB_OWNER cfg) (GITHUB_REPO cfg)
                                 (GITHUB_FILE_PATH cfg))) in
             match data_content response with
             | None =>
                 throw (TypeError (lit "The first argument must be of type string"))
             | Some parsed =>
                 modify (fun l => {| currentSha := data_sha response;
                                     bannedUsers := bannedUsers l |}) >>
                 let* doc := lift parsed in
                 let* users := lift (get_banned_users doc) in
                 modify (fun l => {| currentSha := currentSha l;
                                     bannedUsers := or_empty_array users |})
             end)
            (fun error => console [LText (lit "File not found, creating...")]) >>
          let* l := get in
          let* pushed := lift (array_push (bannedUsers l) (newBanEntry w reportData)) in
          let newContent :=
            JSON_stringify
              (JsonObj [("banned_users", pushed);
                        ("last_updated", JsonStr (last_updated_clock w))]%string) in
          let req :=
            {| put_owner := GITHUB_OWNER cfg;
               put_repo := GITHUB_REPO cfg;
               put_path := GITHUB_FILE_PATH cfg;
               put_message :=
                 [Text (lit "Add banned user "); Subst (JNum (target reportData));
                  Text (lit " - Report "); Subst (JStr (id reportData))];
               put_content := newContent;
               put_sha := currentSha l |} in
          emit (GitHubPut req) >> lift (createOrUpdateFileContents w req))
         (fun error =>
            console [LText (lit "GitHub integration error:"); LError error])).

(** Running one of the two async functions. *)
Definition run_task {S} (env : process_env) (w : world) (t : task) : eff S unit :=
  match t with
  | FireWebhook_task Content URL => FireWebhook w Content URL
  | addToGitHubBanList_task reportData => addToGitHubBanList env w reportData
  end.

(** [f(...)] with the promise dropped: the handler goes on at once and the
    function runs detached from it. *)
Definition spawn {S} (t : task) : eff S unit := emit (Spawn t).

(** [await f(...)]: the handler goes on only when the function has settled,
    and a rejection is thrown into it. *)
Definition await {S} (env : process_env) (w : world) (t : task) : eff S unit :=
  emit (Await t) >> run_task env w t.

(* ===================================================================== *)
(** * Routes                                                              *)
(* ===================================================================== *)

(** [req.body] and [req.ip] of [POST /report]. *)
Record report_request := {
  body_target : jsval;
  body_reporter : jsval;
  body_context : jsval;
  body_reason : jsval;
  req_ip : jsval
}.

(** [req.body] of [POST /api/action]. *)
Record action_request := {
  body_reportId : jsval;
  body_action : jsval
}.

(** [typeof v === 'number' ? v : Number(v)]. *)
Definition number_or_coerce (v : jsval) : completion jsnum :=
  match v with
  | JNum x => Normal x
  | _ => Number v
  end.

(** [const report = {...}]: a new object. *)
Definition alloc (r : report) : eff store ref :=
  fun st =>
    ([], {| heap := heap st ++ [r]; reports := reports st;
            actionedReports := actionedReports st |},
     Normal (length (heap st))).

(** [reports.push(l)], [actionedReports.push(l)], [reports.splice(i, 1)]. *)
Definition reports_push (l : ref) (st : store) : store :=
  {| heap := heap st; reports := reports st ++ [l];
     actionedReports := actionedReports st |}.

Definition actionedReports_push (l : ref) (st : store) : store :=
  {| heap := heap st; reports := reports st;
     actionedReports := actionedReports st ++ [l] |}.

Definition reports_splice (i : nat) (st : store) : store :=
  {| heap := heap st; reports := delete i (reports st);
     actionedReports := actionedReports st |}.

(** An assignment to a property of the object behind a reference. *)
Definition update (l : ref) (f : report -> report) (st : store) : store :=
  {| heap := alter f l (heap st); reports := reports st;
     actionedReports := actionedReports st |}.

(** The webhook text of a new report. *)
Definition new_report_message (env : process_env) (pending_count : nat)
  : template :=
  [Text (lit "**New Report**" ++ LF ++ LF ++ lit "Total pending reports: **");
   Subst (JNum (num_of_nat pending_count));
   Text (lit "**" ++ LF ++ LF ++ lit "Check reports at: ")]
  ++ match ENV_RENDER_EXTERNAL_URL env with
     | Some (c :: s) => [Subst (JStr (c :: s))]
     | _ => [Text (lit "http://localhost:"); Subst (PORT env)]
     end
  ++ [Text (lit "/reports")].

(** [app.post('/report', reportLimiter, (req, res) => ...)], once the rate
    limiter has let the request through. [rng] is the random generator and
    [now] the clock reading of this request. *)
Definition post_report (env : process_env) (rng : nat -> byte)
    (now : jsstring) (req : report_request) : eff store unit :=
  let target := body_target req in
  let reporter := body_reporter req in
  let context := body_context req in
  let reason := body_reason req in
  if is_undefined target || is_null target
     || is_undefined reporter || is_null reporter
     || negb (ToBoolean context)
  then
    console [LText (10060%N :: lit " [REPORT] Validation failed - missing fields.")] >>
    respond 400
      (ErrorBody (lit "Missing required fields: target, reporter, context, reason"))
  else
    let* targetNum := lift (number_or_coerce target) in
    let* reporterNum := lift (number_or_coerce reporter) in
    if isNaN targetNum || isNaN reporterNum
       || negb (js_type_eqb (typeof context) TyString)
    then
      console [LText (lit "[REPORT] Validation failed - invalid types.")] >>
      respond 400
        (ErrorBody (lit "Invalid field types: target and reporter must be valid numbers, context must be string"))
    else
      let report_id := generateReportId rng in
      let* context' := lift (call_trim context) in
      let* reason' := lift (call_trim reason) in
      let* report :=
        alloc {| id := report_id;
                 target := targetNum;
                 reporter := reporterNum;
                 context := context';
                 reason := reason';
                 timestamp := now;
                 ip := req_ip req;
                 status := JStr (lit "pending");
                 actionedAt := None |} in
      modify (reports_push report) >>
      let* st := get in
      spawn (FireWebhook_task (new_report_message env (length (reports st)))
                              (REPORTS_WEBHOOK (CONFIG env))) >>
      respond 201
        (SubmittedBody
           [Text (lit "Report "); Subst (JStr report_id);
            Text (lit " submitted successfully!")]
           report_id).

(** [actionedReports.slice(-1)[0].key]. *)
Definition last_actioned_get (key : string) : eff store jsval :=
  let* st := get in
  match last (actionedReports st) with
  | Some l => ret (report_get (deref st l) key)
  | None =>
      throw (TypeError (lit "Cannot read properties of undefined"))
  end.

(** The template literal of the [if (action === 'approved')] branch. *)
Definition approved_message (BodyText Target Reporter : jsval) : template :=
  [Text (lit "**Approved**" ++ LF ++ LF ++ lit "**Body Text: **" ++ DQUOTE
         ++ BACKTICK);
   Subst BodyText;
   Text (BACKTICK ++ DQUOTE ++ LF ++ LF ++ lit "**`Target  : `**[");
   Subst Target;
   Text (lit "](<https://rugplay.com/user/");
   Subst Target;
   Text (lit ">)" ++ LF ++ lit "**`Reporter: `**[");
   Subst Reporter;
   Text (lit "](<https://rugplay.com/user/");
   Subst Reporter;
   Text (lit ">)")].

(** The template literal of the [else] branch. *)
Definition else_message (BodyText Target Reporter : jsval) : template :=
  [Text (lit "**Approved**" ++ LF ++ LF ++ lit "**Body Text: **" ++ DQUOTE
         ++ BACKTICK);
   Subst BodyText;
   Text (BACKTICK ++ DQUOTE ++ LF ++ LF ++ lit "**`Target  : `**[");
   Subst Target;
   Text (lit "](<https://rugplay.com/user/");
   Subst Target;
   Text (lit ">)" ++ LF ++ lit "**`Reporter: `**[");
   Subst Reporter;
   Text (lit "](<https://rugplay.com/user/");
   Subst Reporter;
   Text (lit ">)")].

(** [app.post('/api/action', async (req, res) => ...)]. *)
Definition api_action (env : process_env) (w : world) (now : jsstring)
    (req : action_request) : eff store unit :=
  let reportId := body_reportId req in
  let action := body_action req in
  if negb (ToBoolean reportId) || negb (ToBoolean action)
     || negb (includes [lit "approved"; lit "denied"] action)
  then
    respond 400 (ErrorBody (lit "Invalid action or report ID!"))
  else
    let* st := get in
    match findIndex (fun l => str_strict_eq (id (deref st l)) reportId)
                    (reports st) with
    | None => respond 404 (ErrorBody (lit "Report not found!"))
    | Some reportIndex =>
        match reports st !! reportIndex with
        | None =>
            throw (TypeError (lit "Cannot set properties of undefined (setting 'status')"))
        | Some report =>
            modify (update report (set_status action)) >>
            modify (update report (set_actionedAt now)) >>
            modify (actionedReports_push report) >>
            modify (reports_splice reportIndex) >>
            (if str_strict_eq (lit "approved") action then
               let* Target := last_actioned_get "target" in
               let* Reporter := last_actioned_get "reporter" in
               let* BodyText := last_actioned_get "body" in
               spawn (FireWebhook_task (approved_message BodyText Target Reporter)
                                       (ACTIONS_WEBHOOK (CONFIG env))) >>
               let* st' := get in
               await env w (addToGitHubBanList_task (deref st' report))
             else
               let* Target := last_actioned_get "target" in
               let* Reporter := last_actioned_get "reporter" in
               let* BodyText := last_actioned_get "body" in
               spawn (FireWebhook_task (else_message BodyText Target Reporter)
                                       (ACTIONS_WEBHOOK (CONFIG env)))) >>
            respond 200
              (ActionedBody [Text (lit "Report "); Subst action;
                             Text (lit " successfull!")])
        end
    end.

(** ** The password check *)

(** The hashes of [LOGIN_HASHES]: split at the semicolons, trimmed, the empty
    pieces dropped. *)
Definition split_hashes (loginHashes : jsstring) : list jsstring :=
  List.filter (fun hash => negb (Nat.eqb (length hash) 0))
              (map trim (split_at 59%N loginHashes)).

(** The [for (const hash of hashes)] loop; [bcrypt_compare] is
    [bcrypt.compare], which may reject. *)
Fixpoint compare_each {S} (bcrypt_compare : jsval -> jsstring -> completion bool)
    (password : jsval) (hashes : list jsstring) : eff S bool :=
  match hashes with
  | [] => ret false
  | hash :: rest =>
      let* isMatch :=
        try_catch
          (emit (BcryptCompare password hash) >>
           lift (bcrypt_compare password hash))
          (fun error =>
             console [LText (lit "Error comparing password with hash: "
                             ++ err_message error)] >>
             ret false) in
      if isMatch then ret true
      else compare_each bcrypt_compare password rest
  end.

(** [async function ValidatePassword(password)]. *)
Definition ValidatePassword {S}
    (bcrypt_compare : jsval -> jsstring -> completion bool)
    (env : process_env) (password : jsval) : eff S bool :=
  match ENV_LOGIN_HASHES env with
  | Some (c :: s) =>
      let hashes := split_hashes (c :: s) in
      if Nat.eqb (length hashes) 0 then
        console [LText (lit "No valid hashes found in LOGIN_HASHES!")] >>
        ret false
      else compare_each bcrypt_compare password hashes
  | _ =>
      console [LText (lit "LOGIN_HASHES environment variable not set!")] >>
      ret false
  end.

(* ===================================================================== *)
(** * Runs, traces and reachable stores                                   *)
(* ===================================================================== *)

(** The three components of a run. *)
Definition trace {S A} (r : list event * S * completion A) : list event :=
  fst (fst r).
Definition final {S A} (r : list event * S * completion A) : S :=
  snd (fst r).
Definition outcome {S A} (r : list event * S * completion A) : completion A :=
  snd r.

(** The HTTP answers written during a run, in order. *)
Definition responses (tr : list event) : list (nat * response_body) :=
  omap (fun e => match e with Respond c b => Some (c, b) | _ => None end) tr.

(** The async functions started and dropped, and those awaited. *)
Definition spawned (tr : list event) : list task :=
  omap (fun e => match e with Spawn t => Some t | _ => None end) tr.
Definition awaited (tr : list event) : list task :=
  omap (fun e => match e with Await t => Some t | _ => None end) tr.

(** The reports handed to [addToGitHubBanList], awaited or not. *)
Definition ban_list_calls (tr : list event) : list report :=
  omap (fun e => match e with
                 | Spawn (addToGitHubBanList_task r)
                 | Await (addToGitHubBanList_task r) => Some r
                 | _ => None
                 end) tr.

(** The webhook texts handed to [FireWebhook]. *)
Definition webhook_calls (tr : list event) : list (template * jsstring) :=
  omap (fun e => match e with
                 | Spawn (FireWebhook_task c u)
                 | Await (FireWebhook_task c u) => Some (c, u)
                 | _ => None
                 end) tr.

(** What happens before the first answer is written. *)
Fixpoint before_response (tr : list event) : list event :=
  match tr with
  | [] => []
  | Respond _ _ :: _ => []
  | e :: tr' => e :: before_response tr'
  end.

(** The passwords-against-hashes comparisons attempted. *)
Definition compared (tr : list event) : list jsstring :=
  omap (fun e => match e with BcryptCompare _ h => Some h | _ => None end) tr.

(** Events that only write to the console or talk to the outside. *)
Definition is_background (e : event) : bool :=
  match e with
  | Console _ | HttpPost _ _ | GitHubGet _ _ _ | GitHubPut _ => true
  | _ => false
  end.

Definition is_console (e : event) : bool :=
  match e with Console _ => true | _ => false end.

(** The text a template literal evaluates to, given the string conversion
    of the substituted values. *)
Definition render (to_string : jsval -> jsstring) (t : template) : jsstring :=
  flat_map (fun p => match p with Text s => s | Subst v => to_string v end) t.

(** One request served: a submission or an action, with any inputs. *)
Inductive step (st : store) : store -> Prop :=
| step_submit env rng now req :
    step st (final (post_report env rng now req st))
| step_action env w now req :
    step st (final (api_action env w now req st)).

(** The stores the server can be in: from the empty one, any sequence of
    requests. *)
Definition reachable (st : store) : Prop := rtc step empty_store st.

Definition is_hex_lower (c : code_unit) : bool :=
  ((48 <=? c) && (c <=? 57) || (97 <=? c) && (c <=? 102))%N.

(** The well-formedness that every request preserves. *)
Record store_inv (st : store) : Prop := {
  inv_refs : forall l, l ∈ reports st ++ actionedReports st <-> l < length (heap st);
  inv_nodup : NoDup (reports st ++ actionedReports st);
  inv_pending : forall l, l ∈ reports st ->
    status (deref st l) = JStr (lit "pending") /\ actionedAt (deref st l) = None;
  inv_actioned : forall l, l ∈ actionedReports st ->
    (status (deref st l) = JStr (lit "approved")
     \/ status (deref st l) = JStr (lit "denied"))
    /\ actionedAt (deref st l) <> None;
  inv_ids : forall l, l < length (heap st) ->
    length (id (deref st l)) = 16 /\ forallb is_hex_lower (id (deref st l)) = true
}.

(** The hashes the password check compares against. *)
Definition configured_hashes (env : process_env) : list jsstring :=
  match ENV_LOGIN_HASHES env with
  | Some loginHashes => split_hashes loginHashes
  | None => []
  end.

(** The first check of [POST /report]. *)
Definition missing_fields (req : report_request) : bool :=
  is_undefined (body_target req) || is_null (body_target req)
  || is_undefined (body_reporter req) || is_null (body_reporter req)
  || negb (ToBoolean (body_context req)).

(** A submission passes validation when neither check of [POST /report]
    answers 400 and the coercions raise nothing. *)
Definition passes_validation (req : report_request) : Prop :=
  missing_fields req = false
  /\ exists t r,
       number_or_coerce (body_target req) = Normal t
       /\ number_or_coerce (body_reporter req) = Normal r
       /\ isNaN t = false /\ isNaN r = false
       /\ typeof (body_context req) = TyString.

(* ===================================================================== *)
(** * The outcomes of the routes, named                                   *)
(* ===================================================================== *)

(** The report object that an accepted submission builds. *)
Definition new_report (rng : nat -> byte) (now : jsstring) (ip : jsval)
    (t r : jsnum) (c s : jsstring) : report :=
  {| id := generateReportId rng; target := t; reporter := r;
     context := trim c; reason := trim s; timestamp := now; ip := ip;
     status := JStr (lit "pending"); actionedAt := None |}.

(** The store with one more object, referenced last in [reports]. *)
Definition add_report (r : report) (st : store) : store :=
  {| heap := heap st ++ [r]; reports := reports st ++ [length (heap st)];
     actionedReports := actionedReports st |}.

Definition missing_fields_answer : list event :=
  [Console [LText (10060%N :: lit " [REPORT] Validation failed - missing fields.")];
   Respond 400
     (ErrorBody (lit "Missing required fields: target, reporter, context, reason"))].

Definition invalid_types_answer : list event :=
  [Console [LText (lit "[REPORT] Validation failed - invalid types.")];
   Respond 400
     (ErrorBody (lit "Invalid field types: target and reporter must be valid numbers, context must be string"))].

(** The first check of [POST /api/action]. *)
Definition invalid_action (req : action_request) : bool :=
  negb (ToBoolean (body_reportId req)) || negb (ToBoolean (body_action req))
  || negb (includes [lit "approved"; lit "denied"] (body_action req)).

(** The callback of [reports.findIndex]. *)
Definition has_id (st : store) (reportId : jsval) (l : ref) : bool :=
  str_strict_eq (id (deref st l)) reportId.

(** The store after the object behind [l], at index [i] of [reports], has
    been actioned. *)
Definition move_to_actioned (now : jsstring) (action : jsval) (i : nat)
    (l : ref) (st : store) : store :=
  {| heap := alter (set_actionedAt now) l (alter (set_status action) l (heap st));
     reports := delete i (reports st);
     actionedReports := actionedReports st ++ [l] |}.

Definition action_answer (action : jsval) : event :=
  Respond 200
    (ActionedBody [Text (lit "Report "); Subst action;
                   Text (lit " successfull!")]).

(** The events of a successful action on the report [r] (as it is after the
    move). *)
Definition action_events (env : process_env) (w : world) (action : jsval)
    (r : report) : list event :=
  (if str_strict_eq (lit "approved") action then
     Spawn (FireWebhook_task
              (approved_message JUndefined (JNum (target r)) (JNum (reporter r)))
              (ACTIONS_WEBHOOK (CONFIG env)))
     :: Await (addToGitHubBanList_task r)
     :: trace (addToGitHubBanList env w r tt)
   else
     [Spawn (FireWebhook_task
               (else_message JUndefined (JNum (target r)) (JNum (reporter r)))
               (ACTIONS_WEBHOOK (CONFIG env)))])
  ++ [action_answer action].

(** The status codes answered during a run. *)
Definition status_codes (tr : list event) : list nat := map fst (responses tr).

Definition is_github_put (e : event) : bool :=
  match e with GitHubPut _ => true | _ => false end.

(** [bcrypt.compare] resolved to [true]. *)
Definition matches (bcrypt_compare : jsval -> jsstring -> completion bool)
    (password : jsval) (hash : jsstring) : bool :=
  match bcrypt_compare password hash with
  | Normal true => true
  | _ => false
  end.

(* ===================================================================== *)
(** * Sample inputs                                                       *)
(* ===================================================================== *)

Module Sample.

Definition env : process_env :=
  {| ENV_PORT := None; ENV_GITHUB_ENABLED := None; ENV_GITHUB_TOKEN := None;
     ENV_GITHUB_OWNER := None; ENV_GITHUB_REPO := None;
     ENV_GITHUB_FILE_PATH := None; ENV_REPORTS_WEBHOOK := None;
     ENV_ACTIONS_WEBHOOK := None; ENV_RENDER_EXTERNAL_URL := None;
     ENV_LOGIN_HASHES := None |}.

(** The same with the GitHub integration switched on. *)
Definition env_github : process_env :=
  {| ENV_PORT := None; ENV_GITHUB_ENABLED := Some (lit "true");
     ENV_GITHUB_TOKEN := Some (lit "ghp_token");
     ENV_GITHUB_OWNER := None; ENV_GITHUB_REPO := None;
     ENV_GITHUB_FILE_PATH := None; ENV_REPORTS_WEBHOOK := None;
     ENV_ACTIONS_WEBHOOK := None; ENV_RENDER_EXTERNAL_URL := None;
     ENV_LOGIN_HASHES := None |}.

(** A world where the webhook URL is refused and the ban list does not
    exist yet. *)
Definition w : world :=
  {| import_node_fetch := Normal tt;
     fetch := fun _ _ => Throw (TypeError (lit "Invalid URL"));
     getContent := fun _ _ _ =>
       Throw {| err_name := lit "HttpError"; err_message := lit "Not Found";
                err_stack := lit "HttpError"; err_code := None |};
     createOrUpdateFileContents := fun _ => Normal tt;
     date_added_clock := lit "2025-01-01T00:00:02.000Z";
     last_updated_clock := lit "2025-01-01T00:00:03.000Z" |}.

Definition rng : nat -> byte := fun n =>
  match n with 0 => xde | 1 => xad | 2 => xbe | 3 => xef | _ => x00 end.

Definition t0 : jsstring := lit "2025-01-01T00:00:00.000Z".
Definition t1 : jsstring := lit "2025-01-01T00:00:01.000Z".

(** [{target: 42, reporter: 7, context: "spam", reason: "scamming"}]. *)
Definition submission : report_request :=
  {| body_target := JNum (num_of_Z 42); body_reporter := JNum (num_of_Z 7);
     body_context := JStr (lit "spam"); body_reason := JStr (lit "scamming");
     req_ip := JStr (lit "::1") |}.

(** The same without [reason]. *)
Definition submission_without_reason : report_request :=
  {| body_target := JNum (num_of_Z 42); body_reporter := JNum (num_of_Z 7);
     body_context := JStr (lit "spam"); body_reason := JUndefined;
     req_ip := JStr (lit "::1") |}.

(** [{target: "Infinity", ...}]. *)
Definition submission_infinite_target : report_request :=
  {| body_target := JStr (lit "Infinity"); body_reporter := JNum (num_of_Z 7);
     body_context := JStr (lit "spam"); body_reason := JStr (lit "scamming");
     req_ip := JStr (lit "::1") |}.

(** [{target: {toString: 1}, ...}]: [Number] of this object throws. *)
Definition submission_object_target : report_request :=
  {| body_target :=
       JObject (Throw (TypeError (lit "Cannot convert object to primitive value")));
     body_reporter := JNum (num_of_Z 7);
     body_context := JStr (lit "spam"); body_reason := JStr (lit "scamming");
     req_ip := JStr (lit "::1") |}.

Definition report_id : jsstring := lit "deadbeef00000000".

Definition approve (i : jsstring) : action_request :=
  {| body_reportId := JStr i; body_action := JStr (lit "approved") |}.
Definition deny (i : jsstring) : action_request :=
  {| body_reportId := JStr i; body_action := JStr (lit "denied") |}.

(** The store after the sample submission, and after approving it. *)
Definition one_pending : store :=
  final (post_report env rng t0 submission empty_store).
Definition one_approved : store :=
  final (api_action env w t1 (approve report_id) one_pending).

End Sample.

(* ===================================================================== *)
(** * The rest of the server: [POST /auth] and what goes outside          *)
(* ===================================================================== *)

(** The two bodies [POST /auth] answers with: [{ success: true }] and
    [{ error }]. *)
Inductive auth_body :=
| AuthSuccess
| AuthFailure (error : jsstring).

(** [app.post('/auth', async (req, res) => ...)], on [req.body.password].
    Every path writes exactly one answer; the run returns it (status code
    and body). *)
Definition post_auth {S}
    (bcrypt_compare : jsval -> jsstring -> completion bool)
    (env : process_env) (password : jsval) : eff S (nat * auth_body) :=
  if negb (ToBoolean password) then
    ret (400, AuthFailure (lit "Password required!"))
  else
    try_catch
      (let* isValid := ValidatePassword bcrypt_compare env password in
       if isValid then ret (200, AuthSuccess)
       else ret (401, AuthFailure (lit "Invalid password!")))
      (fun error => ret (500, AuthFailure (lit "Authentication error!"))).

(** The requests that leave the process during a run. *)
Definition github_puts (tr : list event) : list put_request :=
  omap (fun e => match e with GitHubPut req => Some req | _ => None end) tr.

Definition github_gets (tr : list event) : list (jsstring * jsstring * jsstring) :=
  omap (fun e => match e with
                 | GitHubGet owner repo path => Some (owner, repo, path)
                 | _ => None
                 end) tr.

Definition http_posts (tr : list event) : list (jsstring * template) :=
  omap (fun e => match e with HttpPost url c => Some (url, c) | _ => None end) tr.

(** The entry of a report as it is written into the ban list: the two
    identifiers as JSON writes a number, the texts as they are stored. *)
Definition written_entry (w : world) (r : report) : json :=
  JsonObj [("target_id", JSON_number (target r));
           ("reporter_id", JSON_number (reporter r));
           ("reason", JsonStr (reason r));
           ("context", JsonStr (context r));
           ("date_added", JsonStr (date_added_clock w));
           ("report_id", JsonStr (id r))]%string.

(** The ban list written when the entries read were [items]: these, written
    out again, then the entry of the report, then the time of writing. *)
Definition ban_list_document (w : world) (items : list json)
    (reportData : report) : json :=
  JsonObj [("banned_users",
            JsonArr (map JSON_stringify items ++ [written_entry w reportData]));
           ("last_updated", JsonStr (last_updated_clock w))]%string.

(** A number that JSON can hold: finite, and not [-0]. *)
Definition plain_number (x : jsnum) : bool :=
  match x with
  | S754_zero false | S754_finite _ _ _ => true
  | _ => false
  end.

(** The properties of a report that [POST /report] sets and nothing
    assigns afterwards. *)
Definition submission_fields (r : report)
  : jsstring * jsnum * jsnum * jsstring * jsstring * jsstring * jsval :=
  (id r, target r, reporter r, context r, reason r, timestamp r, ip r).

(** A string that neither starts nor ends with white space. *)
Definition no_outer_whitespace (s : jsstring) : bool :=
  match s with
  | [] => true
  | c :: _ => negb (is_whitespace c)
  end
  && match rev s with
     | [] => true
     | c :: _ => negb (is_whitespace c)
     end.

(** A decimal digit, and the number a string of digits denotes. *)
Definition is_digit (c : code_unit) : bool := ((48 <=? c) && (c <=? 57))%N.

Definition digits_value (s : jsstring) : Z :=
  fold_left (fun acc c => (acc * 10 + Z.of_N (c - 48))%Z) s 0%Z.

(* ===================================================================== *)
(** * genpasswords.js                                                     *)
(* ===================================================================== *)

(** [const SALT_ROUNDS = 12]. *)
Definition SALT_ROUNDS : nat := 12.

(** [arr.join(sep)]. *)
Fixpoint join (sep : jsstring) (l : list jsstring) : jsstring :=
  match l with
  | [] => []
  | [x] => x
  | x :: rest => x ++ sep ++ join sep rest
  end.

(** What the script writes to the terminal: the prompt of [rl.question],
    [console.log] and [console.error]. *)
Inductive terminal :=
| Prompt (query : jsstring)
| Log (line : jsstring)
| LogError (line : jsstring).

(** The [while (true)] loop of [generateHashes]. [answers] are the lines
    typed at the prompt; when they run out before an empty line the pending
    question is never answered, and the loop never ends: [None]. [bcrypt_hash]
    is [bcrypt.hash], which may reject. *)
Fixpoint ask_passwords (bcrypt_hash : jsstring -> nat -> completion jsstring)
    (answers : list jsstring) (hashes : list jsstring)
  : list terminal * option (list jsstring) :=
  match answers with
  | [] => ([Prompt (lit "Enter password: ")], None)
  | password :: rest =>
      if jsstring_eqb password [] then
        ([Prompt (lit "Enter password: ")], Some hashes)
      else
        let '(out, hashes') :=
          match bcrypt_hash password SALT_ROUNDS with
          | Normal hash =>
              ([Log (lit "Hashing password...");
                Log (10003%N :: lit " Password hashed successfully" ++ LF)],
               hashes ++ [hash])
          | Throw error =>
              ([Log (lit "Hashing password...");
                LogError (lit "Error hashing password: " ++ err_message error
                          ++ LF)],
               hashes)
          end in
        let '(out', result) := ask_passwords bcrypt_hash rest hashes' in
        (Prompt (lit "Enter password: ") :: out ++ out', result)
  end.

(** [async function generateHashes()]: everything the script prints. *)
Definition generateHashes
    (bcrypt_hash : jsstring -> nat -> completion jsstring)
    (answers : list jsstring) : list terminal :=
  let '(out, result) := ask_passwords bcrypt_hash answers [] in
  Log (lit "Enter passwords one at a time. Press Enter with an empty password to finish."
       ++ LF)
  :: out
  ++ match result with
     | None => []
     | Some [] => [Log (lit "No passwords were provided.")]
     | Some hashes =>
         let loginHashesValue := join (lit "; ") hashes in
         [Log (LF ++ replicate 50 61%N);
          Log (lit "Set your LOGIN_HASHES environment variable to:");
          Log (replicate 50 61%N);
          Log loginHashesValue;
          Log (LF ++ replicate 50 61%N);
          Log (lit "Example usage:");
          Log (lit "export LOGIN_HASHES=" ++ DQUOTE ++ loginHashesValue
               ++ DQUOTE);
          Log (replicate 50 61%N)]
     end.

(** The hashes of the passwords that [bcrypt.hash] resolved for, in order. *)
Definition resolved_hashes
    (bcrypt_hash : jsstring -> nat -> completion jsstring)
    (passwords : list jsstring) : list jsstring :=
  omap (fun password =>
          match bcrypt_hash password SALT_ROUNDS with
          | Normal hash => Some hash
          | Throw _ => None
          end) passwords.

(** A hash as bcrypt prints it: not empty, without a semicolon and without
    white space at either end. *)
Definition clean_hash (hash : jsstring) : Prop :=
  hash <> [] /\ (59%N ∉ hash) /\ no_outer_whitespace hash = true.

(** An environment where only [LOGIN_HASHES] is set. *)
Definition env_with_login_hashes (value : jsstring) : process_env :=
  {| ENV_PORT := None; ENV_GITHUB_ENABLED := None; ENV_GITHUB_TOKEN := None;
     ENV_GITHUB_OWNER := None; ENV_GITHUB_REPO := None;
     ENV_GITHUB_FILE_PATH := None; ENV_REPORTS_WEBHOOK := None;
     ENV_ACTIONS_WEBHOOK := None; ENV_RENDER_EXTERNAL_URL := None;
     ENV_LOGIN_HASHES := Some value |}.

Module Demo.

(** A stand-in for bcrypt: the hash of a password is a fixed prefix followed
    by the password, and a password compares equal to its own hash only. *)
Definition bcrypt_hash (password : jsstring) (rounds : nat)
  : completion jsstring :=
  Normal (lit "$2b$12$" ++ password).

Definition bcrypt_compare (password : jsval) (hash : jsstring)
  : completion bool :=
  match password with
  | JStr p => Normal (jsstring_eqb hash (lit "$2b$12$" ++ p))
  | _ => Throw (TypeError (lit "data and hash must be strings"))
  end.

(** A ban list that holds one entry already. *)
Definition old_entry : json := JsonObj [("target_id", JsonNum (num_of_Z 9))]%string.

Definition w_existing : world :=
  {| import_node_fetch := Normal tt;
     fetch := fun _ _ => Normal {| ok := true; text := Normal [] |};
     getContent := fun _ _ _ =>
       Normal {| data_content :=
                   Some (Normal (JsonObj [("banned_users", JsonArr [old_entry]);
                                          ("note", JsonStr (lit "kept by hand"))]%string));
                 data_sha := JStr (lit "abc123") |};
     createOrUpdateFileContents := fun _ => Normal tt;
     date_added_clock := lit "2025-01-01T00:00:02.000Z";
     last_updated_clock := lit "2025-01-01T00:00:03.000Z" |}.

(** A ban list whose content is not JSON. *)
Definition w_garbled : world :=
  {| import_node_fetch := Normal tt;
     fetch := fun _ _ => Normal {| ok := true; text := Normal [] |};
     getContent := fun _ _ _ =>
       Normal {| data_content :=
                   Some (Throw {| err_name := lit "SyntaxError";
                                  err_message := lit "Unexpected token";
                                  err_stack := lit "SyntaxError";
                                  err_code := None |});
                 data_sha := JStr (lit "abc123") |};
     createOrUpdateFileContents := fun _ => Normal tt;
     date_added_clock := lit "2025-01-01T00:00:02.000Z";
     last_updated_clock := lit "2025-01-01T00:00:03.000Z" |}.

(** A ban list whose [banned_users] is an object, not an array. *)
Definition w_not_array : world :=
  {| import_node_fetch := Normal tt;
     fetch := fun _ _ => Normal {| ok := true; text := Normal [] |};
     getContent := fun _ _ _ =>
       Normal {| data_content :=
                   Some (Normal (JsonObj [("banned_users", JsonObj [])]%string));
                 data_sha := JStr (lit "abc123") |};
     createOrUpdateFileContents := fun _ => Normal tt;
     date_added_clock := lit "2025-01-01T00:00:02.000Z";
     last_updated_clock := lit "2025-01-01T00:00:03.000Z" |}.

(** A world where Discord answers 429 and GitHub refuses the commit. *)
Definition w_refused : world :=
  {| import_node_fetch := Normal tt;
     fetch := fun _ _ =>
       Normal {| ok := false; text := Normal (lit "rate limited") |};
     getContent := fun _ _ _ =>
       Normal {| data_content := Some (Normal (JsonObj [])); data_sha := JStr (lit "abc123") |};
     createOrUpdateFileContents := fun _ =>
       Throw {| err_name := lit "HttpError"; err_message := lit "Conflict";
                err_stack := lit "HttpError"; err_code := None |};
     date_added_clock := lit "2025-01-01T00:00:02.000Z";
     last_updated_clock := lit "2025-01-01T00:00:03.000Z" |}.

(** Three submissions, and then the second of them denied. *)
Definition rng2 : nat -> byte := fun _ => x01.
Definition rng3 : nat -> byte := fun _ => x02.

Definition three_pending : store :=
  final (post_report Sample.env rng3 Sample.t1 Sample.submission
           (final (post_report Sample.env rng2 Sample.t1 Sample.submission
                     Sample.one_pending))).

Definition first_and_third : store :=
  final (api_action Sample.env Sample.w Sample.t1
           (Sample.deny (lit "0101010101010101")) three_pending).

(** The store after a submission with target "Infinity". *)
Definition infinite_pending : store :=
  final (post_report Sample.env Sample.rng Sample.t0
           Sample.submission_infinite_target empty_store).

Definition a_report : report :=
  {| id := lit "deadbeef00000000"; target := num_of_Z 42;
     reporter := num_of_Z 7; context := lit "spam"; reason := lit "scamming";
     timestamp := lit "2025-01-01T00:00:00.000Z"; ip := JStr (lit "::1");
     status := JStr (lit "approved");
     actionedAt := Some (lit "2025-01-01T00:00:01.000Z") |}.

End Demo.

(* ===================================================================== *)
(** * Lemmas on the builtins                                              *)
(* ===================================================================== *)

Ltac unfold_eff :=
  unfold try_catch, run_locals, bind, lift, throw, ret, get, modify,
         console, respond, spawn, emit in *.

(** The builtins on a few inputs. *)
Example StringToNumber_samples :
  StringToNumber (lit "42") = num_of_Z 42
  /\ StringToNumber (lit " 12 ") = num_of_Z 12
  /\ StringToNumber [] = pos_zero
  /\ StringToNumber (lit "0x1f") = num_of_Z 31
  /\ StringToNumber (lit "1e3") = num_of_Z 1000
  /\ StringToNumber (lit "0.1") = S754_finite false 7205759403792794 (-56)
  /\ StringToNumber (lit "-Infinity") = S754_infinity true
  /\ StringToNumber (lit "1e999") = Infinity
  /\ StringToNumber (lit "abc") = NaN
  /\ StringToNumber (lit "12px") = NaN
  /\ StringToNumber (lit "1 2") = NaN.
Proof. vm_compute. repeat split. Qed.

Example trim_sample : trim (lit "  spam and eggs  ") = lit "spam and eggs".
Proof. reflexivity. Qed.

Example split_hashes_sample :
  split_hashes (lit "$2b$12$abc; $2b$12$def;; ")
  = [lit "$2b$12$abc"; lit "$2b$12$def"].
Proof. reflexivity. Qed.

Example generateReportId_sample : generateReportId Sample.rng = Sample.report_id.
Proof. reflexivity. Qed.

(** Scenario: the sample submission is answered 201 and is the one pending
    report; approving it leaves nothing pending and one report actioned. *)
Example submit_then_approve_sample :
  status_codes (trace (post_report Sample.env Sample.rng Sample.t0
                         Sample.submission empty_store)) = [201]
  /\ map id (pending Sample.one_pending) = [Sample.report_id]
  /\ pending Sample.one_approved = []
  /\ map status (actioned Sample.one_approved) = [JStr (lit "approved")]
  /\ map actionedAt (actioned Sample.one_approved) = [Some Sample.t1].
Proof. vm_compute. repeat split. Qed.

Lemma findIndex_Some {A} (p : A -> bool) (l : list A) (i : nat) :
  findIndex p l = Some i ->
  exists before x after,
    l = before ++ x :: after /\ length before = i /\ p x = true
    /\ Forall (fun y => p y = false) before.
Proof.
  revert i. induction l as [|y l IH]; intros i; simpl; [discriminate|].
  destruct (p y) eqn:Hy.
  - intros [= <-]. exists [], y, l. auto.
  - destruct (findIndex p l) as [j|]; simpl; [|discriminate].
    intros [= <-]. destruct (IH j eq_refl) as (b & x & a & -> & Hlen & Hx & Hb).
    exists (y :: b), x, a. simpl. repeat split; auto.
Qed.

Lemma findIndex_None {A} (p : A -> bool) (l : list A) :
  findIndex p l = None <-> Forall (fun y => p y = false) l.
Proof.
  induction l as [|y l IH]; simpl.
  - split; auto.
  - destruct (p y) eqn:Hy.
    + split; [discriminate|]. intros H. inversion H; congruence.
    + destruct (findIndex p l) as [j|]; simpl.
      * split; [discriminate|]. intros H. inversion H; subst.
        apply IH in H3. discriminate.
      * split; auto. intros _. constructor; [auto|]. by apply IH.
Qed.

Lemma findIndex_first {A} (p : A -> bool) (before after : list A) (x : A) :
  Forall (fun y => p y = false) before -> p x = true ->
  findIndex p (before ++ x :: after) = Some (length before).
Proof.
  induction before as [|y b IH]; simpl; intros Hb Hx.
  - by rewrite Hx.
  - inversion Hb; subst. rewrite H1, IH; auto.
Qed.

Lemma jsstring_eqb_eq (a b : jsstring) : jsstring_eqb a b = true <-> a = b.
Proof. unfold jsstring_eqb. by rewrite bool_decide_eq_true. Qed.

Lemma str_strict_eq_true (s : jsstring) (v : jsval) :
  str_strict_eq s v = true <-> v = JStr s.
Proof.
  destruct v; simpl; try (split; [discriminate|congruence]).
  rewrite jsstring_eqb_eq. split; congruence.
Qed.

Lemma includes_decision (v : jsval) :
  includes [lit "approved"; lit "denied"] v = true
  <-> v = JStr (lit "approved") \/ v = JStr (lit "denied").
Proof.
  unfold includes. simpl. rewrite orb_false_r, orb_true_iff.
  by rewrite !str_strict_eq_true.
Qed.

Lemma hex_digit_lower (n : N) : (n < 16)%N -> is_hex_lower (hex_digit n) = true.
Proof.
  intros Hn. unfold hex_digit, is_hex_lower.
  destruct (N.ltb_spec n 10).
  - apply orb_true_iff. left. apply andb_true_iff.
    split; apply N.leb_le; lia.
  - apply orb_true_iff. right. apply andb_true_iff.
    split; apply N.leb_le; lia.
Qed.

Lemma hex_of_byte_lower (b : byte) : forallb is_hex_lower (hex_of_byte b) = true.
Proof.
  assert (Hb : (Byte.to_N b < 256)%N).
  { pose proof (Byte.to_N_bounded b). lia. }
  unfold hex_of_byte. simpl.
  rewrite !hex_digit_lower; auto.
  - apply N.mod_lt. lia.
  - apply N.Div0.div_lt_upper_bound. lia.
Qed.

Lemma toString_hex_length (buf : list byte) :
  length (toString_hex buf) = 2 * length buf.
Proof.
  induction buf as [|b buf IH]; simpl; [reflexivity|].
  simpl in IH. rewrite IH. lia.
Qed.

Lemma toString_hex_lower (buf : list byte) :
  forallb is_hex_lower (toString_hex buf) = true.
Proof.
  induction buf as [|b buf IH]; [reflexivity|].
  change (toString_hex (b :: buf)) with (hex_of_byte b ++ toString_hex buf).
  rewrite forallb_app, IH, hex_of_byte_lower. reflexivity.
Qed.

(** Every report id has 16 characters, each a lowercase hexadecimal digit. *)
Lemma generateReportId_shape (rng : nat -> byte) :
  length (generateReportId rng) = 16
  /\ forallb is_hex_lower (generateReportId rng) = true.
Proof.
  unfold generateReportId. split.
  - rewrite toString_hex_length. reflexivity.
  - apply toString_hex_lower.
Qed.

(* ===================================================================== *)
(** * The async functions never reject                                    *)
(* ===================================================================== *)

Lemma FireWebhook_run {S} (w : world) (Content : template) (URL : jsstring)
    (s : S) :
  FireWebhook w Content URL s
  = (trace (FireWebhook w Content URL tt), s, Normal tt)
  /\ forallb is_background (trace (FireWebhook w Content URL tt)) = true.
Proof.
  unfold FireWebhook. unfold_eff.
  destruct (import_node_fetch w) as [[]|e]; simpl;
    [destruct (fetch w URL Content) as [[[] [txt|e']]|e]; simpl|];
    repeat (case_bool_decide; simpl); auto.
Qed.

Lemma addToGitHubBanList_run {S} (env : process_env) (w : world)
    (reportData : report) (s : S) :
  addToGitHubBanList env w reportData s
  = (trace (addToGitHubBanList env w reportData tt), s, Normal tt)
  /\ forallb is_background (trace (addToGitHubBanList env w reportData tt)) = true.
Proof.
  unfold addToGitHubBanList. unfold_eff.
  destruct (negb _ || negb _); simpl; [auto|].
  destruct (getContent w _ _ _) as [[[[doc|e]|] sha]|e]; simpl.
  - destruct (get_banned_users doc) as [users|e]; simpl.
    + destruct (array_push _ _) as [pushed|e]; simpl; [|auto].
      destruct (createOrUpdateFileContents w _) as [[]|e]; simpl; auto.
    + destruct (createOrUpdateFileContents w _) as [[]|e']; simpl; auto.
  - destruct (createOrUpdateFileContents w _) as [[]|e']; simpl; auto.
  - destruct (createOrUpdateFileContents w _) as [[]|e']; simpl; auto.
  - destruct (createOrUpdateFileContents w _) as [[]|e']; simpl; auto.
Qed.

Lemma run_task_run {S} (env : process_env) (w : world) (t : task) (s : S) :
  run_task env w t s = (trace (run_task env w t tt), s, Normal tt)
  /\ forallb is_background (trace (run_task env w t tt)) = true.
Proof.
  destruct t; simpl; [apply FireWebhook_run | apply addToGitHubBanList_run].
Qed.

(* ===================================================================== *)
(** * What [POST /report] does, case by case                              *)
(* ===================================================================== *)

Lemma post_report_missing env rng now req st :
  missing_fields req = true ->
  post_report env rng now req st = (missing_fields_answer, st, Normal tt).
Proof.
  intros H. unfold post_report. fold (missing_fields req). rewrite H.
  reflexivity.
Qed.

Lemma post_report_target_throws env rng now req st e :
  missing_fields req = false ->
  number_or_coerce (body_target req) = Throw e ->
  post_report env rng now req st = ([], st, Throw e).
Proof.
  intros H Ht. unfold post_report. fold (missing_fields req). rewrite H.
  unfold_eff. rewrite Ht. reflexivity.
Qed.

Lemma post_report_reporter_throws env rng now req st t e :
  missing_fields req = false ->
  number_or_coerce (body_target req) = Normal t ->
  number_or_coerce (body_reporter req) = Throw e ->
  post_report env rng now req st = ([], st, Throw e).
Proof.
  intros H Ht Hr. unfold post_report. fold (missing_fields req). rewrite H.
  unfold_eff. rewrite Ht, Hr. reflexivity.
Qed.

Lemma post_report_invalid env rng now req st t r :
  missing_fields req = false ->
  number_or_coerce (body_target req) = Normal t ->
  number_or_coerce (body_reporter req) = Normal r ->
  isNaN t || isNaN r || negb (js_type_eqb (typeof (body_context req)) TyString)
    = true ->
  post_report env rng now req st = (invalid_types_answer, st, Normal tt).
Proof.
  intros H Ht Hr Hc. unfold post_report. fold (missing_fields req). rewrite H.
  unfold_eff. rewrite Ht, Hr. simpl. rewrite Hc. reflexivity.
Qed.

Lemma typeof_string (v : jsval) :
  js_type_eqb (typeof v) TyString = true <-> exists s, v = JStr s.
Proof.
  destruct v; simpl; split; try discriminate; try (intros [s' ?]; discriminate);
    eauto.
Qed.

Lemma post_report_reason_throws env rng now req st t r c :
  missing_fields req = false ->
  number_or_coerce (body_target req) = Normal t ->
  number_or_coerce (body_reporter req) = Normal r ->
  isNaN t = false -> isNaN r = false ->
  body_context req = JStr c ->
  (forall s, body_reason req <> JStr s) ->
  exists e, call_trim (body_reason req) = Throw e
            /\ post_report env rng now req st = ([], st, Throw e).
Proof.
  intros H Ht Hr Hnt Hnr Hc Hs. unfold post_report.
  fold (missing_fields req). rewrite H.
  unfold_eff. rewrite Ht, Hr. simpl. rewrite Hnt, Hnr, Hc. simpl.
  destruct (body_reason req) as [| | | |s|]; simpl; eauto.
  by destruct (Hs s).
Qed.

Lemma post_report_accepted env rng now req st t r c s :
  missing_fields req = false ->
  number_or_coerce (body_target req) = Normal t ->
  number_or_coerce (body_reporter req) = Normal r ->
  isNaN t = false -> isNaN r = false ->
  body_context req = JStr c ->
  body_reason req = JStr s ->
  post_report env rng now req st
  = ([Spawn (FireWebhook_task
               (new_report_message env (S (length (reports st))))
               (REPORTS_WEBHOOK (CONFIG env)));
      Respond 201
        (SubmittedBody
           [Text (lit "Report "); Subst (JStr (generateReportId rng));
            Text (lit " submitted successfully!")]
           (generateReportId rng))],
     add_report (new_report rng now (req_ip req) t r c s) st,
     Normal tt).
Proof.
  intros H Ht Hr Hnt Hnr Hc Hs. unfold post_report.
  fold (missing_fields req). rewrite H.
  unfold_eff. rewrite Ht, Hr. simpl. rewrite Hnt, Hnr, Hc, Hs. simpl.
  unfold alloc, reports_push, add_report, new_report. simpl.
  rewrite length_app, Nat.add_1_r. reflexivity.
Qed.

(** The five ways a submission can go. *)
Lemma post_report_cases env rng now req st :
  let run := post_report env rng now req st in
  (missing_fields req = true /\ run = (missing_fields_answer, st, Normal tt))
  \/ (missing_fields req = false
      /\ exists e, run = ([], st, Throw e)
         /\ (number_or_coerce (body_target req) = Throw e
             \/ (is_normal (number_or_coerce (body_target req)) = true
                 /\ number_or_coerce (body_reporter req) = Throw e)))
  \/ (missing_fields req = false
      /\ exists t r,
           number_or_coerce (body_target req) = Normal t
           /\ number_or_coerce (body_reporter req) = Normal r
           /\ (isNaN t = true \/ isNaN r = true
               \/ typeof (body_context req) <> TyString)
           /\ run = (invalid_types_answer, st, Normal tt))
  \/ (passes_validation req
      /\ (forall s, body_reason req <> JStr s)
      /\ exists e, call_trim (body_reason req) = Throw e
                   /\ run = ([], st, Throw e))
  \/ (passes_validation req
      /\ exists t r c s,
           number_or_coerce (body_target req) = Normal t
           /\ number_or_coerce (body_reporter req) = Normal r
           /\ body_context req = JStr c /\ body_reason req = JStr s
           /\ run = ([Spawn (FireWebhook_task
                        (new_report_message env (S (length (reports st))))
                        (REPORTS_WEBHOOK (CONFIG env)));
                      Respond 201
                        (SubmittedBody
                           [Text (lit "Report ");
                            Subst (JStr (generateReportId rng));
                            Text (lit " submitted successfully!")]
                           (generateReportId rng))],
                     add_report (new_report rng now (req_ip req) t r c s) st,
                     Normal tt)).
Proof.
  intros run. subst run.
  destruct (missing_fields req) eqn:Hm.
  { left. split; [done|]. by apply post_report_missing. }
  right.
  destruct (number_or_coerce (body_target req)) as [t|e] eqn:Ht.
  2:{ left. split; [done|]. exists e. split; [|by left].
      by apply post_report_target_throws. }
  destruct (number_or_coerce (body_reporter req)) as [r|e] eqn:Hr.
  2:{ left. split; [done|]. exists e. split; [|by right].
      by eapply post_report_reporter_throws. }
  right.
  destruct (isNaN t) eqn:Hnt.
  { left. split; [done|]. exists t, r. repeat split; auto.
    eapply post_report_invalid; eauto. by rewrite Hnt. }
  destruct (isNaN r) eqn:Hnr.
  { left. split; [done|]. exists t, r. repeat split; auto.
    eapply post_report_invalid; eauto. by rewrite Hnt, Hnr. }
  destruct (js_type_eqb (typeof (body_context req)) TyString) eqn:Hc.
  2:{ left. split; [done|]. exists t, r. repeat split; auto.
      - right. right. intros Heq. rewrite Heq in Hc. discriminate.
      - eapply post_report_invalid; eauto. by rewrite Hnt, Hnr, Hc. }
  right.
  assert (Hpass : passes_validation req).
  { split; [done|]. exists t, r. repeat split; auto.
    apply typeof_string in Hc as [c ->]. reflexivity. }
  apply typeof_string in Hc as [c Hc].
  destruct (body_reason req) as [| | | |s|o] eqn:Hs.
  5:{ right. split; [done|]. exists t, r, c, s. repeat split; auto.
      eapply post_report_accepted; eauto. }
  all: left; split; [done|]; rewrite <- Hs;
    (split; [rewrite Hs; congruence|]);
    eapply post_report_reason_throws; eauto; rewrite Hs; congruence.
Qed.

(* ===================================================================== *)
(** * What [POST /api/action] does, case by case                          *)
(* ===================================================================== *)

Lemma api_action_invalid env w now req st :
  invalid_action req = true ->
  api_action env w now req st
  = ([Respond 400 (ErrorBody (lit "Invalid action or report ID!"))], st,
     Normal tt).
Proof.
  intros H. unfold api_action. fold (invalid_action req). rewrite H.
  reflexivity.
Qed.

Lemma api_action_not_found env w now req st :
  invalid_action req = false ->
  findIndex (has_id st (body_reportId req)) (reports st) = None ->
  api_action env w now req st
  = ([Respond 404 (ErrorBody (lit "Report not found!"))], st, Normal tt).
Proof.
  intros H Hf. unfold api_action. fold (invalid_action req). rewrite H.
  unfold_eff. fold (has_id st (body_reportId req)). rewrite Hf. reflexivity.
Qed.

Lemma api_action_found env w now req st i l :
  invalid_action req = false ->
  findIndex (has_id st (body_reportId req)) (reports st) = Some i ->
  reports st !! i = Some l ->
  let st' := move_to_actioned now (body_action req) i l st in
  api_action env w now req st
  = (action_events env w (body_action req) (deref st' l), st', Normal tt).
Proof.
  intros H Hf Hl st'. unfold api_action. fold (invalid_action req). rewrite H.
  unfold_eff. fold (has_id st (body_reportId req)). rewrite Hf, Hl.
  unfold last_actioned_get, await, action_events. unfold_eff.
  destruct (str_strict_eq (lit "approved") (body_action req)); simpl;
    repeat (rewrite last_snoc; simpl).
  - match goal with
    | |- context [addToGitHubBanList env w ?r ?s] =>
        rewrite (proj1 (addToGitHubBanList_run env w r s))
    end.
    reflexivity.
  - reflexivity.
Qed.

(** The three ways an action request can go. *)
Lemma api_action_cases env w now req st :
  let run := api_action env w now req st in
  (invalid_action req = true
   /\ run = ([Respond 400 (ErrorBody (lit "Invalid action or report ID!"))],
             st, Normal tt))
  \/ (invalid_action req = false
      /\ Forall (fun l => has_id st (body_reportId req) l = false) (reports st)
      /\ run = ([Respond 404 (ErrorBody (lit "Report not found!"))], st,
                Normal tt))
  \/ (invalid_action req = false
      /\ exists before l after,
           reports st = before ++ l :: after
           /\ has_id st (body_reportId req) l = true
           /\ Forall (fun l' => has_id st (body_reportId req) l' = false) before
           /\ let st' :=
                move_to_actioned now (body_action req) (length before) l st in
              reports st' = before ++ after
              /\ run = (action_events env w (body_action req) (deref st' l),
                        st', Normal tt)).
Proof.
  intros run. subst run.
  destruct (invalid_action req) eqn:Hi.
  { left. split; [done|]. by apply api_action_invalid. }
  right.
  destruct (findIndex (has_id st (body_reportId req)) (reports st))
    as [i|] eqn:Hf.
  - right. split; [done|].
    destruct (findIndex_Some _ _ _ Hf) as (b & l & a & Hr & Hlen & Hl & Hb).
    exists b, l, a. repeat split; auto.
    + simpl. rewrite Hr. apply delete_middle.
    + rewrite Hlen. apply api_action_found; auto.
      rewrite Hr, <- Hlen. apply list_lookup_middle. reflexivity.
  - left. split; [done|]. split; [by apply findIndex_None|].
    by apply api_action_not_found.
Qed.

Lemma invalid_action_false (req : action_request) :
  invalid_action req = false <->
  ToBoolean (body_reportId req) = true
  /\ (body_action req = JStr (lit "approved")
      \/ body_action req = JStr (lit "denied")).
Proof.
  unfold invalid_action. rewrite !orb_false_iff, !negb_false_iff.
  rewrite includes_decision. split.
  - intros [[? ?] ?]. auto.
  - intros [? Ha]. repeat split; auto. by destruct Ha as [-> | ->].
Qed.

(* ===================================================================== *)
(** * The store invariant                                                 *)
(* ===================================================================== *)

Lemma deref_move_same now action i l st :
  l < length (heap st) ->
  deref (move_to_actioned now action i l st) l
  = set_actionedAt now (set_status action (deref st l)).
Proof.
  intros Hl. unfold deref, move_to_actioned. simpl.
  rewrite list_lookup_total_alter_eq by (rewrite length_alter; lia).
  rewrite list_lookup_total_alter_eq by lia. reflexivity.
Qed.

Lemma deref_move_other now action i l st l' :
  l' <> l ->
  deref (move_to_actioned now action i l st) l' = deref st l'.
Proof.
  intros Hl. unfold deref, move_to_actioned. simpl.
  rewrite !list_lookup_total_alter_ne by auto. reflexivity.
Qed.

Lemma deref_add_old r st l :
  l < length (heap st) -> deref (add_report r st) l = deref st l.
Proof.
  intros Hl. unfold deref, add_report. simpl.
  by rewrite lookup_total_app_l.
Qed.

Lemma deref_add_new r st : deref (add_report r st) (length (heap st)) = r.
Proof.
  unfold deref, add_report. simpl.
  rewrite lookup_total_app_r by lia. by rewrite Nat.sub_diag.
Qed.

Lemma store_inv_empty : store_inv empty_store.
Proof.
  split; simpl.
  - intros l. split; [intros H; inversion H | lia].
  - constructor.
  - intros l H. inversion H.
  - intros l H. inversion H.
  - intros l H. lia.
Qed.

Lemma store_inv_add r st :
  store_inv st ->
  status r = JStr (lit "pending") -> actionedAt r = None ->
  length (id r) = 16 -> forallb is_hex_lower (id r) = true ->
  store_inv (add_report r st).
Proof.
  intros [Hrefs Hnd Hp Ha Hids] Hst Hat Hlen Hhex.
  assert (Hfresh : length (heap st) ∉ reports st ++ actionedReports st).
  { intros Hin. apply Hrefs in Hin. lia. }
  split; simpl.
  - intros l. rewrite length_app. simpl.
    rewrite !elem_of_app, list_elem_of_singleton.
    specialize (Hrefs l). rewrite elem_of_app in Hrefs. split.
    + intros [[H | ->] | H]; [| lia |]; (assert (l < length (heap st)) by tauto); lia.
    + intros H. destruct (decide (l = length (heap st))) as [-> | Hne]; [tauto|].
      assert (Hlt : l < length (heap st)) by lia. apply Hrefs in Hlt. tauto.
  - rewrite <- app_assoc. apply NoDup_app in Hnd as (Hn1 & Hdisj & Hn2).
    apply NoDup_app. split; [done|]. split.
    + intros x Hx Hin. apply elem_of_app in Hin as [Hin | Hin].
      * apply list_elem_of_singleton in Hin as ->.
        apply Hfresh, elem_of_app. by left.
      * by apply (Hdisj x).
    + simpl. constructor; [|done].
      intros Hin. apply Hfresh, elem_of_app. by right.
  - intros l Hl. apply elem_of_app in Hl as [Hl | Hl].
    + rewrite deref_add_old; [by apply Hp|].
      apply Hrefs, elem_of_app. by left.
    + apply list_elem_of_singleton in Hl as ->. by rewrite deref_add_new.
  - intros l Hl. rewrite deref_add_old; [by apply Ha|].
    apply Hrefs, elem_of_app. by right.
  - intros l. rewrite length_app. simpl. intros Hl.
    destruct (decide (l = length (heap st))) as [-> | Hne].
    + by rewrite deref_add_new.
    + rewrite deref_add_old by lia. apply Hids. lia.
Qed.

Lemma store_inv_move now action before l after st :
  store_inv st ->
  reports st = before ++ l :: after ->
  action = JStr (lit "approved") \/ action = JStr (lit "denied") ->
  store_inv (move_to_actioned now action (length before) l st).
Proof.
  intros [Hrefs Hnd Hp Ha Hids] Hr Hact.
  assert (Hperm : (before ++ after) ++ actionedReports st ++ [l]
                  ≡ₚ reports st ++ actionedReports st).
  { rewrite Hr. rewrite <- !app_assoc. simpl.
    rewrite (Permutation_app_comm (actionedReports st) [l]). simpl.
    by rewrite Permutation_middle. }
  assert (Hl : l < length (heap st)).
  { apply Hrefs. rewrite Hr. rewrite !elem_of_app, elem_of_cons. auto. }
  assert (Hnd' : NoDup ((before ++ after) ++ actionedReports st ++ [l])).
  { by rewrite Hperm. }
  split; simpl; rewrite ?Hr, ?delete_middle.
  - intros l'. rewrite !length_alter, Hperm. apply Hrefs.
  - done.
  - intros l' Hl'.
    assert (Hne : l' <> l).
    { intros ->. apply NoDup_app in Hnd' as (_ & Hdisj & _).
      apply (Hdisj l Hl'). rewrite elem_of_app, list_elem_of_singleton. auto. }
    rewrite deref_move_other by done. apply Hp. rewrite Hr.
    rewrite elem_of_app, elem_of_cons.
    apply elem_of_app in Hl' as [?|?]; auto.
  - intros l' Hl'. apply elem_of_app in Hl' as [Hl' | Hl'].
    + assert (Hne : l' <> l).
      { intros ->. apply NoDup_app in Hnd' as (_ & _ & Hn).
        apply NoDup_app in Hn as (_ & Hdisj & _).
        apply (Hdisj l Hl'). by apply list_elem_of_singleton. }
      rewrite deref_move_other by done. by apply Ha.
    + apply list_elem_of_singleton in Hl' as ->.
      rewrite deref_move_same by done. simpl. split; [|done].
      destruct Hact as [-> | ->]; auto.
  - intros l'. rewrite !length_alter. intros Hl'.
    destruct (decide (l' = l)) as [-> | Hne].
    + rewrite deref_move_same by done. simpl. by apply Hids.
    + rewrite deref_move_other by done. by apply Hids.
Qed.

(** Every request preserves the invariant. *)
Lemma store_inv_step st st' : store_inv st -> step st st' -> store_inv st'.
Proof.
  intros Hinv [env rng now req | env w now req].
  - destruct (post_report_cases env rng now req st)
      as [[_ ->] | [(_ & e & -> & _) | [(_ & t & r & _ & _ & _ & ->)
         | [(_ & _ & e & _ & ->) | (_ & t & r & c & s & _ & _ & _ & _ & ->)]]]];
      simpl; try done.
    destruct (generateReportId_shape rng).
    by apply store_inv_add.
  - destruct (api_action_cases env w now req st)
      as [[_ ->] | [(_ & _ & ->) | (Hi & b & l & a & Hr & _ & _ & _ & ->)]];
      simpl; try done.
    apply invalid_action_false in Hi as [_ Hact].
    by apply store_inv_move with (after := a).
Qed.

Lemma reachable_inv st : reachable st -> store_inv st.
Proof.
  unfold reachable. revert st.
  apply (rtc_ind_r (fun s => store_inv s)); [apply store_inv_empty|].
  intros y z _ Hstep IH. by eapply store_inv_step.
Qed.

(* ===================================================================== *)
(** * Reading traces                                                      *)
(* ===================================================================== *)

Lemma background_trace (t : list event) :
  forallb is_background t = true ->
  responses t = [] /\ spawned t = [] /\ awaited t = []
  /\ ban_list_calls t = [] /\ webhook_calls t = [].
Proof.
  induction t as [|e t IH]; simpl; [done|].
  intros H. apply andb_true_iff in H as [He Ht].
  destruct (IH Ht) as (IH1 & IH2 & IH3 & IH4 & IH5).
  unfold responses, spawned, awaited, ban_list_calls, webhook_calls in *.
  destruct e; simpl in *; try discriminate; auto.
Qed.

Lemma before_response_background (t tail : list event) :
  forallb is_background t = true ->
  before_response (t ++ tail) = t ++ before_response tail.
Proof.
  induction t as [|e t IH]; simpl; [done|].
  intros H. apply andb_true_iff in H as [He Ht].
  destruct e; simpl in *; try discriminate; by rewrite IH.
Qed.

Lemma has_id_true st reportId l :
  has_id st reportId l = true <-> JStr (id (deref st l)) = reportId.
Proof. unfold has_id. rewrite str_strict_eq_true. split; congruence. Qed.

Lemma has_id_false st reportId l :
  has_id st reportId l = false <-> JStr (id (deref st l)) <> reportId.
Proof.
  rewrite <- has_id_true. destruct (has_id st reportId l); split; congruence.
Qed.

Lemma elem_of_pending st r :
  r ∈ pending st <-> exists l, l ∈ reports st /\ r = deref st l.
Proof.
  unfold pending. rewrite list_elem_of_In, in_map_iff. split.
  - intros (l & <- & Hl). exists l. by rewrite list_elem_of_In.
  - intros (l & Hl & ->). exists l. by rewrite <- list_elem_of_In.
Qed.

Lemma elem_of_actioned st r :
  r ∈ actioned st <-> exists l, l ∈ actionedReports st /\ r = deref st l.
Proof.
  unfold actioned. rewrite list_elem_of_In, in_map_iff. split.
  - intros (l & <- & Hl). exists l. by rewrite list_elem_of_In.
  - intros (l & Hl & ->). exists l. by rewrite <- list_elem_of_In.
Qed.

(** The events of a successful action, read. *)
Lemma action_events_read env w action r :
  let tr := action_events env w action r in
  responses tr
  = [(200, ActionedBody [Text (lit "Report "); Subst action;
                         Text (lit " successfull!")])]
  /\ spawned tr
     = [FireWebhook_task
          (if str_strict_eq (lit "approved") action
           then approved_message JUndefined (JNum (target r)) (JNum (reporter r))
           else else_message JUndefined (JNum (target r)) (JNum (reporter r)))
          (ACTIONS_WEBHOOK (CONFIG env))]
  /\ awaited tr
     = (if str_strict_eq (lit "approved") action
        then [addToGitHubBanList_task r] else [])
  /\ ban_list_calls tr
     = (if str_strict_eq (lit "approved") action then [r] else [])
  /\ spawned (before_response tr) = spawned tr
  /\ awaited (before_response tr) = awaited tr.
Proof.
  intros tr. subst tr. unfold action_events.
  destruct (addToGitHubBanList_run env w r tt) as [_ Hbg].
  destruct (background_trace _ Hbg) as (H1 & H2 & H3 & H4 & H5).
  destruct (str_strict_eq (lit "approved") action); simpl.
  - rewrite before_response_background by done. simpl.
    unfold responses, spawned, awaited, ban_list_calls in *.
    rewrite !omap_app, H1, H2, H3, H4. done.
  - done.
Qed.

(** A store is only changed by a submission that is accepted or by an action
    that finds its report; [actionedReports] never shrinks. *)
Lemma step_actioned_mono st st' l :
  step st st' -> l ∈ actionedReports st -> l ∈ actionedReports st'.
Proof.
  intros [env rng now req | env w now req] Hl.
  - destruct (post_report_cases env rng now req st)
      as [[_ ->] | [(_ & e & -> & _) | [(_ & t & r & _ & _ & _ & ->)
         | [(_ & _ & e & _ & ->) | (_ & t & r & c & s & _ & _ & _ & _ & ->)]]]];
      simpl; done.
  - destruct (api_action_cases env w now req st)
      as [[_ ->] | [(_ & _ & ->) | (Hi & b & l' & a & Hr & _ & _ & _ & ->)]];
      simpl; try done.
    apply elem_of_app. by left.
Qed.

Lemma store_inv_disjoint st l :
  store_inv st -> l ∈ actionedReports st -> l ∉ reports st.
Proof.
  intros [_ Hnd _ _ _] Hl Hin.
  apply NoDup_app in Hnd as (_ & Hdisj & _). by apply (Hdisj l).
Qed.

Lemma reachable_step st st' : reachable st -> step st st' -> reachable st'.
Proof. unfold reachable. intros H Hs. by eapply rtc_r. Qed.

Lemma reachable_steps st st' : reachable st -> rtc step st st' -> reachable st'.
Proof. unfold reachable. intros H Hs. by eapply rtc_trans. Qed.

Lemma actioned_stays st st' l :
  rtc step st st' -> l ∈ actionedReports st -> l ∈ actionedReports st'.
Proof.
  induction 1 as [st0 | st0 st1 st2 Hs _ IH]; [done|].
  intros Hl. apply IH. by eapply step_actioned_mono.
Qed.

Lemma reachable_one_pending : reachable Sample.one_pending.
Proof. apply rtc_once. apply step_submit. Qed.

Lemma reachable_one_approved : reachable Sample.one_approved.
Proof. eapply reachable_step; [apply reachable_one_pending | apply step_action]. Qed.

(* ===================================================================== *)
(** * The action state machine                                            *)
(* ===================================================================== *)

(** An action with a truthy id: the first pending report with the id is
    moved, or there is none and the answer is 404. *)
Lemma api_action_truthy_id env w now st reportId action :
  reachable st ->
  ToBoolean reportId = true ->
  action = JStr (lit "approved") \/ action = JStr (lit "denied") ->
  let run := api_action env w now
               {| body_reportId := reportId; body_action := action |} st in
  ((exists r, r ∈ pending st /\ JStr (id r) = reportId) ->
   exists before l after,
     reports st = before ++ l :: after
     /\ JStr (id (deref st l)) = reportId
     /\ (forall l', l' ∈ before -> JStr (id (deref st l')) <> reportId)
     /\ outcome run = Normal tt
     /\ responses (trace run)
        = [(200, ActionedBody [Text (lit "Report "); Subst action;
                               Text (lit " successfull!")])]
     /\ deref (final run) l = set_actionedAt now (set_status action (deref st l))
     /\ status (deref (final run) l) = action
     /\ actionedAt (deref (final run) l) = Some now
     /\ reports (final run) = before ++ after
     /\ (l ∉ reports (final run))
     /\ actionedReports (final run) = actionedReports st ++ [l]
     /\ (forall l', l' <> l -> deref (final run) l' = deref st l'))
  /\ ((forall r, r ∈ pending st -> JStr (id r) <> reportId) ->
      outcome run = Normal tt
      /\ responses (trace run) = [(404, ErrorBody (lit "Report not found!"))]
      /\ final run = st).
Proof.
  intros Hreach Hid Hact run.
  pose proof (reachable_inv st Hreach) as Hinv.
  set (req := {| body_reportId := reportId; body_action := action |}) in *.
  assert (Hvalid : invalid_action req = false).
  { apply invalid_action_false. by split. }
  destruct (api_action_cases env w now req st)
    as [[Hi _] | [(_ & Hnone & Hrun) | (_ & b & l & a & Hr & Hl & Hb & Hrs & Hrun)]].
  { congruence. }
  - (* no pending report has the id *)
    split.
    + intros (r & Hr & Hrid). apply elem_of_pending in Hr as (l & Hl & ->).
      rewrite Forall_forall in Hnone. specialize (Hnone l Hl).
      apply has_id_false in Hnone. by destruct Hnone.
    + intros _. subst run. rewrite Hrun. done.
  - (* the first pending report with the id *)
    simpl in Hrs, Hrun. split.
    + intros _. exists b, l, a.
      assert (Hlt : l < length (heap st)).
      { apply (inv_refs st Hinv). rewrite Hr.
        rewrite !elem_of_app, elem_of_cons. auto. }
      assert (Hnd : NoDup (b ++ l :: a)).
      { rewrite <- Hr. pose proof (inv_nodup st Hinv) as Hn.
        by apply NoDup_app in Hn as (? & _ & _). }
      subst run. rewrite Hrun. cbn [final outcome trace fst snd].
      destruct (action_events_read env w action
                  (deref (move_to_actioned now action (length b) l st) l))
        as (Hresp & _).
      split_and!.
      * done.
      * by apply has_id_true.
      * intros l' Hl'. rewrite Forall_forall in Hb.
        by apply has_id_false, Hb.
      * done.
      * done.
      * by apply deref_move_same.
      * by rewrite deref_move_same.
      * by rewrite deref_move_same.
      * done.
      * change (l ∉ delete (length b) (reports st)). rewrite Hrs.
        apply NoDup_app in Hnd as (_ & Hdisj & Hna).
        inversion Hna; subst. intros Hin.
        apply elem_of_app in Hin as [Hin | Hin]; [|done].
        apply (Hdisj l Hin). by left.
      * done.
      * intros l' Hne. by apply deref_move_other.
    + intros Hnone. exfalso.
      apply (Hnone (deref st l)).
      * apply elem_of_pending. exists l. split; [|done].
        rewrite Hr, elem_of_app, elem_of_cons. auto.
      * by apply has_id_true.
Qed.

(** Claim C1, as amended. For every reachable store and every decision
    among approved and denied: with a non-empty (truthy) report id that is
    the id of a pending report, [POST /api/action] takes the first pending
    report with that id, sets its status to the decision and its
    [actionedAt] to the current time, removes it from the pending array,
    appends it to the actioned array, leaves every other report alone and
    answers 200; with a truthy id that no pending report has (be it unknown
    or the id of an actioned report) it answers 404 and leaves the store as
    it was; with a missing or empty (falsy) id it answers 400 and leaves the
    store as it was. *)
Theorem api_action_moves_or_not_found env w now st reportId action :
  reachable st ->
  action = JStr (lit "approved") \/ action = JStr (lit "denied") ->
  let run := api_action env w now
               {| body_reportId := reportId; body_action := action |} st in
  (ToBoolean reportId = true ->
   (exists r, r ∈ pending st /\ JStr (id r) = reportId) ->
   exists before l after,
     reports st = before ++ l :: after
     /\ JStr (id (deref st l)) = reportId
     /\ (forall l', l' ∈ before -> JStr (id (deref st l')) <> reportId)
     /\ outcome run = Normal tt
     /\ responses (trace run)
        = [(200, ActionedBody [Text (lit "Report "); Subst action;
                               Text (lit " successfull!")])]
     /\ deref (final run) l = set_actionedAt now (set_status action (deref st l))
     /\ status (deref (final run) l) = action
     /\ actionedAt (deref (final run) l) = Some now
     /\ reports (final run) = before ++ after
     /\ (l ∉ reports (final run))
     /\ actionedReports (final run) = actionedReports st ++ [l]
     /\ (forall l', l' <> l -> deref (final run) l' = deref st l'))
  /\ (ToBoolean reportId = true ->
      (forall r, r ∈ pending st -> JStr (id r) <> reportId) ->
      outcome run = Normal tt
      /\ responses (trace run) = [(404, ErrorBody (lit "Report not found!"))]
      /\ final run = st)
  /\ (ToBoolean reportId = false ->
      outcome run = Normal tt
      /\ responses (trace run)
         = [(400, ErrorBody (lit "Invalid action or report ID!"))]
      /\ final run = st).
Proof.
  intros Hreach Hact run. split_and!.
  - intros Hid. by apply api_action_truthy_id.
  - intros Hid. by apply api_action_truthy_id.
  - intros Hid. subst run. rewrite api_action_invalid; [done|].
    unfold invalid_action. simpl. by rewrite Hid.
Qed.

(** Claim C1 as stated fails on an empty id: no pending report has the id,
    and the answer is 400 (invalid), not 404 (not found). *)
Lemma api_action_empty_id_is_invalid :
  (forall r, r ∈ pending Sample.one_pending -> JStr (id r) <> JStr [])
  /\ responses (trace (api_action Sample.env Sample.w Sample.t1
                         (Sample.approve []) Sample.one_pending))
     = [(400, ErrorBody (lit "Invalid action or report ID!"))]
  /\ final (api_action Sample.env Sample.w Sample.t1
              (Sample.approve []) Sample.one_pending)
     = Sample.one_pending.
Proof.
  split; [|split; reflexivity].
  intros r Hr. apply elem_of_pending in Hr as (l & Hl & ->).
  vm_compute in Hl. apply list_elem_of_singleton in Hl as ->.
  vm_compute. discriminate.
Qed.

Lemma api_action_moves_or_not_found_witness :
  let st := Sample.one_pending in
  let reportId := JStr Sample.report_id in
  let action := JStr (lit "approved") in
  let run := api_action Sample.env Sample.w Sample.t1
               (Sample.approve Sample.report_id) st in
  reachable st
  /\ ToBoolean reportId = true
  /\ (exists r, r ∈ pending st /\ JStr (id r) = reportId)
  /\ exists before l after,
       reports st = before ++ l :: after
       /\ JStr (id (deref st l)) = reportId
       /\ (forall l', l' ∈ before -> JStr (id (deref st l')) <> reportId)
       /\ outcome run = Normal tt
       /\ responses (trace run)
          = [(200, ActionedBody [Text (lit "Report "); Subst action;
                                 Text (lit " successfull!")])]
       /\ deref (final run) l
          = set_actionedAt Sample.t1 (set_status action (deref st l))
       /\ status (deref (final run) l) = action
       /\ actionedAt (deref (final run) l) = Some Sample.t1
       /\ reports (final run) = before ++ after
       /\ (l ∉ reports (final run))
       /\ actionedReports (final run) = actionedReports st ++ [l]
       /\ (forall l', l' <> l -> deref (final run) l' = deref st l').
Proof.
  intros st reportId action run.
  assert (Hin : exists r, r ∈ pending st /\ JStr (id r) = reportId).
  { exists (deref st 0). split; [|reflexivity]. apply list_elem_of_here. }
  split; [apply reachable_one_pending|].
  split; [reflexivity|].
  split; [exact Hin|].
  exact (proj1 (api_action_moves_or_not_found Sample.env Sample.w Sample.t1
                  st reportId action reachable_one_pending
                  (or_introl eq_refl)) eq_refl Hin).
Defined.

(** Claim C2. In every store reachable from the empty one by submissions and
    actions, every report object is referenced exactly once, from exactly one
    of the two arrays; every actioned report has a status other than pending
    and an [actionedAt]; and whatever requests follow, an actioned report
    stays actioned and never is pending again. *)
Theorem report_in_exactly_one_collection st :
  reachable st ->
  (forall l, l < length (heap st) ->
     (l ∈ reports st /\ (l ∉ actionedReports st))
     \/ ((l ∉ reports st) /\ l ∈ actionedReports st))
  /\ NoDup (reports st) /\ NoDup (actionedReports st)
  /\ (forall r, r ∈ actioned st ->
        status r <> JStr (lit "pending") /\ actionedAt r <> None)
  /\ (forall st', rtc step st st' ->
        forall l, l ∈ actionedReports st ->
          l ∈ actionedReports st' /\ (l ∉ reports st')).
Proof.
  intros Hreach. pose proof (reachable_inv st Hreach) as Hinv.
  pose proof (inv_nodup st Hinv) as Hnd.
  apply NoDup_app in Hnd as (Hn1 & Hdisj & Hn2).
  split_and!; try done.
  - intros l Hl. apply (inv_refs st Hinv) in Hl.
    apply elem_of_app in Hl as [Hl | Hl].
    + left. split; [done|]. by apply Hdisj.
    + right. split; [|done]. intros Hin. by apply (Hdisj l).
  - intros r Hr. apply elem_of_actioned in Hr as (l & Hl & ->).
    destruct (inv_actioned st Hinv l Hl) as [[Hs | Hs] Hat];
      rewrite Hs; split; try done; intros [=].
  - intros st' Hsteps l Hl.
    assert (Hl' : l ∈ actionedReports st') by by eapply actioned_stays.
    split; [done|].
    eapply store_inv_disjoint; [|done].
    by eapply reachable_inv, reachable_steps.
Qed.

Lemma report_in_exactly_one_collection_witness :
  reachable Sample.one_approved
  /\ (forall l, l < length (heap Sample.one_approved) ->
        (l ∈ reports Sample.one_approved
         /\ (l ∉ actionedReports Sample.one_approved))
        \/ ((l ∉ reports Sample.one_approved)
            /\ l ∈ actionedReports Sample.one_approved))
  /\ NoDup (reports Sample.one_approved)
  /\ NoDup (actionedReports Sample.one_approved)
  /\ (forall r, r ∈ actioned Sample.one_approved ->
        status r <> JStr (lit "pending") /\ actionedAt r <> None)
  /\ (forall st', rtc step Sample.one_approved st' ->
        forall l, l ∈ actionedReports Sample.one_approved ->
          l ∈ actionedReports st' /\ (l ∉ reports st')).
Proof.
  split; [apply reachable_one_approved|].
  apply (report_in_exactly_one_collection Sample.one_approved).
  apply reachable_one_approved.
Defined.

(* ===================================================================== *)
(** * Submission and validation                                           *)
(* ===================================================================== *)

(** Claim C3, as amended. For a submission whose two identifiers coerce to
    a Number without raising, [POST /report] answers 400 exactly when
    [target] or [reporter] is missing or null, or [context] is missing or
    empty (or otherwise falsy), or one of the identifiers coerces to NaN, or
    [context] is not a string; an identifier that coerces to an infinity is
    accepted. Whenever it answers 400 the store is as it was. *)
Theorem post_report_400_iff env rng now req st t r :
  number_or_coerce (body_target req) = Normal t ->
  number_or_coerce (body_reporter req) = Normal r ->
  let run := post_report env rng now req st in
  (status_codes (trace run) = [400] <->
   body_target req = JUndefined \/ body_target req = JNull
   \/ body_reporter req = JUndefined \/ body_reporter req = JNull
   \/ ToBoolean (body_context req) = false
   \/ isNaN t = true \/ isNaN r = true
   \/ typeof (body_context req) <> TyString)
  /\ (status_codes (trace run) = [400] ->
      final run = st /\ pending (final run) = pending st).
Proof.
  intros Ht Hr run. subst run.
  assert (Hmiss : missing_fields req = true <->
            body_target req = JUndefined \/ body_target req = JNull
            \/ body_reporter req = JUndefined \/ body_reporter req = JNull
            \/ ToBoolean (body_context req) = false).
  { unfold missing_fields. rewrite !orb_true_iff, negb_true_iff.
    destruct (body_target req), (body_reporter req); simpl;
      intuition discriminate. }
  destruct (post_report_cases env rng now req st)
    as [[Hm ->] | [(Hm & e & -> & Hor) | [(Hm & t' & r' & Ht' & Hr' & Hc & ->)
       | [((Hm & t' & r' & Ht' & Hr' & Hnt & Hnr & Hc) & _ & e & _ & ->)
         | ((Hm & t' & r' & Ht' & Hr' & Hnt & Hnr & Hc) & t'' & r'' & c & s
            & _ & _ & _ & _ & ->)]]]];
    cbn [trace final fst snd].
  - split; [|done]. split; [|done]. intros _. apply Hmiss in Hm. tauto.
  - exfalso. destruct Hor as [He | [_ He]]; congruence.
  - split; [|done]. split; [|done]. intros _.
    assert (t' = t) as -> by congruence.
    assert (r' = r) as -> by congruence. tauto.
  - assert (t' = t) as -> by congruence.
    assert (r' = r) as -> by congruence.
    split; [|discriminate]. split; [discriminate|]. intros H. exfalso.
    destruct H as [H | [H | [H | [H | [H | [H | [H | H]]]]]]]; try congruence.
    all: assert (missing_fields req = true) by (apply Hmiss; tauto); congruence.
  - assert (t' = t) as -> by congruence.
    assert (r' = r) as -> by congruence.
    split; [|discriminate]. split; [discriminate|]. intros H. exfalso.
    destruct H as [H | [H | [H | [H | [H | [H | [H | H]]]]]]]; try congruence.
    all: assert (missing_fields req = true) by (apply Hmiss; tauto); congruence.
Qed.

(** Claim C3 as stated fails on two submissions: with [target: "Infinity"]
    the identifier does not coerce to a finite number, and the answer is 201;
    with a [target] object on which [Number] throws, the identifier does not
    coerce to a number at all, and the handler throws without answering. *)
Lemma post_report_accepts_infinite_target :
  (number_or_coerce (body_target Sample.submission_infinite_target)
   = Normal Infinity
   /\ isFinite Infinity = false
   /\ status_codes
        (trace (post_report Sample.env Sample.rng Sample.t0
                  Sample.submission_infinite_target empty_store))
      = [201])
  /\ (is_normal (number_or_coerce (body_target Sample.submission_object_target))
      = false
      /\ status_codes
           (trace (post_report Sample.env Sample.rng Sample.t0
                     Sample.submission_object_target empty_store))
         = []).
Proof. vm_compute. repeat split. Qed.

Lemma post_report_400_iff_witness :
  let req := {| body_target := JStr (lit "abc");
                body_reporter := JNum (num_of_Z 7);
                body_context := JStr (lit "spam");
                body_reason := JStr (lit "scamming");
                req_ip := JStr (lit "::1") |} in
  let run := post_report Sample.env Sample.rng Sample.t0 req
               Sample.one_pending in
  number_or_coerce (body_target req) = Normal NaN
  /\ number_or_coerce (body_reporter req) = Normal (num_of_Z 7)
  /\ status_codes (trace run) = [400]
  /\ final run = Sample.one_pending
  /\ pending (final run) = pending Sample.one_pending.
Proof.
  intros req run.
  assert (Ht : number_or_coerce (body_target req) = Normal NaN)
    by reflexivity.
  assert (Hr : number_or_coerce (body_reporter req) = Normal (num_of_Z 7))
    by reflexivity.
  assert (H : status_codes (trace run) = [400]) by reflexivity.
  split; [exact Ht|]. split; [exact Hr|]. split; [exact H|].
  exact (proj2 (post_report_400_iff Sample.env Sample.rng Sample.t0 req
                  Sample.one_pending NaN (num_of_Z 7) Ht Hr) H).
Defined.

(** What an accepted submission does: it answers 201 with a report id of 16
    lowercase hexadecimal characters and appends one new pending report, with
    numeric target and reporter and trimmed context and reason, at the end of
    the pending array. *)
Lemma post_report_stores_report env rng now req st t r c s :
  reachable st ->
  missing_fields req = false ->
  number_or_coerce (body_target req) = Normal t ->
  number_or_coerce (body_reporter req) = Normal r ->
  isNaN t = false -> isNaN r = false ->
  body_context req = JStr c -> body_reason req = JStr s ->
  let run := post_report env rng now req st in
  let new := new_report rng now (req_ip req) t r c s in
  outcome run = Normal tt
  /\ responses (trace run)
     = [(201, SubmittedBody [Text (lit "Report "); Subst (JStr (id new));
                             Text (lit " submitted successfully!")] (id new))]
  /\ length (id new) = 16 /\ forallb is_hex_lower (id new) = true
  /\ status new = JStr (lit "pending")
  /\ context new = trim c /\ reason new = trim s
  /\ pending (final run) = pending st ++ [new]
  /\ actioned (final run) = actioned st.
Proof.
  intros Hreach Hm Ht Hr Hnt Hnr Hc Hs run new. subst run.
  pose proof (reachable_inv st Hreach) as Hinv.
  rewrite (post_report_accepted env rng now req st t r c s) by done.
  cbn [trace final outcome fst snd]. fold new.
  destruct (generateReportId_shape rng) as [Hlen Hhex].
  split_and!; try done.
  - unfold pending. simpl. rewrite map_app. simpl.
    rewrite deref_add_new. f_equal.
    apply map_ext_in. intros l Hl. apply deref_add_old.
    apply (inv_refs st Hinv), elem_of_app. left. by apply list_elem_of_In.
  - unfold actioned. simpl.
    apply map_ext_in. intros l Hl. apply deref_add_old.
    apply (inv_refs st Hinv), elem_of_app. right. by apply list_elem_of_In.
Qed.

(** Claim C4 fails in the code on a submission without [reason]: it passes
    both validation checks, and the handler throws a TypeError at
    [reason.trim()] instead of answering 201; nothing is stored. *)
Theorem post_report_without_reason_sample :
  passes_validation Sample.submission_without_reason
  /\ post_report Sample.env Sample.rng Sample.t0
       Sample.submission_without_reason empty_store
     = ([], empty_store,
        Throw (TypeError (lit "Cannot read properties of undefined (reading 'trim')"))).
Proof.
  split; [|reflexivity].
  split; [reflexivity|].
  exists (num_of_Z 42), (num_of_Z 7). repeat split.
Qed.

(** Claim C10. A submission that passes validation and whose [reason] is
    absent or not a string makes [POST /report] throw a TypeError at
    [reason.trim()]: no answer is written (neither 201 nor 400), no webhook
    is fired and the store is as it was. *)
Theorem post_report_reason_not_string env rng now req st :
  passes_validation req ->
  (forall s, body_reason req <> JStr s) ->
  let run := post_report env rng now req st in
  exists e,
    call_trim (body_reason req) = Throw e
    /\ err_name e = lit "TypeError"
    /\ outcome run = Throw e
    /\ trace run = []
    /\ responses (trace run) = []
    /\ webhook_calls (trace run) = []
    /\ final run = st.
Proof.
  intros (Hm & t & r & Ht & Hr & Hnt & Hnr & Hc) Hs run. subst run.
  assert (Hctx : exists c, body_context req = JStr c).
  { apply typeof_string. by rewrite Hc. }
  destruct Hctx as [c Hctx].
  destruct (post_report_reason_throws env rng now req st t r c)
    as (e & He & ->); auto.
  exists e. split_and!; try done.
  destruct (body_reason req); simpl in He; try (by injection He as <-).
  discriminate.
Qed.

Lemma post_report_reason_not_string_witness :
  passes_validation Sample.submission_without_reason
  /\ let run := post_report Sample.env Sample.rng Sample.t0
                  Sample.submission_without_reason Sample.one_pending in
     exists e,
       call_trim (body_reason Sample.submission_without_reason) = Throw e
       /\ err_name e = lit "TypeError"
       /\ outcome run = Throw e
       /\ trace run = []
       /\ responses (trace run) = []
       /\ webhook_calls (trace run) = []
       /\ final run = Sample.one_pending.
Proof.
  assert (Hpass : passes_validation Sample.submission_without_reason).
  { split; [reflexivity|].
    exists (num_of_Z 42), (num_of_Z 7). repeat split. }
  split; [exact Hpass|].
  apply (post_report_reason_not_string Sample.env Sample.rng Sample.t0
           Sample.submission_without_reason Sample.one_pending Hpass).
  intros s. discriminate.
Defined.

(* ===================================================================== *)
(** * The side effects of an action                                       *)
(* ===================================================================== *)

(** A successful action, in one equation. *)
Lemma api_action_success env w now st reportId action :
  reachable st ->
  ToBoolean reportId = true ->
  action = JStr (lit "approved") \/ action = JStr (lit "denied") ->
  (exists r, r ∈ pending st /\ JStr (id r) = reportId) ->
  exists i l,
    findIndex (has_id st reportId) (reports st) = Some i
    /\ reports st !! i = Some l
    /\ JStr (id (deref st l)) = reportId
    /\ deref (move_to_actioned now action i l st) l
       = set_actionedAt now (set_status action (deref st l))
    /\ api_action env w now
         {| body_reportId := reportId; body_action := action |} st
       = (action_events env w action
            (set_actionedAt now (set_status action (deref st l))),
          move_to_actioned now action i l st, Normal tt).
Proof.
  intros Hreach Hid Hact (r & Hr & Hrid).
  pose proof (reachable_inv st Hreach) as Hinv.
  set (req := {| body_reportId := reportId; body_action := action |}).
  assert (Hvalid : invalid_action req = false).
  { apply invalid_action_false. by split. }
  destruct (api_action_cases env w now req st)
    as [[Hi _] | [(_ & Hnone & _) | (_ & b & l & a & Hrs & Hl & Hb & _ & Hrun)]].
  - congruence.
  - exfalso. apply elem_of_pending in Hr as (l & Hl & ->).
    rewrite Forall_forall in Hnone. specialize (Hnone l Hl).
    apply has_id_false in Hnone. by destruct Hnone.
  - exists (length b), l.
    assert (Hlt : l < length (heap st)).
    { apply (inv_refs st Hinv). rewrite Hrs.
      rewrite !elem_of_app, elem_of_cons. auto. }
    split_and!.
    + rewrite Hrs. by apply findIndex_first.
    + rewrite Hrs. by apply list_lookup_middle.
    + by apply has_id_true.
    + by apply deref_move_same.
    + rewrite Hrun. simpl. by rewrite deref_move_same.
Qed.

(** Claim C5. A successful action calls [addToGitHubBanList] exactly once,
    with the report it has just actioned, when the decision is approved, and
    not at all when it is denied. *)
Theorem ban_list_called_iff_approved env w now st reportId action :
  reachable st ->
  ToBoolean reportId = true ->
  action = JStr (lit "approved") \/ action = JStr (lit "denied") ->
  (exists r, r ∈ pending st /\ JStr (id r) = reportId) ->
  let run := api_action env w now
               {| body_reportId := reportId; body_action := action |} st in
  exists l,
    last (actionedReports (final run)) = Some l
    /\ JStr (id (deref (final run) l)) = reportId
    /\ status (deref (final run) l) = action
    /\ (action = JStr (lit "approved") ->
        ban_list_calls (trace run) = [deref (final run) l])
    /\ (action = JStr (lit "denied") -> ban_list_calls (trace run) = [])
    /\ (length (ban_list_calls (trace run)) = 1
        <-> action = JStr (lit "approved")).
Proof.
  intros Hreach Hid Hact Hin run. subst run.
  destruct (api_action_success env w now st reportId action)
    as (i & l & _ & Hl & Hrid & Hderef & ->); auto.
  cbn [trace final fst snd]. exists l.
  destruct (action_events_read env w action
              (set_actionedAt now (set_status action (deref st l))))
    as (_ & _ & _ & Hcalls & _).
  rewrite Hcalls, Hderef. simpl.
  split_and!.
  - apply last_snoc.
  - done.
  - done.
  - by intros ->.
  - by intros ->.
  - destruct Hact as [-> | ->]; simpl; split; auto; discriminate.
Qed.

Lemma ban_list_called_iff_approved_witness :
  reachable Sample.one_pending
  /\ (exists r, r ∈ pending Sample.one_pending
                /\ JStr (id r) = JStr Sample.report_id)
  /\ let run := api_action Sample.env_github Sample.w Sample.t1
                  (Sample.approve Sample.report_id) Sample.one_pending in
     exists l,
       last (actionedReports (final run)) = Some l
       /\ JStr (id (deref (final run) l)) = JStr Sample.report_id
       /\ status (deref (final run) l) = JStr (lit "approved")
       /\ (JStr (lit "approved") = JStr (lit "approved") ->
           ban_list_calls (trace run) = [deref (final run) l])
       /\ (JStr (lit "approved") = JStr (lit "denied") ->
           ban_list_calls (trace run) = [])
       /\ (length (ban_list_calls (trace run)) = 1
           <-> JStr (lit "approved") = JStr (lit "approved")).
Proof.
  assert (Hin : exists r, r ∈ pending Sample.one_pending
                          /\ JStr (id r) = JStr Sample.report_id).
  { exists (deref Sample.one_pending 0). split; [|reflexivity].
    apply list_elem_of_here. }
  split; [apply reachable_one_pending|].
  split; [exact Hin|].
  apply (ban_list_called_iff_approved Sample.env_github Sample.w Sample.t1
           Sample.one_pending (JStr Sample.report_id) (JStr (lit "approved"))).
  - apply reachable_one_pending.
  - reflexivity.
  - left. reflexivity.
  - exact Hin.
Defined.

(** Claim C7, as amended. In every successful action the webhook is started
    as a detached call before the answer and is never awaited; with the
    decision denied nothing is awaited; with the decision approved the call
    of [addToGitHubBanList] is awaited before the answer is written. The
    answer itself is the same whatever the network and GitHub do. *)
Theorem api_action_awaits_only_ban_list env w now st reportId action :
  reachable st ->
  ToBoolean reportId = true ->
  action = JStr (lit "approved") \/ action = JStr (lit "denied") ->
  (exists r, r ∈ pending st /\ JStr (id r) = reportId) ->
  let run := api_action env w now
               {| body_reportId := reportId; body_action := action |} st in
  exists Content r,
    spawned (before_response (trace run))
    = [FireWebhook_task Content (ACTIONS_WEBHOOK (CONFIG env))]
    /\ (action = JStr (lit "denied") ->
        awaited (before_response (trace run)) = [])
    /\ (action = JStr (lit "approved") ->
        awaited (before_response (trace run)) = [addToGitHubBanList_task r])
    /\ (forall w',
          responses (trace (api_action env w' now
                              {| body_reportId := reportId;
                                 body_action := action |} st))
          = responses (trace run))
    /\ responses (trace run)
       = [(200, ActionedBody [Text (lit "Report "); Subst action;
                              Text (lit " successfull!")])].
Proof.
  intros Hreach Hid Hact Hin run.
  assert (Hresp : forall w',
            responses (trace (api_action env w' now
                                {| body_reportId := reportId;
                                   body_action := action |} st))
            = [(200, ActionedBody [Text (lit "Report "); Subst action;
                                   Text (lit " successfull!")])]).
  { intros w'.
    destruct (api_action_success env w' now st reportId action)
      as (i & l & _ & _ & _ & _ & ->); auto.
    cbn [trace fst snd]. apply action_events_read. }
  subst run.
  destruct (api_action_success env w now st reportId action)
    as (i & l & _ & Hl & Hrid & Hderef & Hrun); auto.
  set (r := set_actionedAt now (set_status action (deref st l))) in *.
  destruct (action_events_read env w action r)
    as (_ & Hsp & Haw & _ & Hsp' & Haw').
  eexists _, r.
  split_and!.
  - rewrite Hrun. cbn [trace fst snd]. rewrite Hsp', Hsp. reflexivity.
  - intros ->. rewrite Hrun. cbn [trace fst snd]. rewrite Haw', Haw. done.
  - intros ->. rewrite Hrun. cbn [trace fst snd]. rewrite Haw', Haw. done.
  - intros w'. by rewrite !Hresp.
  - apply Hresp.
Qed.

(** Claim C7 as stated fails on an approval with the GitHub integration on:
    the handler awaits [addToGitHubBanList], and the write to GitHub happens
    before the answer. *)
Lemma api_action_approval_waits_for_github :
  let run := api_action Sample.env_github Sample.w Sample.t1
               (Sample.approve Sample.report_id) Sample.one_pending in
  status_codes (trace run) = [200]
  /\ awaited (before_response (trace run))
     = [addToGitHubBanList_task (deref (final run) 0)]
  /\ existsb is_github_put (before_response (trace run)) = true.
Proof. vm_compute. repeat split. Qed.

Lemma api_action_awaits_only_ban_list_witness :
  reachable Sample.one_pending
  /\ (exists r, r ∈ pending Sample.one_pending
                /\ JStr (id r) = JStr Sample.report_id)
  /\ let run := api_action Sample.env_github Sample.w Sample.t1
                  (Sample.deny Sample.report_id) Sample.one_pending in
     exists Content r,
       spawned (before_response (trace run))
       = [FireWebhook_task Content (ACTIONS_WEBHOOK (CONFIG Sample.env_github))]
       /\ (JStr (lit "denied") = JStr (lit "denied") ->
           awaited (before_response (trace run)) = [])
       /\ (JStr (lit "denied") = JStr (lit "approved") ->
           awaited (before_response (trace run)) = [addToGitHubBanList_task r])
       /\ (forall w',
             responses (trace (api_action Sample.env_github w' Sample.t1
                                 (Sample.deny Sample.report_id)
                                 Sample.one_pending))
             = responses (trace run))
       /\ responses (trace run)
          = [(200, ActionedBody [Text (lit "Report ");
                                 Subst (JStr (lit "denied"));
                                 Text (lit " successfull!")])].
Proof.
  assert (Hin : exists r, r ∈ pending Sample.one_pending
                          /\ JStr (id r) = JStr Sample.report_id).
  { exists (deref Sample.one_pending 0). split; [|reflexivity].
    apply list_elem_of_here. }
  split; [apply reachable_one_pending|].
  split; [exact Hin|].
  apply (api_action_awaits_only_ban_list Sample.env_github Sample.w Sample.t1
           Sample.one_pending (JStr Sample.report_id) (JStr (lit "denied"))).
  - apply reachable_one_pending.
  - reflexivity.
  - right. reflexivity.
  - exact Hin.
Defined.

(** Claim C9 fails in the code: for the same pending report, the webhook
    text of an approval and the webhook text of a denial are the same
    template with the same values, whose text starts with "**Approved**",
    so they render to the same string whatever the string conversion. *)
Theorem api_action_same_text_for_both_decisions env w now st reportId :
  reachable st ->
  ToBoolean reportId = true ->
  (exists r, r ∈ pending st /\ JStr (id r) = reportId) ->
  let approval := api_action env w now
    {| body_reportId := reportId; body_action := JStr (lit "approved") |} st in
  let denial := api_action env w now
    {| body_reportId := reportId; body_action := JStr (lit "denied") |} st in
  exists Content,
    webhook_calls (trace approval) = [(Content, ACTIONS_WEBHOOK (CONFIG env))]
    /\ webhook_calls (trace denial) = [(Content, ACTIONS_WEBHOOK (CONFIG env))]
    /\ forall to_string, exists rest,
         render to_string Content = lit "**Approved**" ++ rest.
Proof.
  intros Hreach Hid Hin approval denial. subst approval denial.
  destruct (api_action_success env w now st reportId (JStr (lit "approved")))
    as (i & l & Hi & Hl & Hrid & _ & ->); auto.
  destruct (api_action_success env w now st reportId (JStr (lit "denied")))
    as (i' & l' & Hi' & Hl' & Hrid' & _ & ->); auto.
  assert (l' = l) as -> by congruence.
  cbn [trace fst snd].
  exists (approved_message JUndefined (JNum (target (deref st l)))
            (JNum (reporter (deref st l)))).
  split_and!.
  - unfold action_events. simpl.
    destruct (addToGitHubBanList_run env w
                (set_actionedAt now (set_status (JStr (lit "approved")) (deref st l))) tt)
      as [_ Hbg].
    destruct (background_trace _ Hbg) as (_ & _ & _ & _ & Hwh).
    unfold webhook_calls in *. simpl. rewrite omap_app, Hwh. reflexivity.
  - reflexivity.
  - intros to_string. eexists. unfold approved_message, render. simpl.
    reflexivity.
Qed.

Lemma api_action_same_text_for_both_decisions_witness :
  reachable Sample.one_pending
  /\ (exists r, r ∈ pending Sample.one_pending
                /\ JStr (id r) = JStr Sample.report_id)
  /\ let approval := api_action Sample.env Sample.w Sample.t1
                       (Sample.approve Sample.report_id) Sample.one_pending in
     let denial := api_action Sample.env Sample.w Sample.t1
                     (Sample.deny Sample.report_id) Sample.one_pending in
     exists Content,
       webhook_calls (trace approval)
       = [(Content, ACTIONS_WEBHOOK (CONFIG Sample.env))]
       /\ webhook_calls (trace denial)
          = [(Content, ACTIONS_WEBHOOK (CONFIG Sample.env))]
       /\ forall to_string, exists rest,
            render to_string Content = lit "**Approved**" ++ rest.
Proof.
  assert (Hin : exists r, r ∈ pending Sample.one_pending
                          /\ JStr (id r) = JStr Sample.report_id).
  { exists (deref Sample.one_pending 0). split; [|reflexivity].
    apply list_elem_of_here. }
  split; [apply reachable_one_pending|].
  split; [exact Hin|].
  apply (api_action_same_text_for_both_decisions Sample.env Sample.w Sample.t1
           Sample.one_pending (JStr Sample.report_id)).
  - apply reachable_one_pending.
  - reflexivity.
  - exact Hin.
Defined.

(* ===================================================================== *)
(** * Failures in the background                                          *)
(* ===================================================================== *)

(** The webhook writes to the console exactly when the delivery failed. *)
Lemma FireWebhook_logs_failures (w : world) (Content : template) (URL : jsstring) :
  existsb is_console (trace (FireWebhook w Content URL tt)) = false
  <-> exists r, import_node_fetch w = Normal tt
                /\ fetch w URL Content = Normal r /\ ok r = true.
Proof.
  unfold FireWebhook. unfold_eff.
  destruct (import_node_fetch w) as [[]|e]; simpl.
  - destruct (fetch w URL Content) as [[[] txt]|e]; simpl.
    + split; [eauto | done].
    + destruct txt as [a|e]; simpl; [|repeat (case_bool_decide; simpl)];
        (split; [discriminate|]);
        intros (r & _ & Hr & Hok); injection Hr as <-; discriminate.
    + repeat (case_bool_decide; simpl);
        (split; [discriminate|]); intros (r & _ & Hf & _); discriminate.
  - repeat (case_bool_decide; simpl);
      (split; [discriminate|]); intros (r & Hf & _); discriminate.
Qed.

(** With the integration on, a failed read of the ban list or a failed
    commit is written to the console. *)
Lemma addToGitHubBanList_logs_failures env w reportData :
  GITHUB_ENABLED (CONFIG env) = true -> octokit env = true ->
  (is_normal (getContent w (GITHUB_OWNER (CONFIG env)) (GITHUB_REPO (CONFIG env))
                (GITHUB_FILE_PATH (CONFIG env))) = false
   \/ (forall req, is_normal (createOrUpdateFileContents w req) = false)) ->
  existsb is_console (trace (addToGitHubBanList env w reportData tt)) = true.
Proof.
  intros He Ho Hfail. unfold addToGitHubBanList. rewrite He, Ho. unfold_eff.
  simpl.
  destruct (getContent w _ _ _) as [[[[doc|e]|] sha]|e] eqn:Hget; simpl;
    [destruct (get_banned_users doc) as [users|e]; simpl;
       [destruct (array_push _ _) as [pushed|e]; simpl|]|..];
    try match goal with
        | |- context [createOrUpdateFileContents w ?req] =>
            destruct (createOrUpdateFileContents w req) as [[]|e'] eqn:Hput
        end; simpl; try done.
  destruct Hfail as [Hf | Hf]; [discriminate|].
  match type of Hput with
  | createOrUpdateFileContents w ?req = _ => specialize (Hf req)
  end.
  rewrite Hput in Hf. discriminate.
Qed.

Lemma api_action_same_answer env w w' now req st :
  outcome (api_action env w now req st) = outcome (api_action env w' now req st)
  /\ responses (trace (api_action env w now req st))
     = responses (trace (api_action env w' now req st))
  /\ final (api_action env w now req st) = final (api_action env w' now req st).
Proof.
  destruct (invalid_action req) eqn:Hi.
  { by rewrite !api_action_invalid. }
  destruct (findIndex (has_id st (body_reportId req)) (reports st))
    as [i|] eqn:Hf.
  2:{ by rewrite !api_action_not_found. }
  destruct (findIndex_Some _ _ _ Hf) as (b & l & a & Hr & Hlen & _ & _).
  assert (Hl : reports st !! i = Some l).
  { rewrite Hr, <- Hlen. by apply list_lookup_middle. }
  rewrite (api_action_found env w now req st i l) by done.
  rewrite (api_action_found env w' now req st i l) by done.
  cbn [outcome trace final fst snd].
  split; [done|]. split; [|done].
  destruct (action_events_read env w (body_action req)
              (deref (move_to_actioned now (body_action req) i l st) l))
    as (-> & _).
  destruct (action_events_read env w' (body_action req)
              (deref (move_to_actioned now (body_action req) i l st) l))
    as (-> & _).
  done.
Qed.

Lemma octokit_enabled env : octokit env = true -> GITHUB_ENABLED (CONFIG env) = true.
Proof. unfold octokit. by intros [? _]%andb_true_iff. Qed.

(** An error thrown during the delivery (by the import, by [fetch], or by
    reading the body of a response that is not ok) is written to the
    console. *)
Lemma FireWebhook_logs_error (w : world) (Content : template) (URL : jsstring)
    (e : js_error) :
  import_node_fetch w = Throw e
  \/ (import_node_fetch w = Normal tt /\ fetch w URL Content = Throw e)
  \/ (import_node_fetch w = Normal tt
      /\ exists r, fetch w URL Content = Normal r
                   /\ ok r = false /\ text r = Throw e) ->
  Console [LText (lit "[WEBHOOK] Error message:"); LText (err_message e)]
    ∈ trace (FireWebhook w Content URL tt).
Proof.
  intros Hfail. unfold FireWebhook. unfold_eff.
  destruct Hfail as [-> | [[-> ->] | (-> & r & -> & Hok & Htext)]]; simpl;
    try rewrite Hok, Htext; simpl;
    repeat (case_bool_decide; simpl);
    apply list_elem_of_In; simpl; auto 10.
Qed.

(** The body of a response that is not ok is written to the console. *)
Lemma FireWebhook_logs_response (w : world) (Content : template)
    (URL : jsstring) (r : http_response) (errorText : jsstring) :
  import_node_fetch w = Normal tt -> fetch w URL Content = Normal r ->
  ok r = false -> text r = Normal errorText ->
  Console [LText (lit "[WEBHOOK] Error response:"); LText errorText]
    ∈ trace (FireWebhook w Content URL tt).
Proof.
  intros Hi Hf Hok Ht. unfold FireWebhook. unfold_eff.
  rewrite Hi, Hf. simpl. rewrite Hok, Ht. simpl.
  apply list_elem_of_In; simpl; auto 10.
Qed.

(** A ban list that cannot be read or parsed leaves a line on the console. *)
Lemma addToGitHubBanList_logs_read_failure env w reportData :
  octokit env = true ->
  (let got := getContent w (GITHUB_OWNER (CONFIG env)) (GITHUB_REPO (CONFIG env))
                (GITHUB_FILE_PATH (CONFIG env)) in
   is_normal got = false
   \/ exists d, got = Normal d
        /\ (data_content d = None
            \/ (exists e, data_content d = Some (Throw e))
            \/ data_content d = Some (Normal JsonNull))) ->
  Console [LText (lit "File not found, creating...")]
    ∈ trace (addToGitHubBanList env w reportData tt).
Proof.
  intros Ho Hfail. cbv zeta in Hfail. unfold addToGitHubBanList. cbv zeta.
  rewrite Ho, (octokit_enabled env Ho). cbn [negb orb]. unfold_eff.
  destruct (getContent w _ _ _) as [[content sha]|e0].
  - destruct Hfail as [Hn | (d & [= <-] & Hd)]; [discriminate|].
    simpl in Hd. destruct Hd as [-> | [[e ->] | ->]]; simpl;
      match goal with
      | |- context [createOrUpdateFileContents w ?req] =>
          destruct (createOrUpdateFileContents w req) as [[]|e']
      end; simpl; apply list_elem_of_In; simpl; auto 10.
  - simpl.
    match goal with
    | |- context [createOrUpdateFileContents w ?req] =>
        destruct (createOrUpdateFileContents w req) as [[]|e']
    end; simpl; apply list_elem_of_In; simpl; auto 10.
Qed.

(** A commit that GitHub refuses leaves its error on the console. *)
Lemma addToGitHubBanList_logs_commit_failure env w reportData req e :
  GitHubPut req ∈ trace (addToGitHubBanList env w reportData tt) ->
  createOrUpdateFileContents w req = Throw e ->
  Console [LText (lit "GitHub integration error:"); LError e]
    ∈ trace (addToGitHubBanList env w reportData tt).
Proof.
  unfold addToGitHubBanList. unfold_eff.
  destruct (negb _ || negb _); simpl.
  { intros Hin. apply list_elem_of_In in Hin. simpl in Hin.
    destruct Hin as [? | []]. discriminate. }
  destruct (getContent w _ _ _) as [[[[doc|e0]|] sha]|e0]; simpl;
    [destruct (get_banned_users doc) as [users|e1]; simpl;
       [destruct (array_push _ _) as [pushed|e2]; simpl|]|..];
    try match goal with
        | |- context [createOrUpdateFileContents w ?req0] =>
            destruct (createOrUpdateFileContents w req0) as [[]|e'] eqn:Hput
        end; simpl;
    intros Hin Hthrow; apply list_elem_of_In in Hin; simpl in Hin;
    repeat match type of Hin with
           | _ \/ _ => destruct Hin as [Hin | Hin]
           end;
    try discriminate; try contradiction;
    injection Hin as <-; rewrite Hput in Hthrow; try discriminate;
    injection Hthrow as <-; apply list_elem_of_In; simpl; auto 10.
Qed.

(** [POST /report] starts its webhook and drops the promise: it awaits
    nothing, and neither writes to the network nor to GitHub itself. *)
Lemma post_report_awaits_nothing env rng now req st :
  awaited (trace (post_report env rng now req st)) = [].
Proof.
  destruct (post_report_cases env rng now req st)
    as [[_ ->] | [(_ & e & -> & _) | [(_ & t & r & _ & _ & _ & ->)
       | [(_ & _ & e & _ & ->) | (_ & t & r & c & s & _ & _ & _ & _ & ->)]]]];
    reflexivity.
Qed.

(** Claim C6. Whatever the network and GitHub answer, [FireWebhook] and
    [addToGitHubBanList] settle normally, having only written to the console
    and talked to the outside: a failure is caught where it arises. It is
    logged: an error thrown by the import, by [fetch] (a refused, invalid or
    empty URL included) or by reading the body of a response that is not ok
    has its message written to the console, the body of a response that is
    not ok is written there, and the webhook writes nothing exactly when the
    delivery succeeded; a ban list that cannot be read or parsed and a commit
    that is refused each leave their line. And nothing reaches the request:
    the outcome, the answer and the store of [POST /api/action] are the same
    for every behaviour of the outside, and [POST /report] awaits none of
    what it starts. *)
Theorem background_failures_are_swallowed env w :
  (forall t,
     outcome (run_task env w t tt) = Normal tt
     /\ forallb is_background (trace (run_task env w t tt)) = true)
  /\ (forall Content URL e,
        import_node_fetch w = Throw e
        \/ (import_node_fetch w = Normal tt /\ fetch w URL Content = Throw e)
        \/ (import_node_fetch w = Normal tt
            /\ exists r, fetch w URL Content = Normal r
                         /\ ok r = false /\ text r = Throw e) ->
        Console [LText (lit "[WEBHOOK] Error message:"); LText (err_message e)]
          ∈ trace (FireWebhook w Content URL tt))
  /\ (forall Content URL r errorText,
        import_node_fetch w = Normal tt -> fetch w URL Content = Normal r ->
        ok r = false -> text r = Normal errorText ->
        Console [LText (lit "[WEBHOOK] Error response:"); LText errorText]
          ∈ trace (FireWebhook w Content URL tt))
  /\ (forall Content URL,
        existsb is_console (trace (FireWebhook w Content URL tt)) = false
        <-> exists r, import_node_fetch w = Normal tt
                      /\ fetch w URL Content = Normal r /\ ok r = true)
  /\ (forall reportData,
        octokit env = true ->
        (let got := getContent w (GITHUB_OWNER (CONFIG env))
                      (GITHUB_REPO (CONFIG env)) (GITHUB_FILE_PATH (CONFIG env)) in
         is_normal got = false
         \/ exists d, got = Normal d
              /\ (data_content d = None
                  \/ (exists e, data_content d = Some (Throw e))
                  \/ data_content d = Some (Normal JsonNull))) ->
        Console [LText (lit "File not found, creating...")]
          ∈ trace (addToGitHubBanList env w reportData tt))
  /\ (forall reportData req e,
        GitHubPut req ∈ trace (addToGitHubBanList env w reportData tt) ->
        createOrUpdateFileContents w req = Throw e ->
        Console [LText (lit "GitHub integration error:"); LError e]
          ∈ trace (addToGitHubBanList env w reportData tt))
  /\ (forall w' now req st,
        outcome (api_action env w now req st)
        = outcome (api_action env w' now req st)
        /\ responses (trace (api_action env w now req st))
           = responses (trace (api_action env w' now req st))
        /\ final (api_action env w now req st)
           = final (api_action env w' now req st))
  /\ (forall rng now req st,
        awaited (trace (post_report env rng now req st)) = []).
Proof.
  split_and!.
  - intros t. destruct (run_task_run env w t tt) as [Heq Hbg].
    split; [|done]. by rewrite Heq.
  - intros Content URL e. apply FireWebhook_logs_error.
  - intros Content URL r errorText. apply FireWebhook_logs_response.
  - intros Content URL. apply FireWebhook_logs_failures.
  - intros reportData. apply addToGitHubBanList_logs_read_failure.
  - intros reportData req e. apply addToGitHubBanList_logs_commit_failure.
  - intros w' now req st. apply api_action_same_answer.
  - intros rng now req st. apply post_report_awaits_nothing.
Qed.

Lemma background_failures_are_swallowed_witness :
  let invalid_url := TypeError (lit "Invalid URL") in
  let refused := {| err_name := lit "HttpError"; err_message := lit "Conflict";
                    err_stack := lit "HttpError"; err_code := None |} in
  let webhook := FireWebhook Sample.w (new_report_message Sample.env 1)
                   (REPORTS_WEBHOOK (CONFIG Sample.env)) tt in
  let rejected := FireWebhook Demo.w_refused (new_report_message Sample.env 1)
                    (REPORTS_WEBHOOK (CONFIG Sample.env)) tt in
  let created := addToGitHubBanList Sample.env_github Sample.w Demo.a_report tt in
  let commit := addToGitHubBanList Sample.env_github Demo.w_refused
                  Demo.a_report tt in
  (fetch Sample.w (REPORTS_WEBHOOK (CONFIG Sample.env))
     (new_report_message Sample.env 1) = Throw invalid_url
   /\ Console [LText (lit "[WEBHOOK] Error message:"); LText (lit "Invalid URL")]
        ∈ trace webhook
   /\ outcome webhook = Normal tt)
  /\ Console [LText (lit "[WEBHOOK] Error response:"); LText (lit "rate limited")]
       ∈ trace rejected
  /\ Console [LText (lit "File not found, creating...")] ∈ trace created
  /\ Console [LText (lit "GitHub integration error:"); LError refused]
       ∈ trace commit.
Proof.
  intros invalid_url refused webhook rejected created commit.
  assert (Hfetch : fetch Sample.w (REPORTS_WEBHOOK (CONFIG Sample.env))
                     (new_report_message Sample.env 1) = Throw invalid_url)
    by reflexivity.
  pose proof (background_failures_are_swallowed Sample.env Sample.w)
    as (Hrun & Herr & _).
  pose proof (background_failures_are_swallowed Sample.env Demo.w_refused)
    as (_ & _ & Hresp & _).
  pose proof (background_failures_are_swallowed Sample.env_github Sample.w)
    as (_ & _ & _ & _ & Hread & _).
  pose proof (background_failures_are_swallowed Sample.env_github Demo.w_refused)
    as (_ & _ & _ & _ & _ & Hcommit & _).
  split_and!.
  - exact Hfetch.
  - exact (Herr _ _ invalid_url (or_intror (or_introl (conj eq_refl Hfetch)))).
  - exact (proj1 (Hrun (FireWebhook_task (new_report_message Sample.env 1)
                          (REPORTS_WEBHOOK (CONFIG Sample.env))))).
  - exact (Hresp (new_report_message Sample.env 1)
             (REPORTS_WEBHOOK (CONFIG Sample.env)) _ (lit "rate limited")
             eq_refl eq_refl eq_refl eq_refl).
  - exact (Hread Demo.a_report eq_refl (or_introl eq_refl)).
  - refine (Hcommit Demo.a_report _ refused _ eq_refl).
    vm_compute. right. left.
Defined.

(* ===================================================================== *)
(** * The password check                                                  *)
(* ===================================================================== *)

Lemma matches_true bcrypt_compare password hash :
  matches bcrypt_compare password hash = true
  <-> bcrypt_compare password hash = Normal true.
Proof.
  unfold matches. destruct (bcrypt_compare password hash) as [[]|e];
    split; congruence.
Qed.

(** The hashes are the trimmed, non-empty pieces between the semicolons. *)
Lemma split_hashes_spec (loginHashes hash : jsstring) :
  hash ∈ split_hashes loginHashes
  <-> hash <> [] /\ exists piece, piece ∈ split_at 59%N loginHashes
                                 /\ hash = trim piece.
Proof.
  unfold split_hashes. rewrite list_elem_of_In, filter_In, in_map_iff.
  split.
  - intros [(piece & <- & Hp) Hne]. split.
    + intros Heq. rewrite Heq in Hne. discriminate.
    + exists piece. by rewrite list_elem_of_In.
  - intros [Hne (piece & Hp & ->)]. split.
    + exists piece. by rewrite <- list_elem_of_In.
    + destruct (trim piece); [done | reflexivity].
Qed.

Lemma compare_each_run {S} bcrypt_compare password hashes (s : S) :
  exists t,
    compare_each bcrypt_compare password hashes s
    = (t, s, Normal (existsb (matches bcrypt_compare password) hashes))
    /\ (compared t) `prefix_of` hashes.
Proof.
  induction hashes as [|hash rest IH]; simpl.
  - exists []. split; [done|]. apply prefix_nil.
  - unfold_eff. unfold matches at 1.
    destruct (bcrypt_compare password hash) as [[]|e]; simpl.
    + eexists. split; [reflexivity|]. simpl.
      apply prefix_cons, prefix_nil.
    + destruct IH as (t & -> & Hp). eexists. split; [reflexivity|].
      simpl. by apply prefix_cons.
    + destruct IH as (t & -> & Hp). eexists. split; [reflexivity|].
      simpl. by apply prefix_cons.
Qed.

(** [ValidatePassword] in terms of the list it builds. *)
Lemma ValidatePassword_on_hashes
    (bcrypt_compare : jsval -> jsstring -> completion bool)
    (env : process_env) (password : jsval) :
  let run := ValidatePassword bcrypt_compare env password tt in
  (outcome run = Normal true
   <-> exists hash, hash ∈ configured_hashes env
                    /\ bcrypt_compare password hash = Normal true)
  /\ (outcome run = Normal true \/ outcome run = Normal false)
  /\ (compared (trace run)) `prefix_of` (configured_hashes env)
  /\ (ENV_LOGIN_HASHES env = None \/ configured_hashes env = [] ->
      outcome run = Normal false /\ compared (trace run) = []).
Proof.
  intros run. subst run. unfold ValidatePassword, configured_hashes.
  destruct (ENV_LOGIN_HASHES env) as [[|c s]|] eqn:Henv.
  - (* set but empty *)
    change (split_hashes []) with (@nil jsstring).
    cbn [outcome trace fst snd]. split_and!.
    + split; [discriminate|]. intros (h & Hh & _). inversion Hh.
    + by right.
    + apply prefix_nil.
    + done.
  - destruct (split_hashes (c :: s)) as [|h hs] eqn:Hsplit.
    + cbn [length Nat.eqb outcome trace fst snd]. split_and!.
      * split; [discriminate|]. intros (h & Hh & _). inversion Hh.
      * by right.
      * apply prefix_nil.
      * done.
    + cbn [length Nat.eqb].
      destruct (compare_each_run bcrypt_compare password (h :: hs) tt)
        as (t & -> & Hp).
      cbn [outcome trace fst snd]. split_and!.
      * split.
        -- intros He. injection He as He.
           change (existsb (matches bcrypt_compare password) (h :: hs) = true)
             in He.
           apply existsb_exists in He as (x & Hx & Hm).
           exists x. split; [by apply list_elem_of_In | by apply matches_true].
        -- intros (x & Hx & Hm). f_equal. apply existsb_exists.
           exists x. split; [by apply list_elem_of_In | by apply matches_true].
      * destruct (existsb _ _); auto.
      * done.
      * intros [? | ?]; discriminate.
  - cbn [outcome trace fst snd]. split_and!.
    + split; [discriminate|]. intros (h & Hh & _). inversion Hh.
    + by right.
    + apply prefix_nil.
    + done.
Qed.

Lemma configured_hashes_spec (env : process_env) (hash : jsstring) :
  hash ∈ configured_hashes env
  <-> hash <> []
      /\ exists loginHashes piece,
           ENV_LOGIN_HASHES env = Some loginHashes
           /\ piece ∈ split_at 59%N loginHashes /\ hash = trim piece.
Proof.
  unfold configured_hashes. destruct (ENV_LOGIN_HASHES env) as [l|].
  - rewrite split_hashes_spec. split.
    + intros [Hne (piece & Hp & Ht)]. split; [done|]. by exists l, piece.
    + intros [Hne (l' & piece & [= <-] & Hp & Ht)]. split; [done|].
      by exists piece.
  - split; [intros H; inversion H|].
    intros [_ (l' & piece & Hl & _)]. discriminate.
Qed.

(** Claim C8. The hashes configured are the pieces of [LOGIN_HASHES] between
    the semicolons, each with the white space around it dropped, those that
    are then empty left out. [ValidatePassword] resolves to [true] exactly
    when [bcrypt.compare] resolves to [true] for the password and one of
    them; it always resolves; it compares against them only, in their order;
    and when [LOGIN_HASHES] is unset, or every piece of it is empty once
    trimmed, it resolves to [false] without having compared anything. *)
Theorem ValidatePassword_spec
    (bcrypt_compare : jsval -> jsstring -> completion bool)
    (env : process_env) (password : jsval) :
  let run := ValidatePassword bcrypt_compare env password tt in
  let configured (hash : jsstring) : Prop :=
    hash <> []
    /\ exists loginHashes piece,
         ENV_LOGIN_HASHES env = Some loginHashes
         /\ piece ∈ split_at 59%N loginHashes /\ hash = trim piece in
  (outcome run = Normal true
   <-> exists hash, configured hash
                    /\ bcrypt_compare password hash = Normal true)
  /\ (outcome run = Normal true \/ outcome run = Normal false)
  /\ (compared (trace run))
       `prefix_of`
       match ENV_LOGIN_HASHES env with
       | Some loginHashes =>
           List.filter (fun hash => negb (Nat.eqb (length hash) 0))
                       (map trim (split_at 59%N loginHashes))
       | None => []
       end
  /\ (forall hash, hash ∈ compared (trace run) -> configured hash)
  /\ (ENV_LOGIN_HASHES env = None
      \/ (exists loginHashes,
            ENV_LOGIN_HASHES env = Some loginHashes
            /\ forall piece, piece ∈ split_at 59%N loginHashes ->
                             trim piece = []) ->
      outcome run = Normal false /\ compared (trace run) = []).
Proof.
  intros run configured.
  destruct (ValidatePassword_on_hashes bcrypt_compare env password)
    as (Hiff & Hbool & Hprefix & Hclosed).
  fold run in Hiff, Hbool, Hprefix, Hclosed.
  split_and!.
  - rewrite Hiff. split; intros (hash & Hh & Hc); exists hash;
      (split; [by apply configured_hashes_spec | done]).
  - done.
  - exact Hprefix.
  - intros hash Hin. apply configured_hashes_spec.
    destruct Hprefix as [rest Heq]. rewrite Heq. apply elem_of_app. by left.
  - intros Hnone. apply Hclosed.
    destruct Hnone as [Hnone | (l & Hl & Hall)]; [by left|]. right.
    destruct (configured_hashes env) as [|h hs] eqn:Hc; [done|]. exfalso.
    assert (Hh : h ∈ configured_hashes env) by (rewrite Hc; by left).
    apply configured_hashes_spec in Hh as [Hne (l' & piece & Hl' & Hp & Ht)].
    assert (l' = l) as -> by congruence.
    apply Hne. rewrite Ht. by apply Hall.
Qed.

Lemma ValidatePassword_spec_witness :
  let password := JStr (lit "hunter2") in
  let env := env_with_login_hashes (lit " $2b$12$hunter2 ; ;") in
  let blank := env_with_login_hashes (lit " ; ;") in
  let piece := lit " $2b$12$hunter2 " in
  (piece ∈ split_at 59%N (lit " $2b$12$hunter2 ; ;")
   /\ trim piece = lit "$2b$12$hunter2"
   /\ Demo.bcrypt_compare password (trim piece) = Normal true
   /\ outcome (ValidatePassword Demo.bcrypt_compare env password tt)
      = Normal true)
  /\ ((forall piece, piece ∈ split_at 59%N (lit " ; ;") -> trim piece = [])
      /\ outcome (ValidatePassword Demo.bcrypt_compare blank password tt)
         = Normal false
      /\ compared (trace (ValidatePassword Demo.bcrypt_compare blank password tt))
         = []).
Proof.
  intros password env blank piece.
  assert (Hpiece : piece ∈ split_at 59%N (lit " $2b$12$hunter2 ; ;")).
  { vm_compute. left. }
  assert (Htrim : trim piece = lit "$2b$12$hunter2") by reflexivity.
  assert (Hcmp : Demo.bcrypt_compare password (trim piece) = Normal true)
    by reflexivity.
  assert (Hblank : forall piece, piece ∈ split_at 59%N (lit " ; ;") ->
                                 trim piece = []).
  { intros p Hp. apply list_elem_of_In in Hp. vm_compute in Hp.
    destruct Hp as [<- | [<- | [<- | []]]]; reflexivity. }
  split.
  - split_and!; [exact Hpiece | exact Htrim | exact Hcmp |].
    apply (proj1 (ValidatePassword_spec Demo.bcrypt_compare env password)).
    exists (trim piece). split; [|exact Hcmp].
    split; [by rewrite Htrim|]. by exists (lit " $2b$12$hunter2 ; ;"), piece.
  - split; [exact Hblank|].
    apply (proj2 (proj2 (proj2 (proj2
             (ValidatePassword_spec Demo.bcrypt_compare blank password))))).
    right. exists (lit " ; ;"). split; [reflexivity | exact Hblank].
Defined.

(* ===================================================================== *)
(** * More on the store: what requests change and what they leave         *)
(* ===================================================================== *)

(** A request leaves the store as it was, adds one new pending report, or
    moves one pending report to the actioned array. *)
Lemma step_cases st st' :
  step st st' ->
  st' = st
  \/ (exists rng now ip t r c s,
        st' = add_report (new_report rng now ip t r c s) st)
  \/ (exists now action before l after,
        reports st = before ++ l :: after
        /\ (action = JStr (lit "approved") \/ action = JStr (lit "denied"))
        /\ st' = move_to_actioned now action (length before) l st).
Proof.
  intros [env rng now req | env w now req].
  - destruct (post_report_cases env rng now req st)
      as [[_ ->] | [(_ & e & -> & _) | [(_ & t & r & _ & _ & _ & ->)
         | [(_ & _ & e & _ & ->) | (_ & t & r & c & s & _ & _ & _ & _ & ->)]]]];
      cbn [final fst snd]; auto.
    right. left. by exists rng, now, (req_ip req), t, r, c, s.
  - destruct (api_action_cases env w now req st)
      as [[_ ->] | [(_ & _ & ->) | (Hi & b & l & a & Hr & _ & _ & _ & ->)]];
      cbn [final fst snd]; auto.
    apply invalid_action_false in Hi as [_ Hact].
    right. right. by exists now, (body_action req), b, l, a.
Qed.

Lemma step_keeps_fields st st' l :
  step st st' -> l < length (heap st) ->
  l < length (heap st')
  /\ submission_fields (deref st' l) = submission_fields (deref st l).
Proof.
  intros Hstep Hl.
  destruct (step_cases st st' Hstep)
    as [-> | [(rng & now & ip & t & r & c & s & ->)
             | (now & action & b & l0 & a & _ & _ & ->)]].
  - done.
  - split; [simpl; rewrite length_app; lia|].
    by rewrite deref_add_old.
  - split; [simpl; by rewrite !length_alter|].
    destruct (decide (l = l0)) as [-> | Hne].
    + by rewrite deref_move_same.
    + by rewrite deref_move_other.
Qed.

(** Nothing ever assigns the id, target, reporter, context, reason,
    timestamp or ip of a report again: whatever requests follow, every
    report object still exists and has them as they were. *)
Theorem report_fields_never_change st st' l :
  rtc step st st' -> l < length (heap st) ->
  l < length (heap st')
  /\ submission_fields (deref st' l) = submission_fields (deref st l).
Proof.
  induction 1 as [st0 | st0 st1 st2 Hstep _ IH]; [done|].
  intros Hl. destruct (step_keeps_fields st0 st1 l Hstep Hl) as [Hl1 Heq].
  destruct (IH Hl1) as [Hl2 Heq2]. split; [done|]. congruence.
Qed.

Lemma report_fields_never_change_witness :
  rtc step Sample.one_pending Sample.one_approved
  /\ 0 < length (heap Sample.one_pending)
  /\ 0 < length (heap Sample.one_approved)
  /\ submission_fields (deref Sample.one_approved 0)
     = submission_fields (deref Sample.one_pending 0).
Proof.
  assert (Hs : rtc step Sample.one_pending Sample.one_approved).
  { apply rtc_once. apply step_action. }
  assert (Hl : 0 < length (heap Sample.one_pending)).
  { vm_compute. lia. }
  split; [exact Hs|]. split; [exact Hl|].
  exact (report_fields_never_change _ _ 0 Hs Hl).
Defined.

(** Any [action] other than the strings "approved" and "denied" (a missing
    one, another string, another case) is answered 400, and nothing else
    happens: the store is as it was, no webhook and no ban-list call. *)
Theorem api_action_rejects_other_decisions env w now req st :
  body_action req <> JStr (lit "approved") ->
  body_action req <> JStr (lit "denied") ->
  api_action env w now req st
  = ([Respond 400 (ErrorBody (lit "Invalid action or report ID!"))], st,
     Normal tt).
Proof.
  intros Ha Hd. apply api_action_invalid. unfold invalid_action.
  destruct (includes [lit "approved"; lit "denied"] (body_action req)) eqn:Hin.
  - apply includes_decision in Hin as [? | ?]; contradiction.
  - by rewrite !orb_true_r.
Qed.

Lemma api_action_rejects_other_decisions_witness :
  let req := {| body_reportId := JStr Sample.report_id;
                body_action := JStr (lit "Approved") |} in
  body_action req <> JStr (lit "approved")
  /\ body_action req <> JStr (lit "denied")
  /\ api_action Sample.env Sample.w Sample.t1 req Sample.one_pending
     = ([Respond 400 (ErrorBody (lit "Invalid action or report ID!"))],
        Sample.one_pending, Normal tt).
Proof.
  intros req.
  assert (Ha : body_action req <> JStr (lit "approved")) by discriminate.
  assert (Hd : body_action req <> JStr (lit "denied")) by discriminate.
  split; [exact Ha|]. split; [exact Hd|].
  exact (api_action_rejects_other_decisions Sample.env Sample.w Sample.t1 req
           Sample.one_pending Ha Hd).
Defined.

Lemma step_actioned_view st st' :
  store_inv st -> step st st' -> actioned st `prefix_of` actioned st'.
Proof.
  intros Hinv Hstep.
  destruct (step_cases st st' Hstep)
    as [-> | [(rng & now & ip & t & r & c & s & ->)
             | (now & action & b & l0 & a & Hr & _ & ->)]].
  - done.
  - unfold actioned. simpl.
    replace (map (deref (add_report (new_report rng now ip t r c s) st))
                 (actionedReports st))
      with (map (deref st) (actionedReports st)); [done|].
    apply map_ext_in. intros l Hl. symmetry. apply deref_add_old.
    apply (inv_refs st Hinv), elem_of_app. right. by apply list_elem_of_In.
  - unfold actioned. simpl. rewrite map_app. apply prefix_app_r.
    replace (map (deref (move_to_actioned now action (length b) l0 st))
                 (actionedReports st))
      with (map (deref st) (actionedReports st)); [done|].
    apply map_ext_in. intros l Hl. symmetry. apply deref_move_other.
    intros ->. apply list_elem_of_In in Hl.
    apply (store_inv_disjoint st l0 Hinv Hl).
    rewrite Hr, elem_of_app, elem_of_cons. auto.
Qed.

(** The actioned list only grows at its end: whatever requests follow, the
    list [GET /api/reports] shows as actioned starts with the list it showed
    before, entry for entry. So an actioned report keeps its status and its
    [actionedAt] for good. *)
Theorem actioned_list_only_grows st st' :
  reachable st -> rtc step st st' -> actioned st `prefix_of` actioned st'.
Proof.
  intros Hreach Hsteps. induction Hsteps as [st0 | st0 st1 st2 Hstep _ IH].
  - done.
  - transitivity (actioned st1).
    + apply step_actioned_view; [by apply reachable_inv | done].
    + apply IH. by eapply reachable_step.
Qed.

Lemma actioned_list_only_grows_witness :
  reachable Sample.one_approved
  /\ rtc step Sample.one_approved
       (final (post_report Sample.env Sample.rng Sample.t1 Sample.submission
                 Sample.one_approved))
  /\ actioned Sample.one_approved
     `prefix_of` actioned (final (post_report Sample.env Sample.rng Sample.t1
                                    Sample.submission Sample.one_approved)).
Proof.
  assert (Hs : rtc step Sample.one_approved
                 (final (post_report Sample.env Sample.rng Sample.t1
                           Sample.submission Sample.one_approved))).
  { apply rtc_once. apply step_submit. }
  split; [apply reachable_one_approved|]. split; [exact Hs|].
  exact (actioned_list_only_grows _ _ reachable_one_approved Hs).
Defined.

Lemma step_keeps_sorted st st' :
  store_inv st -> step st st' ->
  StronglySorted lt (reports st) -> StronglySorted lt (reports st').
Proof.
  intros Hinv Hstep Hsorted.
  destruct (step_cases st st' Hstep)
    as [-> | [(rng & now & ip & t & r & c & s & ->)
             | (now & action & b & l0 & a & Hr & _ & ->)]].
  - done.
  - simpl. apply StronglySorted_app_2; [|done|].
    + intros x1 x2 Hx1 Hx2. apply list_elem_of_singleton in Hx2 as ->.
      apply (inv_refs st Hinv), elem_of_app. by left.
    + repeat constructor.
  - simpl. rewrite Hr, delete_middle. rewrite Hr in Hsorted.
    apply StronglySorted_app in Hsorted as (Hlt & Hb & Ha).
    apply StronglySorted_cons in Ha as [_ Ha].
    apply StronglySorted_app_2; [|done|done].
    intros x1 x2 Hx1 Hx2. apply Hlt; [done|]. by right.
Qed.

(** The pending list is always in submission order: the references in
    [reports] increase strictly (a later submission has a later object), and
    an action takes its report out without disturbing the others. *)
Theorem pending_in_submission_order st :
  reachable st -> StronglySorted lt (reports st).
Proof.
  unfold reachable. revert st.
  apply (rtc_ind_r (fun s => reachable s /\ StronglySorted lt (reports s))).
  - split; [apply rtc_refl | constructor].
  - intros y z _ Hstep [Hreach Hsorted]. split.
    + by eapply reachable_step.
    + eapply step_keeps_sorted; [by apply reachable_inv | done | done].
Qed.

Lemma pending_in_submission_order_witness :
  reachable Demo.first_and_third
  /\ reports Demo.first_and_third = [0; 2]
  /\ StronglySorted lt (reports Demo.first_and_third).
Proof.
  assert (Hr : reachable Demo.first_and_third).
  { unfold Demo.first_and_third, Demo.three_pending, reachable.
    eapply rtc_r; [|apply step_action].
    eapply rtc_r; [|apply step_submit].
    eapply rtc_r; [|apply step_submit].
    apply reachable_one_pending. }
  split; [exact Hr|]. split; [reflexivity|].
  exact (pending_in_submission_order Demo.first_and_third Hr).
Defined.

(** The status of a report always agrees with the list it is in: a pending
    report has status "pending" and no [actionedAt]; an actioned report has
    status "approved" or "denied" and an [actionedAt]; and the two lists
    together hold as many reports as were ever stored. *)
Theorem lists_agree_with_status st :
  reachable st ->
  (forall r, r ∈ pending st ->
     status r = JStr (lit "pending") /\ actionedAt r = None)
  /\ (forall r, r ∈ actioned st ->
        (status r = JStr (lit "approved") \/ status r = JStr (lit "denied"))
        /\ exists t, actionedAt r = Some t)
  /\ length (pending st) + length (actioned st) = length (heap st).
Proof.
  intros Hreach. pose proof (reachable_inv st Hreach) as Hinv.
  split_and!.
  - intros r Hr. apply elem_of_pending in Hr as (l & Hl & ->).
    by apply (inv_pending st Hinv).
  - intros r Hr. apply elem_of_actioned in Hr as (l & Hl & ->).
    destruct (inv_actioned st Hinv l Hl) as [Hs Hat]. split; [done|].
    destruct (actionedAt (deref st l)) as [t|]; [eauto | done].
  - unfold pending, actioned. rewrite !length_map, <- length_app.
    rewrite <- (length_seq (length (heap st)) 0).
    apply Permutation_length, NoDup_Permutation.
    + apply (inv_nodup st Hinv).
    + apply NoDup_seq.
    + intros l. rewrite (inv_refs st Hinv l), elem_of_seq. lia.
Qed.

Lemma lists_agree_with_status_witness :
  reachable Sample.one_approved
  /\ (forall r, r ∈ pending Sample.one_approved ->
        status r = JStr (lit "pending") /\ actionedAt r = None)
  /\ (forall r, r ∈ actioned Sample.one_approved ->
        (status r = JStr (lit "approved") \/ status r = JStr (lit "denied"))
        /\ exists t, actionedAt r = Some t)
  /\ length (pending Sample.one_approved) + length (actioned Sample.one_approved)
     = length (heap Sample.one_approved).
Proof.
  split; [apply reachable_one_approved|].
  exact (lists_agree_with_status Sample.one_approved reachable_one_approved).
Defined.

(** [POST /report] changes the store and fires its webhook only when it
    answers 201: then one report is added at the end of the pending list and
    the webhook text carries the number of pending reports, the new one
    included. On every other path (a 400, an exception) the store is as it
    was and no webhook is fired. *)
Theorem post_report_stores_only_on_201 env rng now req st :
  let run := post_report env rng now req st in
  (status_codes (trace run) = [201] ->
   (exists r, final run = add_report r st
              /\ id r = generateReportId rng
              /\ status r = JStr (lit "pending"))
   /\ webhook_calls (trace run)
      = [(new_report_message env (S (length (reports st))),
          REPORTS_WEBHOOK (CONFIG env))])
  /\ (status_codes (trace run) <> [201] ->
      final run = st /\ webhook_calls (trace run) = []).
Proof.
  intros run. subst run.
  destruct (post_report_cases env rng now req st)
    as [[_ ->] | [(_ & e & -> & _) | [(_ & t & r & _ & _ & _ & ->)
       | [(_ & _ & e & _ & ->) | (_ & t & r & c & s & _ & _ & _ & _ & ->)]]]];
    cbn [trace final fst snd]; (split; [try discriminate | try done]).
  intros _. split; [|done].
  eexists. split; [reflexivity|]. done.
Qed.

Lemma post_report_stores_only_on_201_witness :
  let run := post_report Sample.env Sample.rng Sample.t0
               Sample.submission_without_reason Sample.one_pending in
  status_codes (trace run) <> [201]
  /\ final run = Sample.one_pending /\ webhook_calls (trace run) = [].
Proof.
  intros run.
  assert (H : status_codes (trace run) <> [201]) by discriminate.
  split; [exact H|].
  exact (proj2 (post_report_stores_only_on_201 Sample.env Sample.rng Sample.t0
                  Sample.submission_without_reason Sample.one_pending) H).
Defined.

(** Re-actioning is impossible: when exactly one pending report has the id,
    the first action on it is answered 200 and the same request again, with
    either decision, is answered 404 and changes nothing. *)
Theorem repeated_action_is_not_found env w w' now now' st s d d' :
  reachable st ->
  s <> [] ->
  d = JStr (lit "approved") \/ d = JStr (lit "denied") ->
  d' = JStr (lit "approved") \/ d' = JStr (lit "denied") ->
  (exists l, l ∈ reports st /\ id (deref st l) = s
             /\ forall l', l' ∈ reports st -> id (deref st l') = s -> l' = l) ->
  let first := api_action env w now
                 {| body_reportId := JStr s; body_action := d |} st in
  let second := api_action env w' now'
                  {| body_reportId := JStr s; body_action := d' |}
                  (final first) in
  status_codes (trace first) = [200]
  /\ status_codes (trace second) = [404]
  /\ final second = final first.
Proof.
  intros Hreach Hs Hd Hd' (l & Hl & Hid & Huniq) first second.
  assert (Htruthy : ToBoolean (JStr s) = true) by by destruct s.
  assert (Hin : exists r, r ∈ pending st /\ JStr (id r) = JStr s).
  { exists (deref st l). split; [|by rewrite Hid].
    apply elem_of_pending. eauto. }
  destruct (api_action_truthy_id env w now st (JStr s) d Hreach Htruthy Hd)
    as [Hfound _].
  destruct (Hfound Hin)
    as (b & l0 & a & Hr & Hid0 & _ & _ & Hresp & _ & _ & _ & Hrs & Hnot & _ & Hother).
  fold first in Hresp, Hrs, Hnot, Hother.
  assert (l0 = l) as ->.
  { apply Huniq; [|congruence].
    rewrite Hr, elem_of_app, elem_of_cons. auto. }
  assert (Hreach1 : reachable (final first)).
  { eapply reachable_step; [exact Hreach | apply step_action]. }
  assert (Hnone : forall r, r ∈ pending (final first) -> JStr (id r) <> JStr s).
  { intros r Hrin. apply elem_of_pending in Hrin as (l' & Hl' & ->).
    assert (Hne : l' <> l) by (intros ->; contradiction).
    rewrite Hother by done. intros [= Heq]. apply Hne, Huniq; [|done].
    rewrite Hrs in Hl'. rewrite Hr, elem_of_app, elem_of_cons.
    apply elem_of_app in Hl' as [?|?]; auto. }
  destruct (api_action_truthy_id env w' now' (final first) (JStr s) d'
              Hreach1 Htruthy Hd') as [_ Hmissing].
  destruct (Hmissing Hnone) as (_ & Hresp2 & Hfinal2).
  fold second in Hresp2, Hfinal2.
  unfold status_codes. rewrite Hresp, Hresp2. done.
Qed.

Lemma repeated_action_is_not_found_witness :
  let st := Sample.one_pending in
  let s := Sample.report_id in
  let first := api_action Sample.env Sample.w Sample.t1
                 (Sample.approve s) st in
  let second := api_action Sample.env Sample.w Sample.t1
                  (Sample.deny s) (final first) in
  reachable st
  /\ (exists l, l ∈ reports st /\ id (deref st l) = s
                /\ forall l', l' ∈ reports st -> id (deref st l') = s -> l' = l)
  /\ status_codes (trace first) = [200]
  /\ status_codes (trace second) = [404]
  /\ final second = final first.
Proof.
  intros st s first second.
  assert (Hu : exists l, l ∈ reports st /\ id (deref st l) = s
                 /\ forall l', l' ∈ reports st -> id (deref st l') = s -> l' = l).
  { exists 0. split; [apply list_elem_of_here|]. split; [reflexivity|].
    intros l' Hl' _. by apply list_elem_of_singleton in Hl'. }
  split; [apply reachable_one_pending|]. split; [exact Hu|].
  apply (repeated_action_is_not_found Sample.env Sample.w Sample.w
           Sample.t1 Sample.t1 st s
           (JStr (lit "approved")) (JStr (lit "denied"))).
  - apply reachable_one_pending.
  - discriminate.
  - left. reflexivity.
  - right. reflexivity.
  - exact Hu.
Defined.

(* ===================================================================== *)
(** * Report ids                                                          *)
(* ===================================================================== *)

Lemma hex_digit_inj (a b : N) :
  (a < 16)%N -> (b < 16)%N -> hex_digit a = hex_digit b -> a = b.
Proof.
  unfold hex_digit. intros Ha Hb.
  destruct (N.ltb_spec a 10), (N.ltb_spec b 10); lia.
Qed.

Lemma hex_of_byte_inj (b1 b2 : byte) :
  hex_of_byte b1 = hex_of_byte b2 -> b1 = b2.
Proof.
  unfold hex_of_byte. intros [= Hhi Hlo].
  pose proof (Byte.to_N_bounded b1). pose proof (Byte.to_N_bounded b2).
  apply hex_digit_inj in Hhi;
    [|apply N.Div0.div_lt_upper_bound; lia..].
  apply hex_digit_inj in Hlo; [|apply N.mod_lt; lia..].
  assert (Heq : Byte.to_N b1 = Byte.to_N b2).
  { rewrite (N.div_mod (Byte.to_N b1) 16), (N.div_mod (Byte.to_N b2) 16) by lia.
    by rewrite Hhi, Hlo. }
  pose proof (Byte.of_to_N b1) as H1. pose proof (Byte.of_to_N b2) as H2.
  rewrite Heq in H1. congruence.
Qed.

Lemma toString_hex_inj (buf1 buf2 : list byte) :
  toString_hex buf1 = toString_hex buf2 -> buf1 = buf2.
Proof.
  revert buf2. induction buf1 as [|b1 buf1 IH]; intros [|b2 buf2]; simpl;
    try done.
  intros [= Hhi Hlo Hrest].
  f_equal; [|by apply IH].
  apply hex_of_byte_inj. unfold hex_of_byte. by rewrite Hhi, Hlo.
Qed.

(** The id is the random bytes and nothing else: two ids are equal exactly
    when the 8 bytes drawn are equal, so every one of the 2^64 byte strings
    has an id of its own, and nothing but a repeated draw makes two reports
    share an id. *)
Theorem generateReportId_eq_iff (rng1 rng2 : nat -> byte) :
  generateReportId rng1 = generateReportId rng2
  <-> randomBytes 8 rng1 = randomBytes 8 rng2.
Proof.
  unfold generateReportId. split.
  - apply toString_hex_inj.
  - by intros ->.
Qed.

(* ===================================================================== *)
(** * Trimming, and what validation lets through                          *)
(* ===================================================================== *)

Lemma trimStart_split (s : jsstring) :
  exists blank, s = blank ++ trimStart s
                /\ forallb is_whitespace blank = true
                /\ match trimStart s with
                   | [] => True
                   | c :: _ => is_whitespace c = false
                   end.
Proof.
  induction s as [|c s IH]; simpl.
  - by exists [].
  - destruct (is_whitespace c) eqn:Hc.
    + destruct IH as (blank & Heq & Hb & Hhead).
      exists (c :: blank). simpl. rewrite Hc, Hb. split_and!; [|done|done].
      by rewrite <- Heq.
    + exists []. by rewrite Hc.
Qed.

Lemma trimStart_blank (s : jsstring) :
  forallb is_whitespace s = true -> trimStart s = [].
Proof.
  induction s as [|c s IH]; simpl; [done|].
  intros H. apply andb_true_iff in H as [-> Hs]. auto.
Qed.

Lemma trim_blank (s : jsstring) :
  forallb is_whitespace s = true -> trim s = [].
Proof.
  intros H. unfold trim, trimEnd. rewrite (trimStart_blank s) by done.
  reflexivity.
Qed.

Lemma trim_no_outer_whitespace (s : jsstring) :
  no_outer_whitespace (trim s) = true.
Proof.
  unfold trim, trimEnd, no_outer_whitespace.
  destruct (trimStart_split s) as (b1 & _ & _ & Hhead).
  destruct (trimStart_split (rev (trimStart s))) as (b2 & Heq & _ & Hlast).
  set (t := trimStart s) in *. set (u := trimStart (rev t)) in *.
  rewrite rev_involutive.
  assert (Ht : t = rev u ++ rev b2).
  { rewrite <- (rev_involutive t), Heq. by rewrite rev_app_distr. }
  apply andb_true_iff. split.
  - destruct (rev u) as [|c r] eqn:Hr; [done|].
    rewrite Ht in Hhead. simpl in Hhead. by rewrite Hhead.
  - destruct u as [|c r]; [done|]. by rewrite Hlast.
Qed.

(** Every stored report has its context and its reason trimmed: neither
    starts or ends with white space, whatever was submitted and whatever
    requests followed. *)
Theorem stored_text_is_trimmed st l :
  reachable st -> l < length (heap st) ->
  no_outer_whitespace (context (deref st l)) = true
  /\ no_outer_whitespace (reason (deref st l)) = true.
Proof.
  unfold reachable. intros Hreach. revert l. revert st Hreach.
  apply (rtc_ind_r (fun st => forall l, l < length (heap st) ->
           no_outer_whitespace (context (deref st l)) = true
           /\ no_outer_whitespace (reason (deref st l)) = true)).
  - simpl. lia.
  - intros st1 st2 _ Hstep IH l Hl.
    destruct (step_cases st1 st2 Hstep)
      as [-> | [(rng & now & ip & t & r & c & s & ->)
               | (now & action & b & l0 & a & _ & _ & ->)]].
    + by apply IH.
    + simpl in Hl. rewrite length_app in Hl. simpl in Hl.
      destruct (decide (l = length (heap st1))) as [-> | Hne].
      * rewrite deref_add_new. simpl.
        split; apply trim_no_outer_whitespace.
      * rewrite deref_add_old by lia. apply IH. lia.
    + simpl in Hl. rewrite !length_alter in Hl.
      destruct (step_keeps_fields st1 _ l Hstep Hl) as [_ Heq].
      injection Heq as _ _ _ Hc Hr _ _. rewrite Hc, Hr. by apply IH.
Qed.

Lemma stored_text_is_trimmed_witness :
  let st := final (post_report Sample.env Sample.rng Sample.t0
                     {| body_target := JNum (num_of_Z 42);
                        body_reporter := JNum (num_of_Z 7);
                        body_context := JStr (lit "  spam  ");
                        body_reason := JStr (lit " scamming");
                        req_ip := JStr (lit "::1") |} empty_store) in
  reachable st /\ 0 < length (heap st)
  /\ no_outer_whitespace (context (deref st 0)) = true
  /\ no_outer_whitespace (reason (deref st 0)) = true.
Proof.
  intros st.
  assert (Hr : reachable st) by (apply rtc_once, step_submit).
  assert (Hl : 0 < length (heap st)) by (vm_compute; lia).
  split; [exact Hr|]. split; [exact Hl|].
  exact (stored_text_is_trimmed st 0 Hr Hl).
Defined.

(** A context of white space only passes validation (it is a non-empty
    string) and is stored as the empty string: with identifiers that are
    present and coerce to numbers and a string reason, the submission is
    answered 201 and the new pending report has an empty context. *)
Theorem post_report_blank_context env rng now req st t r c s :
  body_target req <> JNull -> body_reporter req <> JNull ->
  number_or_coerce (body_target req) = Normal t ->
  number_or_coerce (body_reporter req) = Normal r ->
  isNaN t = false -> isNaN r = false ->
  body_context req = JStr c -> c <> [] ->
  forallb is_whitespace c = true ->
  body_reason req = JStr s ->
  let run := post_report env rng now req st in
  status_codes (trace run) = [201]
  /\ reports (final run) = reports st ++ [length (heap st)]
  /\ context (deref (final run) (length (heap st))) = [].
Proof.
  intros Htn Hrn Ht Hr Hnt Hnr Hc Hne Hblank Hs run. subst run.
  assert (Htu : body_target req <> JUndefined).
  { intros E. rewrite E in Ht. injection Ht as <-. discriminate. }
  assert (Hru : body_reporter req <> JUndefined).
  { intros E. rewrite E in Hr. injection Hr as <-. discriminate. }
  assert (Hm : missing_fields req = false).
  { unfold missing_fields. rewrite Hc.
    destruct (body_target req), (body_reporter req); try done;
      by destruct c. }
  rewrite (post_report_accepted env rng now req st t r c s) by done.
  cbn [trace final fst snd]. split_and!; [done|done|].
  rewrite deref_add_new. simpl. by apply trim_blank.
Qed.

Lemma post_report_blank_context_witness :
  let req := {| body_target := JNum (num_of_Z 42);
                body_reporter := JNum (num_of_Z 7);
                body_context := JStr (lit "   ");
                body_reason := JStr (lit "scamming");
                req_ip := JStr (lit "::1") |} in
  let run := post_report Sample.env Sample.rng Sample.t0 req empty_store in
  forallb is_whitespace (lit "   ") = true
  /\ status_codes (trace run) = [201]
  /\ reports (final run) = reports empty_store ++ [length (heap empty_store)]
  /\ context (deref (final run) (length (heap empty_store))) = [].
Proof.
  intros req run.
  assert (Hb : forallb is_whitespace (lit "   ") = true) by reflexivity.
  split; [exact Hb|].
  apply (post_report_blank_context Sample.env Sample.rng Sample.t0 req
           empty_store (num_of_Z 42) (num_of_Z 7) (lit "   ") (lit "scamming"));
    try reflexivity; try discriminate.
Defined.

(** An identifier sent as an empty string or as white space only is not
    rejected: [Number] turns it into 0, so with a usable reporter, context
    and reason the report is stored with target 0. *)
Theorem post_report_blank_target env rng now req st blank r c s :
  body_target req = JStr blank ->
  forallb is_whitespace blank = true ->
  body_reporter req <> JNull ->
  number_or_coerce (body_reporter req) = Normal r -> isNaN r = false ->
  body_context req = JStr c -> c <> [] ->
  body_reason req = JStr s ->
  let run := post_report env rng now req st in
  status_codes (trace run) = [201]
  /\ target (deref (final run) (length (heap st))) = pos_zero.
Proof.
  intros Ht Hblank Hrn Hr Hnr Hc Hne Hs run. subst run.
  assert (Hnum : number_or_coerce (body_target req) = Normal pos_zero).
  { rewrite Ht. simpl. unfold StringToNumber. by rewrite trim_blank. }
  assert (Hru : body_reporter req <> JUndefined).
  { intros E. rewrite E in Hr. injection Hr as <-. discriminate. }
  assert (Hm : missing_fields req = false).
  { unfold missing_fields. rewrite Hc, Ht.
    destruct (body_reporter req); try done; by destruct c. }
  rewrite (post_report_accepted env rng now req st pos_zero r c s) by done.
  cbn [trace final fst snd]. split; [done|].
  by rewrite deref_add_new.
Qed.

Lemma post_report_blank_target_witness :
  let req := {| body_target := JStr [];
                body_reporter := JNum (num_of_Z 7);
                body_context := JStr (lit "spam");
                body_reason := JStr (lit "scamming");
                req_ip := JStr (lit "::1") |} in
  let run := post_report Sample.env Sample.rng Sample.t0 req empty_store in
  forallb is_whitespace [] = true
  /\ status_codes (trace run) = [201]
  /\ target (deref (final run) (length (heap empty_store))) = pos_zero.
Proof.
  intros req run.
  assert (Hb : forallb is_whitespace [] = true) by reflexivity.
  split; [exact Hb|].
  apply (post_report_blank_target Sample.env Sample.rng Sample.t0 req
           empty_store [] (num_of_Z 7) (lit "spam") (lit "scamming"));
    try reflexivity; try discriminate.
Defined.

(* ===================================================================== *)
(** * Passwords: [POST /auth], [LOGIN_HASHES] and genpasswords.js          *)
(* ===================================================================== *)

(** [ValidatePassword] in one equation. *)
Lemma ValidatePassword_run {S} bcrypt_compare env password (s : S) :
  exists t,
    ValidatePassword bcrypt_compare env password s
    = (t, s, Normal (existsb (matches bcrypt_compare password)
                             (configured_hashes env)))
    /\ (compared t) `prefix_of` (configured_hashes env).
Proof.
  unfold ValidatePassword, configured_hashes.
  destruct (ENV_LOGIN_HASHES env) as [[|c l]|].
  - change (split_hashes []) with (@nil jsstring).
    eexists. split; [reflexivity | apply prefix_nil].
  - destruct (split_hashes (c :: l)) as [|h hs] eqn:Hsplit.
    + eexists. split; [reflexivity | apply prefix_nil].
    + cbn [length Nat.eqb]. apply compare_each_run.
  - eexists. split; [reflexivity | apply prefix_nil].
Qed.



Lemma trimStart_elem (s : jsstring) (c : code_unit) : c ∈ trimStart s -> c ∈ s.
Proof.
  destruct (trimStart_split s) as (blank & Heq & _).
  intros Hc. rewrite Heq. apply elem_of_app. by right.
Qed.

Lemma trim_elem (s : jsstring) (c : code_unit) : c ∈ trim s -> c ∈ s.
Proof.
  unfold trim, trimEnd. intros Hc.
  apply list_elem_of_In, in_rev, list_elem_of_In in Hc.
  apply trimStart_elem in Hc.
  apply list_elem_of_In, in_rev, list_elem_of_In in Hc.
  by apply trimStart_elem.
Qed.

Lemma split_at_no_sep (sep : code_unit) (s piece : jsstring) :
  piece ∈ split_at sep s -> sep ∉ piece.
Proof.
  revert piece. induction s as [|c s IH]; simpl; intros piece Hp.
  - apply list_elem_of_singleton in Hp as ->. by intros H%elem_of_nil.
  - destruct (N.eqb_spec c sep) as [-> | Hne].
    + apply elem_of_cons in Hp as [-> | Hp]; [by intros H%elem_of_nil | auto].
    + destruct (split_at sep s) as [|p ps] eqn:Hsplit.
      * apply list_elem_of_singleton in Hp as ->.
        intros H%list_elem_of_singleton. congruence.
      * apply elem_of_cons in Hp as [-> | Hp].
        -- intros H%elem_of_cons. destruct H as [? | H]; [congruence|].
           apply (IH p); [by left | done].
        -- apply IH. by right.
Qed.

(** Every hash the password check compares against is clean: not empty,
    free of semicolons and without white space at either end, whatever the
    text of [LOGIN_HASHES]. *)
Theorem split_hashes_clean (loginHashes hash : jsstring) :
  hash ∈ split_hashes loginHashes -> clean_hash hash.
Proof.
  intros H. apply split_hashes_spec in H as (Hne & piece & Hp & ->).
  split; [done|]. split.
  - intros Hin. apply trim_elem in Hin. by apply (split_at_no_sep _ _ _ Hp).
  - apply trim_no_outer_whitespace.
Qed.

Lemma split_hashes_clean_witness :
  lit "$2b$12$def" ∈ split_hashes (lit "$2b$12$abc ;; $2b$12$def ")
  /\ clean_hash (lit "$2b$12$def").
Proof.
  assert (H : lit "$2b$12$def" ∈ split_hashes (lit "$2b$12$abc ;; $2b$12$def ")).
  { apply list_elem_of_In. vm_compute. right. left. reflexivity. }
  split; [exact H|].
  exact (split_hashes_clean _ _ H).
Defined.

Lemma trimStart_clean (s : jsstring) :
  match s with [] => True | c :: _ => is_whitespace c = false end ->
  trimStart s = s.
Proof. destruct s as [|c s]; simpl; [done|]. by intros ->. Qed.

Lemma trim_clean (s : jsstring) : no_outer_whitespace s = true -> trim s = s.
Proof.
  unfold no_outer_whitespace, trim, trimEnd.
  intros H. apply andb_true_iff in H as [Hhead Hlast].
  rewrite (trimStart_clean s).
  - rewrite (trimStart_clean (rev s)); [apply rev_involutive|].
    destruct (rev s); [done|]. by apply negb_true_iff.
  - destruct s; [done|]. by apply negb_true_iff.
Qed.

Lemma split_at_clean (sep : code_unit) (s : jsstring) :
  sep ∉ s -> split_at sep s = [s].
Proof.
  induction s as [|c s IH]; simpl; [done|].
  intros Hnot. destruct (N.eqb_spec c sep) as [-> | Hne].
  - exfalso. apply Hnot. by left.
  - rewrite IH; [done|]. intros Hin. apply Hnot. by right.
Qed.

Lemma split_at_app (sep : code_unit) (s rest : jsstring) :
  sep ∉ s -> split_at sep (s ++ sep :: rest) = s :: split_at sep rest.
Proof.
  induction s as [|c s IH]; simpl.
  - intros _. by rewrite N.eqb_refl.
  - intros Hnot. destruct (N.eqb_spec c sep) as [-> | Hne].
    + exfalso. apply Hnot. by left.
    + rewrite IH; [done|]. intros Hin. apply Hnot. by right.
Qed.

Lemma split_at_nonempty (sep : code_unit) (s : jsstring) : split_at sep s <> [].
Proof.
  destruct s as [|c s]; simpl; [done|].
  destruct (c =? sep)%N; [done|]. by destruct (split_at sep s).
Qed.

Lemma map_trim_after_space (s : jsstring) :
  map trim (split_at 59%N (32%N :: s)) = map trim (split_at 59%N s).
Proof.
  simpl. pose proof (split_at_nonempty 59%N s) as Hne.
  destruct (split_at 59%N s) as [|p ps]; [done|]. reflexivity.
Qed.

Lemma split_join_pieces (hashes : list jsstring) :
  hashes <> [] -> Forall clean_hash hashes ->
  map trim (split_at 59%N (join (lit "; ") hashes)) = hashes.
Proof.
  induction hashes as [|h hashes IH]; [done|].
  intros _ Hclean. apply Forall_cons in Hclean as [(Hne & Hsemi & Hws) Hrest].
  destruct hashes as [|h2 hashes].
  - simpl. rewrite split_at_clean by done. simpl. by rewrite trim_clean.
  - change (join (lit "; ") (h :: h2 :: hashes))
      with (h ++ 59%N :: 32%N :: join (lit "; ") (h2 :: hashes)).
    rewrite split_at_app by done.
    cbn [map]. rewrite map_trim_after_space, trim_clean by done.
    f_equal. by apply IH.
Qed.

Lemma filter_nonempty_clean (hashes : list jsstring) :
  Forall clean_hash hashes ->
  List.filter (fun hash => negb (Nat.eqb (length hash) 0)) hashes = hashes.
Proof.
  induction 1 as [|h hashes (Hne & _) _ IH]; [done|].
  simpl. destruct h as [|c h]; [done|]. simpl. by rewrite IH.
Qed.

(** What genpasswords.js prints is read back unchanged: joining clean hashes
    with "; " and splitting the result as [ValidatePassword] does gives the
    same hashes in the same order. *)
Theorem split_hashes_join (hashes : list jsstring) :
  Forall clean_hash hashes ->
  split_hashes (join (lit "; ") hashes) = hashes.
Proof.
  intros Hclean. unfold split_hashes.
  destruct hashes as [|h hashes]; [done|].
  rewrite split_join_pieces by done.
  by apply filter_nonempty_clean.
Qed.

Lemma split_hashes_join_witness :
  Forall clean_hash [lit "$2b$12$abc"; lit "$2b$12$def"]
  /\ split_hashes (join (lit "; ") [lit "$2b$12$abc"; lit "$2b$12$def"])
     = [lit "$2b$12$abc"; lit "$2b$12$def"].
Proof.
  assert (H : Forall clean_hash [lit "$2b$12$abc"; lit "$2b$12$def"]).
  { repeat constructor; try discriminate;
      intros Hin; apply list_elem_of_In in Hin; vm_compute in Hin;
      intuition discriminate. }
  split; [exact H|]. exact (split_hashes_join _ H).
Defined.

Lemma ask_passwords_until_empty bcrypt_hash passwords rest hashes :
  Forall (fun p => p <> []) passwords ->
  ask_passwords bcrypt_hash (passwords ++ [] :: rest) hashes
  = ask_passwords bcrypt_hash (passwords ++ [[]]) hashes
  /\ snd (ask_passwords bcrypt_hash (passwords ++ [] :: rest) hashes)
     = Some (hashes ++ resolved_hashes bcrypt_hash passwords).
Proof.
  revert hashes. induction passwords as [|p passwords IH]; intros hashes Hne.
  - simpl. by rewrite app_nil_r.
  - apply Forall_cons in Hne as [Hp Hne].
    cbn [app ask_passwords].
    assert (Hpe : jsstring_eqb p [] = false).
    { destruct (jsstring_eqb p []) eqn:E; [|done].
      apply jsstring_eqb_eq in E. contradiction. }
    rewrite Hpe.
    assert (Hres : resolved_hashes bcrypt_hash (p :: passwords)
                   = match bcrypt_hash p SALT_ROUNDS with
                     | Normal h => h :: resolved_hashes bcrypt_hash passwords
                     | Throw _ => resolved_hashes bcrypt_hash passwords
                     end).
    { unfold resolved_hashes. simpl. by destruct (bcrypt_hash p SALT_ROUNDS). }
    rewrite Hres.
    destruct (bcrypt_hash p SALT_ROUNDS) as [h|e].
    + destruct (IH (hashes ++ [h]) Hne) as [-> Hsnd].
      split; [done|].
      destruct (ask_passwords bcrypt_hash (passwords ++ [[]]) (hashes ++ [h]))
        as [out result]. simpl in *. by rewrite Hsnd, <- app_assoc.
    + destruct (IH hashes Hne) as [-> Hsnd].
      split; [done|].
      destruct (ask_passwords bcrypt_hash (passwords ++ [[]]) hashes)
        as [out result]. simpl in *. by rewrite Hsnd.
Qed.

(** genpasswords.js stops reading at the first empty line: what is typed
    after it changes nothing. If some password was hashed, the script prints
    the hashes of the passwords before that line, in order and joined by
    "; ", as the value of [LOGIN_HASHES] (a password whose hashing failed is
    skipped); otherwise it ends by saying that no passwords were provided. *)
Theorem generateHashes_prints bcrypt_hash passwords rest :
  Forall (fun p => p <> []) passwords ->
  let out := generateHashes bcrypt_hash (passwords ++ [] :: rest) in
  let hashes := resolved_hashes bcrypt_hash passwords in
  out = generateHashes bcrypt_hash (passwords ++ [[]])
  /\ (hashes <> [] ->
      Log (join (lit "; ") hashes) ∈ out
      /\ Log (lit "export LOGIN_HASHES=" ++ DQUOTE ++ join (lit "; ") hashes
              ++ DQUOTE) ∈ out)
  /\ (hashes = [] -> last out = Some (Log (lit "No passwords were provided."))).
Proof.
  intros Hne out hashes. subst out hashes. unfold generateHashes.
  destruct (ask_passwords_until_empty bcrypt_hash passwords rest [] Hne)
    as [-> Hsnd].
  split; [done|].
  destruct (ask_passwords bcrypt_hash (passwords ++ [[]]) [])
    as [out result]. simpl in Hsnd. subst result.
  destruct (resolved_hashes bcrypt_hash passwords) as [|h hs].
  - split; [done|]. intros _.
    rewrite app_comm_cons. apply last_snoc.
  - split; [|done]. intros _.
    split; right; apply elem_of_app; right.
    + do 3 right. by left.
    + do 6 right. by left.
Qed.

Lemma generateHashes_prints_witness :
  let passwords := [lit "hunter2"; lit "correct horse"] in
  let out := generateHashes Demo.bcrypt_hash (passwords ++ [] :: [lit "late"]) in
  let hashes := resolved_hashes Demo.bcrypt_hash passwords in
  Forall (fun p => p <> []) passwords
  /\ hashes <> []
  /\ Log (join (lit "; ") hashes) ∈ out
  /\ Log (lit "export LOGIN_HASHES=" ++ DQUOTE ++ join (lit "; ") hashes
          ++ DQUOTE) ∈ out.
Proof.
  intros passwords out hashes.
  assert (Hne : Forall (fun p => p <> []) passwords).
  { repeat constructor; discriminate. }
  assert (Hh : hashes <> []) by discriminate.
  split; [exact Hne|]. split; [exact Hh|].
  exact (proj1 (proj2 (generateHashes_prints Demo.bcrypt_hash passwords
                         [lit "late"] Hne)) Hh).
Defined.

Lemma generateHashes_logs_value bcrypt_hash passwords rest :
  Forall (fun p => p <> []) passwords ->
  resolved_hashes bcrypt_hash passwords <> [] ->
  Log (join (lit "; ") (resolved_hashes bcrypt_hash passwords))
    ∈ generateHashes bcrypt_hash (passwords ++ [] :: rest).
Proof.
  intros Hne Hres. unfold generateHashes.
  destruct (ask_passwords_until_empty bcrypt_hash passwords rest [] Hne)
    as [_ Hsnd].
  destruct (ask_passwords bcrypt_hash (passwords ++ [] :: rest) [])
    as [out result]. simpl in Hsnd. subst result.
  destruct (resolved_hashes bcrypt_hash passwords) as [|h hs]; [done|].
  right. apply elem_of_app. right. do 3 right. by left.
Qed.

Lemma resolved_hashes_elem bcrypt_hash passwords hash :
  hash ∈ resolved_hashes bcrypt_hash passwords
  <-> exists p, p ∈ passwords /\ bcrypt_hash p SALT_ROUNDS = Normal hash.
Proof.
  unfold resolved_hashes. rewrite list_elem_of_omap. split.
  - intros (p & Hp & Hh). exists p. split; [done|].
    destruct (bcrypt_hash p SALT_ROUNDS); congruence.
  - intros (p & Hp & Hh). exists p. split; [done|]. by rewrite Hh.
Qed.

(** The two programs fit together: when bcrypt prints clean hashes and
    accepts a password against its own hash, every password that
    genpasswords.js hashed is accepted by the server configured with the
    [LOGIN_HASHES] value the script printed: [ValidatePassword] resolves to
    true and [POST /auth] answers 200. *)
Theorem generated_hashes_validate bcrypt_hash bcrypt_compare
    passwords rest password hash :
  Forall (fun p => p <> []) passwords ->
  (forall p h, p ∈ passwords -> bcrypt_hash p SALT_ROUNDS = Normal h ->
               clean_hash h) ->
  password ∈ passwords ->
  bcrypt_hash password SALT_ROUNDS = Normal hash ->
  bcrypt_compare (JStr password) hash = Normal true ->
  let value := join (lit "; ") (resolved_hashes bcrypt_hash passwords) in
  let env := env_with_login_hashes value in
  Log value ∈ generateHashes bcrypt_hash (passwords ++ [] :: rest)
  /\ configured_hashes env = resolved_hashes bcrypt_hash passwords
  /\ outcome (ValidatePassword bcrypt_compare env (JStr password) tt)
     = Normal true
  /\ outcome (post_auth bcrypt_compare env (JStr password) tt)
     = Normal (200, AuthSuccess).
Proof.
  intros Hne Hclean Hin Hhash Hcmp value env.
  assert (Hres : hash ∈ resolved_hashes bcrypt_hash passwords).
  { apply resolved_hashes_elem. eauto. }
  assert (Hconf : configured_hashes env = resolved_hashes bcrypt_hash passwords).
  { unfold configured_hashes, env, env_with_login_hashes. simpl.
    unfold split_hashes.
    assert (Hall : Forall clean_hash (resolved_hashes bcrypt_hash passwords)).
    { apply Forall_forall. intros h Hh.
      apply resolved_hashes_elem in Hh as (p & Hp & Hph). eauto. }
    unfold value.
    rewrite split_join_pieces; [by apply filter_nonempty_clean | | done].
    intros Heq. rewrite Heq in Hres. by apply elem_of_nil in Hres. }
  assert (Hex: existsb (matches bcrypt_compare (JStr password))
                  (configured_hashes env) = true).
  { apply existsb_exists. exists hash. rewrite Hconf.
    split; [by apply list_elem_of_In | by apply matches_true]. }
  assert (Hpw : password <> []).
  { rewrite Forall_forall in Hne. by apply Hne. }
  split_and!.
  - apply (generateHashes_logs_value bcrypt_hash passwords rest Hne).
    intros Heq. rewrite Heq in Hres. by apply elem_of_nil in Hres.
  - done.
  - destruct (ValidatePassword_run bcrypt_compare env (JStr password) tt)
      as (t & -> & _). simpl. by rewrite Hex.
  - unfold post_auth.
    replace (ToBoolean (JStr password)) with true by by destruct password.
    simpl. unfold_eff.
    destruct (ValidatePassword_run bcrypt_compare env (JStr password) tt)
      as (t & -> & _). by rewrite Hex.
Qed.

Lemma generated_hashes_validate_witness :
  let passwords := [lit "hunter2"; lit "correct horse"] in
  let value := join (lit "; ") (resolved_hashes Demo.bcrypt_hash passwords) in
  let env := env_with_login_hashes value in
  lit "correct horse" ∈ passwords
  /\ Log value ∈ generateHashes Demo.bcrypt_hash (passwords ++ [] :: [])
  /\ configured_hashes env = resolved_hashes Demo.bcrypt_hash passwords
  /\ outcome (ValidatePassword Demo.bcrypt_compare env
                (JStr (lit "correct horse")) tt) = Normal true
  /\ outcome (post_auth Demo.bcrypt_compare env
                (JStr (lit "correct horse")) tt) = Normal (200, AuthSuccess).
Proof.
  intros passwords value env.
  assert (Hin : lit "correct horse" ∈ passwords).
  { right. left. }
  split; [exact Hin|].
  apply (generated_hashes_validate Demo.bcrypt_hash Demo.bcrypt_compare
           passwords [] (lit "correct horse")
           (lit "$2b$12$correct horse")).
  - repeat constructor; discriminate.
  - intros p h Hp Hh.
    apply list_elem_of_In in Hp. simpl in Hp.
    destruct Hp as [<- | [<- | []]]; injection Hh as <-;
      (split; [discriminate|]); (split; [|reflexivity]);
      intros Hc; apply list_elem_of_In in Hc; vm_compute in Hc;
      intuition discriminate.
  - exact Hin.
  - reflexivity.
  - reflexivity.
Defined.

(* ===================================================================== *)
(** * What goes out: the webhook and the ban list                         *)
(* ===================================================================== *)

(** [FireWebhook] posts at most once, the given content to the given URL:
    once when node-fetch could be imported, whatever the answer to the post
    is (no retry), and not at all when the import failed. *)
Theorem FireWebhook_posts_once (w : world) (Content : template) (URL : jsstring) :
  http_posts (trace (FireWebhook w Content URL tt))
  = if is_normal (import_node_fetch w) then [(URL, Content)] else [].
Proof.
  unfold FireWebhook. unfold_eff.
  destruct (import_node_fetch w) as [[]|e]; simpl.
  - destruct (fetch w URL Content) as [[[] [txt|e']]|e]; simpl;
      repeat (case_bool_decide; simpl); reflexivity.
  - repeat (case_bool_decide; simpl); reflexivity.
Qed.

(** The integration is on only when [GITHUB_ENABLED] is exactly "true" and
    a non-empty [GITHUB_TOKEN] is set. *)
Lemma octokit_iff (env : process_env) :
  octokit env = true
  <-> ENV_GITHUB_ENABLED env = Some (lit "true")
      /\ exists c s, ENV_GITHUB_TOKEN env = Some (c :: s).
Proof.
  unfold octokit, CONFIG, env_or. simpl. rewrite andb_true_iff, negb_true_iff.
  split.
  - intros [He Ht]. split.
    + destruct (ENV_GITHUB_ENABLED env) as [[|c s]|]; try discriminate.
      apply jsstring_eqb_eq in He. by rewrite He.
    + destruct (ENV_GITHUB_TOKEN env) as [[|c s]|]; try discriminate. eauto.
  - intros [-> (c & s & ->)]. done.
Qed.

(** Unless [GITHUB_ENABLED] is exactly "true" and a token is set,
    [addToGitHubBanList] sends nothing to GitHub: no read and no commit,
    only a line on the console. *)
Theorem addToGitHubBanList_off env w reportData :
  ENV_GITHUB_ENABLED env <> Some (lit "true")
  \/ ENV_GITHUB_TOKEN env = None \/ ENV_GITHUB_TOKEN env = Some [] ->
  trace (addToGitHubBanList env w reportData tt)
  = [Console [LText (lit "GitHub integration disabled.")]]
  /\ github_gets (trace (addToGitHubBanList env w reportData tt)) = []
  /\ github_puts (trace (addToGitHubBanList env w reportData tt)) = [].
Proof.
  intros Hoff.
  assert (Ho : octokit env = false).
  { destruct (octokit env) eqn:E; [|done]. exfalso.
    apply octokit_iff in E as [He (c & s & Ht)].
    destruct Hoff as [? | [? | ?]]; congruence. }
  unfold addToGitHubBanList. rewrite Ho, orb_true_r. done.
Qed.

Lemma addToGitHubBanList_off_witness :
  ENV_GITHUB_ENABLED Sample.env <> Some (lit "true")
  /\ github_gets (trace (addToGitHubBanList Sample.env Demo.w_existing
                           Demo.a_report tt)) = []
  /\ github_puts (trace (addToGitHubBanList Sample.env Demo.w_existing
                           Demo.a_report tt)) = [].
Proof.
  assert (H : ENV_GITHUB_ENABLED Sample.env <> Some (lit "true"))
    by discriminate.
  split; [exact H|].
  exact (proj2 (addToGitHubBanList_off Sample.env Demo.w_existing
                  Demo.a_report (or_introl H))).
Defined.

(** What [JSON.stringify] writes for the list with the new entry pushed. *)
Lemma JSON_stringify_pushed w items reportData :
  JSON_stringify
    (JsonObj [("banned_users", JsonArr (items ++ [newBanEntry w reportData]));
              ("last_updated", JsonStr (last_updated_clock w))]%string)
  = ban_list_document w items reportData.
Proof.
  unfold ban_list_document, written_entry, newBanEntry.
  cbn [JSON_stringify map]. by rewrite map_app.
Qed.

Lemma JSON_number_plain (x : jsnum) :
  JSON_number x = JsonNum x <-> plain_number x = true.
Proof. destruct x as [[]| | |]; simpl; split; congruence. Qed.

(** With the integration on and a ban list whose [banned_users] is an
    array, [addToGitHubBanList] reads once and commits once: the entries
    that were there, in their order and as JSON writes them again (a number
    that is not finite becomes [null]), followed by the entry of the report
    (no check for an entry of the same report or target), under the sha it
    has read. The entry holds the target and the reporter as JSON writes a
    number, and the reason, context and id as stored. The other fields of
    the document are not carried over. *)
Theorem addToGitHubBanList_appends env w reportData fields items sha :
  octokit env = true ->
  getContent w (GITHUB_OWNER (CONFIG env)) (GITHUB_REPO (CONFIG env))
    (GITHUB_FILE_PATH (CONFIG env))
  = Normal {| data_content := Some (Normal (JsonObj fields));
              data_sha := sha |} ->
  field_lookup "banned_users" fields = Some (JsonArr items) ->
  let tr := trace (addToGitHubBanList env w reportData tt) in
  github_gets tr = [(GITHUB_OWNER (CONFIG env), GITHUB_REPO (CONFIG env),
                     GITHUB_FILE_PATH (CONFIG env))]
  /\ map put_content (github_puts tr) = [ban_list_document w items reportData]
  /\ map put_sha (github_puts tr) = [sha]
  /\ map put_path (github_puts tr) = [GITHUB_FILE_PATH (CONFIG env)].
Proof.
  intros Ho Hget Hfield tr. subst tr.
  unfold addToGitHubBanList. cbv zeta.
  rewrite Ho, (octokit_enabled env Ho). cbn [negb orb]. unfold_eff.
  rewrite Hget. simpl. rewrite Hfield. simpl.
  match goal with
  | |- context [createOrUpdateFileContents w ?req] =>
      destruct (createOrUpdateFileContents w req) as [[]|e]
  end; simpl; unfold ban_list_document; rewrite ?map_app; done.
Qed.

Lemma addToGitHubBanList_appends_witness :
  let tr := trace (addToGitHubBanList Sample.env_github Demo.w_existing
                     Demo.a_report tt) in
  octokit Sample.env_github = true
  /\ map put_content (github_puts tr)
     = [ban_list_document Demo.w_existing [Demo.old_entry] Demo.a_report]
  /\ map put_sha (github_puts tr) = [JStr (lit "abc123")].
Proof.
  intros tr.
  assert (Ho : octokit Sample.env_github = true) by reflexivity.
  split; [exact Ho|].
  destruct (addToGitHubBanList_appends Sample.env_github Demo.w_existing
              Demo.a_report _ [Demo.old_entry] (JStr (lit "abc123"))
              Ho eq_refl eq_refl) as (_ & Hc & Hs & _).
  split; [exact Hc | exact Hs].
Defined.

(** A list read as [[1e999, -0]] and a report whose target is [-0]: the
    commit holds [null], [0] and an entry whose [target_id] is [0]. *)
Lemma addToGitHubBanList_numbers_sample :
  let w :=
    {| import_node_fetch := Normal tt;
       fetch := fun _ _ => Normal {| ok := true; text := Normal [] |};
       getContent := fun _ _ _ =>
         Normal {| data_content :=
                     Some (Normal (JsonObj
                             [("banned_users",
                               JsonArr [JsonNum (S754_infinity false);
                                        JsonNum (S754_zero true)])]%string));
                   data_sha := JStr (lit "abc123") |};
       createOrUpdateFileContents := fun _ => Normal tt;
       date_added_clock := lit "2025-01-01T00:00:02.000Z";
       last_updated_clock := lit "2025-01-01T00:00:03.000Z" |} in
  let r :=
    {| id := lit "deadbeef00000000"; target := S754_zero true;
       reporter := num_of_Z 7; context := lit "spam"; reason := lit "scamming";
       timestamp := lit "2025-01-01T00:00:00.000Z"; ip := JStr (lit "::1");
       status := JStr (lit "approved");
       actionedAt := Some (lit "2025-01-01T00:00:01.000Z") |} in
  map put_content
    (github_puts (trace (addToGitHubBanList Sample.env_github w r tt)))
  = [JsonObj
       [("banned_users",
         JsonArr
           [JsonNull; JsonNum (S754_zero false);
            JsonObj [("target_id", JsonNum (S754_zero false));
                     ("reporter_id", JsonNum (num_of_Z 7));
                     ("reason", JsonStr (lit "scamming"));
                     ("context", JsonStr (lit "spam"));
                     ("date_added", JsonStr (lit "2025-01-01T00:00:02.000Z"));
                     ("report_id", JsonStr (lit "deadbeef00000000"))]]);
        ("last_updated", JsonStr (lit "2025-01-01T00:00:03.000Z"))]%string].
Proof. vm_compute. reflexivity. Qed.

(** With the integration on, a ban list that cannot be read (the read
    fails, or the answer has no content) is created: one commit, holding
    only the entry of the report as JSON writes it, and without a sha. *)
Theorem addToGitHubBanList_creates env w reportData :
  octokit env = true ->
  (is_normal (getContent w (GITHUB_OWNER (CONFIG env)) (GITHUB_REPO (CONFIG env))
                (GITHUB_FILE_PATH (CONFIG env))) = false
   \/ exists sha,
        getContent w (GITHUB_OWNER (CONFIG env)) (GITHUB_REPO (CONFIG env))
          (GITHUB_FILE_PATH (CONFIG env))
        = Normal {| data_content := None; data_sha := sha |}) ->
  let tr := trace (addToGitHubBanList env w reportData tt) in
  map put_content (github_puts tr) = [ban_list_document w [] reportData]
  /\ map put_sha (github_puts tr) = [JUndefined].
Proof.
  intros Ho Hget tr. subst tr.
  unfold addToGitHubBanList. cbv zeta.
  rewrite Ho, (octokit_enabled env Ho). cbn [negb orb]. unfold_eff.
  destruct Hget as [Hget | [sha Hget]].
  - destruct (getContent w _ _ _) as [d|e]; [discriminate|]. simpl.
    match goal with
    | |- context [createOrUpdateFileContents w ?req] =>
        destruct (createOrUpdateFileContents w req) as [[]|e']
    end; simpl; unfold ban_list_document; rewrite ?map_app; done.
  - rewrite Hget. simpl.
    match goal with
    | |- context [createOrUpdateFileContents w ?req] =>
        destruct (createOrUpdateFileContents w req) as [[]|e']
    end; simpl; unfold ban_list_document; rewrite ?map_app; done.
Qed.

Lemma addToGitHubBanList_creates_witness :
  let tr := trace (addToGitHubBanList Sample.env_github Sample.w
                     Demo.a_report tt) in
  octokit Sample.env_github = true
  /\ map put_content (github_puts tr)
     = [ban_list_document Sample.w [] Demo.a_report]
  /\ map put_sha (github_puts tr) = [JUndefined].
Proof.
  intros tr.
  assert (Ho : octokit Sample.env_github = true) by reflexivity.
  split; [exact Ho|].
  exact (addToGitHubBanList_creates Sample.env_github Sample.w Demo.a_report
           Ho (or_introl eq_refl)).
Defined.

(** With the integration on, a ban list that is there but holds no usable
    list (its content is not JSON, or is JSON [null], or has no
    [banned_users]) is overwritten: one commit under the sha of the file,
    holding only the entry of the report as JSON writes it. *)
Theorem addToGitHubBanList_overwrites env w reportData parsed sha :
  octokit env = true ->
  getContent w (GITHUB_OWNER (CONFIG env)) (GITHUB_REPO (CONFIG env))
    (GITHUB_FILE_PATH (CONFIG env))
  = Normal {| data_content := Some parsed; data_sha := sha |} ->
  is_normal parsed = false \/ parsed = Normal JsonNull
  \/ (exists doc, parsed = Normal doc /\ get_banned_users doc = Normal None) ->
  let tr := trace (addToGitHubBanList env w reportData tt) in
  map put_content (github_puts tr) = [ban_list_document w [] reportData]
  /\ map put_sha (github_puts tr) = [sha].
Proof.
  intros Ho Hget Hbad tr. subst tr.
  unfold addToGitHubBanList. cbv zeta.
  rewrite Ho, (octokit_enabled env Ho). cbn [negb orb]. unfold_eff.
  rewrite Hget. simpl.
  destruct Hbad as [Hbad | [-> | (doc & -> & Hdoc)]].
  - destruct parsed as [doc|e]; [discriminate|]. simpl.
    match goal with
    | |- context [createOrUpdateFileContents w ?req] =>
        destruct (createOrUpdateFileContents w req) as [[]|e']
    end; simpl; unfold ban_list_document; rewrite ?map_app; done.
  - simpl.
    match goal with
    | |- context [createOrUpdateFileContents w ?req] =>
        destruct (createOrUpdateFileContents w req) as [[]|e']
    end; simpl; unfold ban_list_document; rewrite ?map_app; done.
  - simpl. rewrite Hdoc. simpl.
    match goal with
    | |- context [createOrUpdateFileContents w ?req] =>
        destruct (createOrUpdateFileContents w req) as [[]|e']
    end; simpl; unfold ban_list_document; rewrite ?map_app; done.
Qed.

Lemma addToGitHubBanList_overwrites_witness :
  let tr := trace (addToGitHubBanList Sample.env_github Demo.w_garbled
                     Demo.a_report tt) in
  octokit Sample.env_github = true
  /\ map put_content (github_puts tr)
     = [ban_list_document Demo.w_garbled [] Demo.a_report]
  /\ map put_sha (github_puts tr) = [JStr (lit "abc123")].
Proof.
  intros tr.
  assert (Ho : octokit Sample.env_github = true) by reflexivity.
  split; [exact Ho|].
  exact (addToGitHubBanList_overwrites Sample.env_github Demo.w_garbled
           Demo.a_report _ (JStr (lit "abc123")) Ho eq_refl
           (or_introl eq_refl)).
Defined.

(** With the integration on, a ban list whose [banned_users] is there but
    is not an array (an object, a string, a number, [true]) gets no commit:
    the push throws, the error goes to the console and the function settles
    normally. *)
Theorem addToGitHubBanList_not_an_array env w reportData fields users sha :
  octokit env = true ->
  getContent w (GITHUB_OWNER (CONFIG env)) (GITHUB_REPO (CONFIG env))
    (GITHUB_FILE_PATH (CONFIG env))
  = Normal {| data_content := Some (Normal (JsonObj fields));
              data_sha := sha |} ->
  field_lookup "banned_users" fields = Some users ->
  json_truthy users = true ->
  (forall items, users <> JsonArr items) ->
  let run := addToGitHubBanList env w reportData tt in
  github_puts (trace run) = []
  /\ outcome run = Normal tt
  /\ Console [LText (lit "GitHub integration error:");
              LError (TypeError (lit "bannedUsers.push is not a function"))]
     ∈ trace run.
Proof.
  intros Ho Hget Hfield Htruthy Hnot run. subst run.
  unfold addToGitHubBanList. cbv zeta.
  rewrite Ho, (octokit_enabled env Ho). cbn [negb orb]. unfold_eff.
  rewrite Hget. simpl. rewrite Hfield. simpl. rewrite Htruthy.
  destruct users as [| | | |items|flds]; simpl;
    try (split_and!; [done | done | right; by left]).
  by destruct (Hnot items).
Qed.

Lemma addToGitHubBanList_not_an_array_witness :
  let run := addToGitHubBanList Sample.env_github Demo.w_not_array
               Demo.a_report tt in
  octokit Sample.env_github = true
  /\ github_puts (trace run) = []
  /\ outcome run = Normal tt
  /\ Console [LText (lit "GitHub integration error:");
              LError (TypeError (lit "bannedUsers.push is not a function"))]
     ∈ trace run.
Proof.
  intros run.
  assert (Ho : octokit Sample.env_github = true) by reflexivity.
  split; [exact Ho|].
  apply (addToGitHubBanList_not_an_array Sample.env_github Demo.w_not_array
           Demo.a_report _ (JsonObj []) (JStr (lit "abc123")) Ho eq_refl
           eq_refl eq_refl).
  intros items. discriminate.
Defined.

(** Only an approval talks to GitHub: a request whose [action] is not
    "approved" (a denial, an invalid request, an unknown id) causes no read
    and no commit of the ban list, whatever the configuration. *)
Theorem only_approval_reaches_github env w now req st :
  body_action req <> JStr (lit "approved") ->
  github_gets (trace (api_action env w now req st)) = []
  /\ github_puts (trace (api_action env w now req st)) = [].
Proof.
  intros Hne.
  destruct (api_action_cases env w now req st)
    as [[_ ->] | [(_ & _ & ->) | (_ & b & l & a & _ & _ & _ & _ & ->)]];
    cbn [trace fst snd]; try done.
  unfold action_events.
  destruct (str_strict_eq (lit "approved") (body_action req)) eqn:E.
  - apply str_strict_eq_true in E. contradiction.
  - done.
Qed.

Lemma only_approval_reaches_github_witness :
  body_action (Sample.deny Sample.report_id) <> JStr (lit "approved")
  /\ github_gets (trace (api_action Sample.env_github Demo.w_existing Sample.t1
                           (Sample.deny Sample.report_id) Sample.one_pending))
     = []
  /\ github_puts (trace (api_action Sample.env_github Demo.w_existing Sample.t1
                           (Sample.deny Sample.report_id) Sample.one_pending))
     = [].
Proof.
  assert (H : body_action (Sample.deny Sample.report_id)
              <> JStr (lit "approved")) by discriminate.
  split; [exact H|].
  exact (only_approval_reaches_github Sample.env_github Demo.w_existing
           Sample.t1 (Sample.deny Sample.report_id) Sample.one_pending H).
Defined.

Lemma ban_list_after_failed_read env w reportData :
  octokit env = true ->
  is_normal (getContent w (GITHUB_OWNER (CONFIG env)) (GITHUB_REPO (CONFIG env))
               (GITHUB_FILE_PATH (CONFIG env))) = false ->
  map put_content (github_puts (trace (addToGitHubBanList env w reportData tt)))
  = [ban_list_document w [] reportData].
Proof.
  intros Ho Hget. unfold addToGitHubBanList. cbv zeta.
  rewrite Ho, (octokit_enabled env Ho). cbn [negb orb]. unfold_eff.
  destruct (getContent w _ _ _) as [d|e]; [discriminate|]. simpl.
  match goal with
  | |- context [createOrUpdateFileContents w ?req] =>
      destruct (createOrUpdateFileContents w req) as [[]|e']
  end; simpl; unfold ban_list_document; rewrite ?map_app; done.
Qed.

(** No stored report has NaN for its target or its reporter: a submission
    with one is answered 400, and nothing assigns them afterwards. *)
Lemma stored_numbers_not_nan st l :
  reachable st -> l < length (heap st) ->
  isNaN (target (deref st l)) = false /\ isNaN (reporter (deref st l)) = false.
Proof.
  unfold reachable. intros Hreach. revert l. revert st Hreach.
  apply (rtc_ind_r (fun st => forall l, l < length (heap st) ->
           isNaN (target (deref st l)) = false
           /\ isNaN (reporter (deref st l)) = false)).
  - simpl. lia.
  - intros st1 st2 _ Hstep IH l Hl.
    destruct Hstep as [env rng now req | env w now req].
    + destruct (post_report_cases env rng now req st1)
        as [[_ Hrun] | [(_ & e & Hrun & _) | [(_ & t & r & _ & _ & _ & Hrun)
           | [(_ & _ & e & _ & Hrun)
             | ((_ & t' & r' & Ht' & Hr' & Hnt & Hnr & _)
                & t & r & c & s & Ht & Hr & _ & _ & Hrun)]]]];
        rewrite Hrun in *; cbn [final fst snd] in *; try by apply IH.
      assert (t' = t) as -> by congruence.
      assert (r' = r) as -> by congruence.
      simpl in Hl. rewrite length_app in Hl. simpl in Hl.
      destruct (decide (l = length (heap st1))) as [-> | Hne].
      * by rewrite deref_add_new.
      * rewrite deref_add_old by lia. apply IH. lia.
    + destruct (api_action_cases env w now req st1)
        as [[_ Hrun] | [(_ & _ & Hrun) | (_ & b & l0 & a & _ & _ & _ & _ & Hrun)]];
        rewrite Hrun in *; cbn [final fst snd] in *; try by apply IH.
      simpl in Hl. rewrite !length_alter in Hl.
      destruct (decide (l = l0)) as [-> | Hne].
      * rewrite deref_move_same by done. simpl. by apply IH.
      * rewrite deref_move_other by done. by apply IH.
Qed.

(** Approving a pending report with the integration on and no ban list to
    read commits, before the answer, a ban list of exactly one entry, that of
    the report just actioned: its reason, context and id as they are stored,
    and its target and reporter as JSON writes a number. Neither is NaN, so
    what is written is [null] exactly for an infinity (a target sent as
    "Infinity" is accepted by [POST /report]), and otherwise the number. *)
Theorem approval_commits_ban_entry env w now st reportId :
  reachable st ->
  ToBoolean reportId = true ->
  (exists r, r ∈ pending st /\ JStr (id r) = reportId) ->
  octokit env = true ->
  is_normal (getContent w (GITHUB_OWNER (CONFIG env)) (GITHUB_REPO (CONFIG env))
               (GITHUB_FILE_PATH (CONFIG env))) = false ->
  let run := api_action env w now
               {| body_reportId := reportId;
                  body_action := JStr (lit "approved") |} st in
  exists l r,
    last (actionedReports (final run)) = Some l
    /\ r = deref (final run) l
    /\ JStr (id r) = reportId
    /\ map put_content (github_puts (before_response (trace run)))
       = [JsonObj
            [("banned_users",
              JsonArr
                [JsonObj [("target_id", JSON_number (target r));
                          ("reporter_id", JSON_number (reporter r));
                          ("reason", JsonStr (reason r));
                          ("context", JsonStr (context r));
                          ("date_added", JsonStr (date_added_clock w));
                          ("report_id", JsonStr (id r))]]);
             ("last_updated", JsonStr (last_updated_clock w))]%string]
    /\ (JSON_number (target r) = JsonNull
        <-> exists sign, target r = S754_infinity sign)
    /\ (JSON_number (reporter r) = JsonNull
        <-> exists sign, reporter r = S754_infinity sign)
    /\ status_codes (trace run) = [200].
Proof.
  intros Hreach Hid Hin Ho Hget run. subst run.
  destruct (api_action_success env w now st reportId (JStr (lit "approved")))
    as (i & l & _ & Hl & Hrid & Hderef & ->); auto.
  cbn [trace final fst snd]. exists l, (deref (move_to_actioned now (JStr (lit "approved")) i l st) l).
  assert (Hlt : l < length (heap st)).
  { apply (inv_refs st (reachable_inv st Hreach)), elem_of_app. left.
    by eapply list_elem_of_lookup_2. }
  destruct (stored_numbers_not_nan st l Hreach Hlt) as [Hnt Hnr].
  rewrite Hderef.
  set (r := set_actionedAt now (set_status (JStr (lit "approved")) (deref st l)))
    in *.
  pose proof (ban_list_after_failed_read env w r Ho Hget) as Hcontent.
  destruct (addToGitHubBanList_run env w r tt) as [_ Hbg].
  split_and!.
  - apply last_snoc.
  - done.
  - done.
  - unfold action_events. simpl.
    rewrite before_response_background by done. simpl.
    unfold github_puts in *. rewrite omap_app. simpl.
    by rewrite app_nil_r.
  - change (target r) with (target (deref st l)).
    destruct (target (deref st l)); simpl; split; try done;
      try (intros [sign Hs]; discriminate); eauto.
  - change (reporter r) with (reporter (deref st l)).
    destruct (reporter (deref st l)); simpl; split; try done;
      try (intros [sign Hs]; discriminate); eauto.
  - unfold status_codes.
    by destruct (action_events_read env w (JStr (lit "approved")) r) as [-> _].
Qed.

Lemma approval_commits_ban_entry_witness :
  let st := Demo.infinite_pending in
  let run := api_action Sample.env_github Sample.w Sample.t1
               (Sample.approve Sample.report_id) st in
  reachable st
  /\ octokit Sample.env_github = true
  /\ exists l r,
       last (actionedReports (final run)) = Some l
       /\ r = deref (final run) l
       /\ JStr (id r) = JStr Sample.report_id
       /\ map put_content (github_puts (before_response (trace run)))
          = [JsonObj
               [("banned_users",
                 JsonArr
                   [JsonObj [("target_id", JSON_number (target r));
                             ("reporter_id", JSON_number (reporter r));
                             ("reason", JsonStr (reason r));
                             ("context", JsonStr (context r));
                             ("date_added", JsonStr (date_added_clock Sample.w));
                             ("report_id", JsonStr (id r))]]);
                ("last_updated", JsonStr (last_updated_clock Sample.w))]%string]
       /\ (JSON_number (target r) = JsonNull
           <-> exists sign, target r = S754_infinity sign)
       /\ (JSON_number (reporter r) = JsonNull
           <-> exists sign, reporter r = S754_infinity sign)
       /\ status_codes (trace run) = [200].
Proof.
  intros st run.
  assert (Hr : reachable st) by (apply rtc_once, step_submit).
  assert (Ho : octokit Sample.env_github = true) by reflexivity.
  split; [exact Hr|]. split; [exact Ho|].
  apply (approval_commits_ban_entry Sample.env_github Sample.w Sample.t1
           st (JStr Sample.report_id)).
  - exact Hr.
  - reflexivity.
  - exists (deref st 0). split; [|reflexivity].
    apply list_elem_of_here.
  - exact Ho.
  - reflexivity.
Defined.

(** The report sent with target "Infinity" is written with [null] for its
    target. *)
Lemma approval_of_infinite_target_sample :
  map put_content
    (github_puts (trace (api_action Sample.env_github Sample.w Sample.t1
                           (Sample.approve Sample.report_id)
                           Demo.infinite_pending)))
  = [JsonObj
       [("banned_users",
         JsonArr
           [JsonObj [("target_id", JsonNull);
                     ("reporter_id", JsonNum (num_of_Z 7));
                     ("reason", JsonStr (lit "scamming"));
                     ("context", JsonStr (lit "spam"));
                     ("date_added", JsonStr (lit "2025-01-01T00:00:02.000Z"));
                     ("report_id", JsonStr (lit "deadbeef00000000"))]]);
        ("last_updated", JsonStr (lit "2025-01-01T00:00:03.000Z"))]%string].
Proof. vm_compute. reflexivity. Qed.

(* ===================================================================== *)
(** * Identifiers sent as strings                                         *)
(* ===================================================================== *)

Lemma digit_not_whitespace (c : code_unit) :
  is_digit c = true -> is_whitespace c = false.
Proof.
  unfold is_digit, is_whitespace.
  intros [H1%N.leb_le H2%N.leb_le]%andb_true_iff.
  repeat match goal with
         | |- _ || _ = false => apply orb_false_iff; split
         end;
    try (apply N.eqb_neq; lia);
    apply andb_false_iff;
    first [ left; apply N.leb_gt; lia | right; apply N.leb_gt; lia ].
Qed.

Lemma trim_digits (s : jsstring) : forallb is_digit s = true -> trim s = s.
Proof.
  intros Hs. apply trim_clean. unfold no_outer_whitespace.
  apply andb_true_iff. split.
  - destruct s as [|c s]; [done|]. simpl in Hs.
    apply andb_true_iff in Hs as [Hc _].
    by rewrite digit_not_whitespace.
  - assert (Hrev : forallb is_digit (rev s) = true).
    { rewrite forallb_forall in *. intros c Hc. apply Hs. by apply in_rev. }
    destruct (rev s) as [|c t]; [done|]. simpl in Hrev.
    apply andb_true_iff in Hrev as [Hc _].
    by rewrite digit_not_whitespace.
Qed.

Lemma digit_cases (c : code_unit) :
  is_digit c = true ->
  c = 48%N \/ c = 49%N \/ c = 50%N \/ c = 51%N \/ c = 52%N
  \/ c = 53%N \/ c = 54%N \/ c = 55%N \/ c = 56%N \/ c = 57%N.
Proof.
  unfold is_digit. intros [H1%N.leb_le H2%N.leb_le]%andb_true_iff. lia.
Qed.

Lemma digit_value_digit (c : code_unit) :
  is_digit c = true -> digit_value 10 c = Some (c - 48)%N.
Proof.
  intros Hc. unfold digit_value. unfold is_digit in Hc. rewrite Hc.
  apply andb_true_iff in Hc as [H1%N.leb_le H2%N.leb_le].
  replace (c - 48 <? 10)%N with true; [done|].
  symmetry. apply N.ltb_lt. lia.
Qed.

Lemma span_digits_all (s : jsstring) (acc : Z) (count : nat) :
  forallb is_digit s = true ->
  span_digits 10 acc count s
  = (fold_left (fun a c => (a * 10 + Z.of_N (c - 48))%Z) s acc,
     count + length s, []).
Proof.
  revert acc count. induction s as [|c s IH]; intros acc count Hs; simpl.
  - by rewrite Nat.add_0_r.
  - simpl in Hs. apply andb_true_iff in Hs as [Hc Hs].
    rewrite digit_value_digit by done. rewrite IH by done.
    f_equal. f_equal. lia.
Qed.

Lemma fold_digits_nonneg (s : jsstring) (acc : Z) :
  (0 <= acc)%Z ->
  (0 <= fold_left (fun a c => (a * 10 + Z.of_N (c - 48))%Z) s acc)%Z.
Proof.
  revert acc. induction s as [|c s IH]; intros acc Hacc; simpl; [done|].
  apply IH. lia.
Qed.

Lemma round_decimal_integer (m : Z) :
  (0 <= m)%Z -> round_decimal false m 0 = num_of_Z m.
Proof.
  intros Hm. unfold round_decimal, num_of_Z.
  destruct m as [|p|p]; [done| |lia].
  change (10 ^ 0)%Z with 1%Z. by rewrite Z.mul_1_r.
Qed.

Lemma StringToNumber_dispatch_digits (c : code_unit) (rest : jsstring) :
  forallb is_digit (c :: rest) = true ->
  StringToNumber (c :: rest) = parse_unsigned_decimal false (c :: rest).
Proof.
  intros Hs. unfold StringToNumber. rewrite trim_digits by done.
  simpl in Hs. apply andb_true_iff in Hs as [Hc Hrest].
  destruct (digit_cases c Hc)
    as [-> | [-> | [-> | [-> | [-> | [-> | [-> | [-> | [-> | ->]]]]]]]]];
    try reflexivity.
  destruct rest as [|c2 t]; [reflexivity|].
  simpl in Hrest. apply andb_true_iff in Hrest as [Hc2 _].
  destruct (digit_cases c2 Hc2)
    as [-> | [-> | [-> | [-> | [-> | [-> | [-> | [-> | [-> | ->]]]]]]]]];
    reflexivity.
Qed.

(** An identifier sent as a string of decimal digits is the number the
    digits write: [Number("42")] is 42, so [target: "42"] and [target: 42]
    store the same target. *)
Theorem StringToNumber_digits (s : jsstring) :
  s <> [] -> forallb is_digit s = true ->
  StringToNumber s = num_of_Z (digits_value s)
  /\ number_or_coerce (JStr s)
     = number_or_coerce (JNum (num_of_Z (digits_value s))).
Proof.
  intros Hne Hs.
  assert (H : StringToNumber s = num_of_Z (digits_value s)).
  { destruct s as [|c rest]; [done|].
    rewrite StringToNumber_dispatch_digits by done.
    unfold parse_unsigned_decimal.
    assert (Hinf : jsstring_eqb (c :: rest) (lit "Infinity") = false).
    { unfold jsstring_eqb. apply bool_decide_eq_false. intros [= -> _].
      discriminate. }
    rewrite Hinf, span_digits_all by done. cbn [Nat.add length].
    cbn [Nat.eqb negb parse_exponent Z.of_nat]. rewrite Z.sub_0_r.
    apply round_decimal_integer. by apply fold_digits_nonneg. }
  split; [exact H|]. simpl. by rewrite H.
Qed.

Lemma StringToNumber_digits_witness :
  lit "42" <> [] /\ forallb is_digit (lit "42") = true
  /\ StringToNumber (lit "42") = num_of_Z (digits_value (lit "42"))
  /\ number_or_coerce (JStr (lit "42"))
     = number_or_coerce (JNum (num_of_Z (digits_value (lit "42")))).
Proof.
  assert (Hne : lit "42" <> []) by discriminate.
  assert (Hd : forallb is_digit (lit "42") = true) by reflexivity.
  split; [exact Hne|]. split; [exact Hd|].
  exact (StringToNumber_digits (lit "42") Hne Hd).
Defined.
